(** * Notification service: a shallow embedding of
      [services/notification-service/main.py]

    The service keeps two pieces of module-level state, the [notifications]
    table reached through [db_pool] and the dictionary [active_connections],
    and runs three kinds of coroutine over them: the Kafka consumer
    ([consume_notifications]), one [websocket_endpoint] per client socket and
    the three HTTP handlers.  Every coroutine is embedded as a function in a
    state-and-exception monad over [World]; a coroutine that is suspended in
    an [await] is represented by the value it would resume with.  In one
    place what other coroutines do during an [await] decides how the
    coroutine itself goes on: the sends of [broadcast_to_user], which
    therefore takes a schedule of the disconnects handled meanwhile. *)

From Stdlib Require Import ZArith String Ascii List Lia DecimalString DecimalPos.
From stdpp Require Import gmap strings list sorting.

Local Open Scope Z_scope.
Local Open Scope string_scope.
Local Open Scope list_scope.

(** ** Python builtins used by the service *)

Module Py.

(** [s.startswith(prefix)] *)
Fixpoint startswith (prefix s : string) : bool :=
  match prefix, s with
  | EmptyString, _ => true
  | String _ _, EmptyString => false
  | String a p, String b t => if Ascii.eqb a b then startswith p t else false
  end.

(** [s.split(sep)] for a one-character separator: never empty, and the
    segments hold no separator. *)
Fixpoint split (sep : ascii) (s : string) : list string :=
  match s with
  | EmptyString => [EmptyString]
  | String c t =>
      if Ascii.eqb c sep then EmptyString :: split sep t
      else match split sep t with
           | seg :: rest => String c seg :: rest
           | [] => [String c EmptyString]
           end
  end.

(** The whitespace [int] skips around a numeral.  A character stands for
    a code point below 256; of these [int] skips TAB..CR and the space
    (the C [isspace] of [PyLong_FromString]) and the two it first turns
    into a space, NEL (133) and NBSP (160).  FS..US (28..31) are not
    skipped: [int] raises [ValueError] on them. *)
Definition isspace (c : ascii) : bool :=
  let n := nat_of_ascii c in
  ((9 <=? n)%nat && (n <=? 13)%nat) || (n =? 32)%nat || (n =? 133)%nat || (n =? 160)%nat.

Definition isdigit (c : ascii) : bool :=
  let n := nat_of_ascii c in (48 <=? n)%nat && (n <=? 57)%nat.

Definition digit_value (c : ascii) : Z := Z.of_nat (nat_of_ascii c) - 48.

(** What [int] does to the whitespace before and after the numeral.  (This
    is not [str.strip], which drops FS..US as well; the service never
    calls that.) *)
Fixpoint lstrip (s : string) : string :=
  match s with
  | String c t => if isspace c then lstrip t else s
  | EmptyString => EmptyString
  end.

Fixpoint rstrip (s : string) : string :=
  match s with
  | EmptyString => EmptyString
  | String c t =>
      match rstrip t with
      | EmptyString => if isspace c then EmptyString else String c EmptyString
      | t' => String c t'
      end
  end.

Definition strip (s : string) : string := rstrip (lstrip s).

(** The digits of a decimal literal, most significant first.  A single
    underscore may separate two digits ([int("1_000") == 1000]);
    [after_digit] says whether the previous character was a digit. *)
Fixpoint digits (acc : Z) (after_digit : bool) (s : string) : option Z :=
  match s with
  | EmptyString => if after_digit then Some acc else None
  | String c t =>
      if isdigit c then digits (10 * acc + digit_value c) true t
      else if Ascii.eqb c "_" then
        if after_digit then digits acc false t else None
      else None
  end.

(** [int(s)] for a [str] of code points below 256: surrounding whitespace,
    an optional sign, decimal digits.  [None] is [ValueError].  The cap the
    interpreter puts on the number of digits is left out. *)
Definition int_of_str (s : string) : option Z :=
  match strip s with
  | String "+" t => digits 0 false t
  | String "-" t => Z.opp <$> digits 0 false t
  | t => digits 0 false t
  end.

(** [str(n)] for an [int]: its decimal numeral. *)
Definition str (n : Z) : string := NilZero.string_of_int (Z.to_int n).

(** [l.remove(x)]: drops the first element equal to [x]; [None] is the
    [ValueError] raised when there is none. *)
Fixpoint list_remove {A} `{EqDecision A} (x : A) (l : list A) : option (list A) :=
  match l with
  | [] => None
  | y :: t => if decide (y = x) then Some t else cons y <$> list_remove x t
  end.

End Py.

(** ** Values *)

(** JSON values as [json.loads] produces them and [send_json] serialises
    them (floats and nested objects do not occur in the service's data). *)
#[local] Unset Elimination Schemes.
Inductive json : Type :=
| JNull
| JBool (b : bool)
| JInt (z : Z)
| JStr (s : string)
| JList (l : list json).
#[local] Set Elimination Schemes.

(** A Python [dict] with string keys. *)
Abbreviation dict := (gmap string json).

Inductive exn : Type :=
| KeyError (key : json)            (* [d[key]] on a missing key *)
| IndexError
| ValueError
| TypeError
| DataError                        (* asyncpg refuses an argument or a clause *)
| WebSocketDisconnect
| TransportError                   (* any other failure of the socket *)
| HTTPException (status_code : Z) (detail : string).

(** A [WebSocket] object, by identity. *)
Definition WebSocket := nat.

(** A row of the [notifications] table.  [created_at] is a point on the UTC
    time line in microseconds. *)
Record Row : Type := mkRow {
  id : Z;
  user_id : Z;
  type_ : string;
  title : string;
  message : string;
  task_id : option Z;
  created_at : Z;
  read : bool
}.

(** ** The state the coroutines share *)

Record World : Type := mkWorld {
  notifications : list Row;                  (* the table, in insertion order *)
  next_id : Z;                               (* the sequence behind [id] *)
  active_connections : gmap Z (list WebSocket);
  link : WebSocket -> option exn;            (* what a send on the socket raises, if anything *)
  outbox : list (WebSocket * dict);          (* frames handed to the peers, oldest first *)
  accepted : list WebSocket;                 (* [websocket.accept()] calls *)
  closed : list (WebSocket * Z * string);    (* [websocket.close(code, reason)] calls *)
  stdout : list dict;                        (* what [print] wrote *)
  consumer_stopped : bool                    (* [consumer.stop()] ran *)
}.

Definition set_notifications (f : list Row -> list Row) (w : World) : World :=
  mkWorld (f (notifications w)) (next_id w) (active_connections w) (link w)
          (outbox w) (accepted w) (closed w) (stdout w) (consumer_stopped w).

Definition set_next_id (n : Z) (w : World) : World :=
  mkWorld (notifications w) n (active_connections w) (link w)
          (outbox w) (accepted w) (closed w) (stdout w) (consumer_stopped w).

Definition set_active_connections
    (f : gmap Z (list WebSocket) -> gmap Z (list WebSocket)) (w : World) : World :=
  mkWorld (notifications w) (next_id w) (f (active_connections w)) (link w)
          (outbox w) (accepted w) (closed w) (stdout w) (consumer_stopped w).

Definition set_link (f : WebSocket -> option exn) (w : World) : World :=
  mkWorld (notifications w) (next_id w) (active_connections w) f
          (outbox w) (accepted w) (closed w) (stdout w) (consumer_stopped w).

Definition set_outbox (f : list (WebSocket * dict) -> list (WebSocket * dict))
    (w : World) : World :=
  mkWorld (notifications w) (next_id w) (active_connections w) (link w)
          (f (outbox w)) (accepted w) (closed w) (stdout w) (consumer_stopped w).

Definition set_accepted (f : list WebSocket -> list WebSocket) (w : World) : World :=
  mkWorld (notifications w) (next_id w) (active_connections w) (link w)
          (outbox w) (f (accepted w)) (closed w) (stdout w) (consumer_stopped w).

Definition set_closed
    (f : list (WebSocket * Z * string) -> list (WebSocket * Z * string))
    (w : World) : World :=
  mkWorld (notifications w) (next_id w) (active_connections w) (link w)
          (outbox w) (accepted w) (f (closed w)) (stdout w) (consumer_stopped w).

Definition set_stdout (f : list dict -> list dict) (w : World) : World :=
  mkWorld (notifications w) (next_id w) (active_connections w) (link w)
          (outbox w) (accepted w) (closed w) (f (stdout w)) (consumer_stopped w).

Definition set_consumer_stopped (b : bool) (w : World) : World :=
  mkWorld (notifications w) (next_id w) (active_connections w) (link w)
          (outbox w) (accepted w) (closed w) (stdout w) b.

(** ** The monad: state that survives an exception *)

Inductive result (A : Type) : Type :=
| Ok (a : A)
| Raise (e : exn).
Arguments Ok {A} a.
Arguments Raise {A} e.

Definition M (A : Type) : Type := World -> result A * World.

Definition ret {A} (a : A) : M A := fun w => (Ok a, w).

Definition raise {A} (e : exn) : M A := fun w => (Raise e, w).

Definition bind {A B} (m : M A) (k : A -> M B) : M B :=
  fun w => match m w with
           | (Ok a, w') => k a w'
           | (Raise e, w') => (Raise e, w')
           end.

Definition get : M World := fun w => (Ok w, w).

Definition modify (f : World -> World) : M unit := fun w => (Ok tt, f w).

Definition lift {A} (e : exn) (o : option A) : M A :=
  match o with Some a => ret a | None => raise e end.

Declare Scope py_scope.
Delimit Scope py_scope with py.
Notation "x <~ m ;; k" := (bind m (fun x => k))
  (at level 100, m at next level, right associativity) : py_scope.
Notation "m ;;; k" := (bind m (fun _ => k))
  (at level 100, right associativity) : py_scope.
Local Open Scope py_scope.

(** [for x in l: body(x)] *)
Fixpoint for_each {A} (body : A -> M unit) (l : list A) : M unit :=
  match l with
  | [] => ret tt
  | x :: t => body x ;;; for_each body t
  end.

(** ** The store: the statements the service sends to PostgreSQL *)

(** Every statement runs on a connection taken from [db_pool] and given back
    afterwards: [async with db_pool.acquire() as conn] in the consumer and
    the socket handler, [conn = Depends(get_db)] in the HTTP handlers.  The
    pool is taken to be open and is not part of [World]; taking a
    connection sends no statement. *)

(** [get_db], lines 46-48, as FastAPI runs it for a handler that declares
    [conn = Depends(get_db)]: the dependency is resolved first, so the
    connection is taken before the first line of the handler's body (before
    [verify_token], that is), and it is given back when the body has
    returned or raised. *)
Definition get_db {A} (body : M A) : M A := body.

(** [notification.get('task_id')] as the nullable integer column takes it:
    a missing key and [null] are both SQL NULL. *)
Definition nullable_int (v : option json) : option (option Z) :=
  match v with
  | None | Some JNull => Some None
  | Some (JInt k) => Some (Some k)
  | Some _ => None
  end.

(** [INSERT INTO notifications (user_id, type, title, message, task_id,
    created_at) VALUES ($1, $2, $3, $4, $5, $6)]: the store assigns [id]
    and the default [read = false]; an argument of the wrong type for its
    column is refused. *)
Definition execute_insert (a1 a2 a3 a4 : json) (a5 : option json) (now : Z) : M unit :=
  match a1, a2, a3, a4, nullable_int a5 with
  | JInt u, JStr ty, JStr ti, JStr me, Some tk =>
      fun w =>
        (Ok tt,
         set_next_id (next_id w + 1)
           (set_notifications
              (fun t => t ++ [mkRow (next_id w) u ty ti me tk now false]) w))
  | _, _, _, _, _ => raise DataError
  end.

Definition set_read (r : Row) : Row :=
  mkRow (id r) (user_id r) (type_ r) (title r) (message r) (task_id r)
        (created_at r) true.

Definition mark_row (notif_id uid : Z) (r : Row) : Row :=
  if (id r =? notif_id)%Z && (user_id r =? uid)%Z then set_read r else r.

(** [UPDATE notifications SET read = true WHERE id = $1 AND user_id = $2] *)
Definition execute_mark_read (notif_id uid : Z) : M unit :=
  modify (set_notifications (fmap (mark_row notif_id uid))).

(** [ORDER BY created_at DESC].  SQL leaves the order of rows with equal
    timestamps open; the stable merge sort fixes one. *)
Definition newest_first (r1 r2 : Row) : Prop := created_at r2 <= created_at r1.

#[global] Instance newest_first_dec : RelDecision newest_first :=
  fun r1 r2 => Z_le_dec (created_at r2) (created_at r1).

Definition order_by_created_at_desc : list Row -> list Row := merge_sort newest_first.

(** [LIMIT n]: PostgreSQL refuses a negative row count. *)
Definition sql_limit (n : Z) (rows : list Row) : M (list Row) :=
  if (n <? 0)%Z then raise DataError else ret (take (Z.to_nat n) rows).

Definition owned_by (uid : Z) (r : Row) : Prop := user_id r = uid.
Definition unread_of (uid : Z) (r : Row) : Prop := user_id r = uid /\ read r = false.

#[global] Instance owned_by_dec uid r : Decision (owned_by uid r) :=
  Z.eq_dec (user_id r) uid.
#[global] Instance unread_of_dec uid r : Decision (unread_of uid r) :=
  and_dec (Z.eq_dec (user_id r) uid) (bool_eq_dec (read r) false).

(** [SELECT ... WHERE user_id = $1 AND read = false ORDER BY created_at DESC
    LIMIT 20] *)
Definition fetch_unread (uid : Z) : M (list Row) :=
  w <~ get ;;
  sql_limit 20 (order_by_created_at_desc (filter (unread_of uid) (notifications w))).

(** [SELECT ... WHERE user_id = $1 ORDER BY created_at DESC LIMIT $2] *)
Definition fetch_for_user (uid limit : Z) : M (list Row) :=
  w <~ get ;;
  sql_limit limit (order_by_created_at_desc (filter (owned_by uid) (notifications w))).

(** [SELECT COUNT( * ) FROM notifications WHERE user_id = $1 AND read = false] *)
Definition fetchval_unread_count (uid : Z) : M Z :=
  w <~ get ;;
  ret (Z.of_nat (length (filter (unread_of uid) (notifications w)))).

(** ** The connection registry: [active_connections] *)

(** [active_connections[user_id]] *)
Definition connections_of (uid : Z) : M (list WebSocket) :=
  w <~ get ;; lift (KeyError (JInt uid)) (active_connections w !! uid).

(** Lines 130-132 of the handler:
    [if user_id not in active_connections: active_connections[user_id] = []]
    then [active_connections[user_id].append(websocket)]. *)
Definition register (uid : Z) (websocket : WebSocket) : M unit :=
  w <~ get ;;
  (match active_connections w !! uid with
   | None => modify (set_active_connections (insert uid []))
   | Some _ => ret tt
   end) ;;;
  l <~ connections_of uid ;;
  modify (set_active_connections (insert uid (l ++ [websocket]))).

(** [active_connections[user_id].remove(ws)] *)
Definition remove_connection (uid : Z) (ws : WebSocket) : M unit :=
  l <~ connections_of uid ;;
  l' <~ lift ValueError (Py.list_remove ws l) ;;
  modify (set_active_connections (insert uid l')).

(** Lines 172-174, the body of [except WebSocketDisconnect]: remove the
    socket, then [if not active_connections[user_id]: del ...]. *)
Definition deregister (uid : Z) (websocket : WebSocket) : M unit :=
  remove_connection uid websocket ;;;
  l <~ connections_of uid ;;
  match l with
  | [] => modify (set_active_connections (delete uid))
  | _ :: _ => ret tt
  end.

(** ** Pushing to sockets *)

(** [await websocket.send_json(payload)] *)
Definition send_json (websocket : WebSocket) (payload : dict) : M unit :=
  fun w =>
    match link w websocket with
    | None => (Ok tt, set_outbox (fun o => o ++ [(websocket, payload)]) w)
    | Some e => (Raise e, w)
    end.

(** While [broadcast_to_user] is suspended in [await websocket.send_json]
    the event loop runs other coroutines.  The ones that touch what the
    broadcast goes on to use are the socket handlers whose receive raised
    [WebSocketDisconnect]: their [except] clause (lines 172-174) takes a
    socket out of [active_connections].  A schedule lists, for the first
    send, the second send and so on, the sockets whose handler runs that
    clause during the send; sends past the end of the schedule are not
    interrupted.  (A handshake that registers a socket during a send is
    not among the schedules: it runs before or after the broadcast.) *)
Definition schedule : Type := list (list (Z * WebSocket)).

(** The [except] clause of another handler.  What it raises stays in that
    handler's task. *)
Definition disconnect_clause (handler : Z * WebSocket) (w : World) : World :=
  snd (deregister (fst handler) (snd handler) w).

Definition others_run (handlers : list (Z * WebSocket)) (w : World) : World :=
  foldl (fun w' handler => disconnect_clause handler w') w handlers.

(** The first loop of [broadcast_to_user], lines 101-105.
    [for websocket in active_connections[user_id]] walks the list object
    itself by position [i], so it meets the list as the clauses scheduled
    during the earlier sends left it; the walk ends when there is no
    element at [i], which is also the case once the entry was deleted (its
    list was emptied first).  The bare [except:] around each send collects
    the sockets whose send raised.  In each round the frame is handed over
    or the send fails, then the clauses scheduled for this send run, then
    the loop takes the next position.  [rounds] is the length of the list
    when the loop starts: the list only loses elements while the loop
    runs, so the walk never takes more rounds. *)
Fixpoint push_all (rounds : nat) (uid : Z) (notification : dict) (meanwhile : schedule)
    (i : nat) (disconnected : list WebSocket) : M (list WebSocket) :=
  match rounds with
  | O => ret disconnected
  | S rounds' =>
      fun w =>
        match active_connections w !! uid ≫= (fun conns => conns !! i) with
        | None => (Ok disconnected, w)
        | Some websocket =>
            let sent := send_json websocket notification w in
            push_all rounds' uid notification (tail meanwhile) (S i)
              (match fst sent with
               | Ok _ => disconnected
               | Raise _ => disconnected ++ [websocket]
               end)
              (others_run (hd [] meanwhile) (snd sent))
        end
  end.

(** Lines 98-109.  The second loop has no [await]: it runs in one piece. *)
Definition broadcast_to_user (meanwhile : schedule) (uid : Z) (notification : dict)
    : M unit :=
  w <~ get ;;
  match active_connections w !! uid with
  | Some conns =>
      disconnected <~ push_all (length conns) uid notification meanwhile 0 [] ;;
      for_each (remove_connection uid) disconnected
  | None => ret tt
  end.

(** ** The Kafka consumer *)

(** A record of the topic as the loop meets it: the deserialised value,
    what [datetime.utcnow()] returns while it is handled, and the schedule
    of the broadcast made for it. *)
Record Msg : Type := mkMsgWith { value : dict; utcnow : Z; meanwhile : schedule }.

(** A record whose broadcast no disconnect interrupts. *)
Abbreviation mkMsg value utcnow := (mkMsgWith value utcnow []).

(** [d[key]] *)
Definition getitem (d : dict) (key : string) : M json :=
  lift (KeyError (JStr key)) (d !! key).

(** The body of [async for msg in consumer]. *)
Definition handle_message (msg : Msg) : M unit :=
  let notification := value msg in
  modify (set_stdout (fun o => o ++ [notification])) ;;;
  a1 <~ getitem notification "user_id" ;;
  a2 <~ getitem notification "type" ;;
  a3 <~ getitem notification "title" ;;
  a4 <~ getitem notification "message" ;;
  execute_insert a1 a2 a3 a4 (notification !! "task_id") (utcnow msg) ;;;
  uid <~ getitem notification "user_id" ;;
  match uid with
  | JInt u => broadcast_to_user (meanwhile msg) u notification
  | _ => ret tt
  end.

(** [consume_notifications] over the records delivered so far.  While the
    loop runs the coroutine waits for the next record; an exception leaves
    the loop through [finally: await consumer.stop()] and ends the task. *)
Definition consume_notifications (msgs : list Msg) : M unit :=
  fun w =>
    match for_each handle_message msgs w with
    | (Ok _, w') => (Ok tt, w')
    | (Raise e, w') => (Raise e, set_consumer_stopped true w')
    end.

(** ** Credentials, the socket handler and the HTTP handlers *)

(** [int(x)] *)
Definition py_int (x : json) : result Z :=
  match x with
  | JInt z => Ok z
  | JBool b => Ok (if b then 1 else 0)
  | JStr s => match Py.int_of_str s with Some z => Ok z | None => Raise ValueError end
  | JNull | JList _ => Raise TypeError
  end.

(** [not token] for an [Optional[str]] *)
Definition falsy_str (token : option string) : bool :=
  match token with
  | None | Some EmptyString => true
  | Some (String _ _) => false
  end.

(** What [await websocket.receive_text()] resumes with. *)
Inductive frame : Type :=
| Text (data : string)
| Fails (e : exn).

(** How far a handler got: it returned, or it is suspended in
    [receive_text()] with the socket open. *)
Inductive status : Type :=
| Returned
| Receiving.

(** [try: body except WebSocketDisconnect: handler] *)
Definition except_disconnect (body : M status) (handler : M unit) : M status :=
  fun w =>
    match body w with
    | (Raise WebSocketDisconnect, w') => (handler ;;; ret Returned) w'
    | r => r
    end.

Definition close (websocket : WebSocket) (code : Z) (reason : string) : M unit :=
  modify (set_closed (fun c => c ++ [(websocket, code, reason)])).

Definition accept (websocket : WebSocket) : M unit :=
  modify (set_accepted (fun a => a ++ [websocket])).

(** The handling of one text frame, lines 163-169. *)
Definition on_text (uid : Z) (data : string) : M unit :=
  if Py.startswith "read:" data then
    seg <~ lift IndexError (Py.split ":" data !! 1%nat) ;;
    notif_id <~ lift ValueError (Py.int_of_str seg) ;;
    execute_mark_read notif_id uid
  else ret tt.

(** [while True: data = await websocket.receive_text(); ...] over the frames
    that have arrived. *)
Fixpoint receive_loop (uid : Z) (inbound : list frame) : M status :=
  match inbound with
  | [] => ret Receiving
  | Text data :: rest => on_text uid data ;;; receive_loop uid rest
  | Fails e :: _ => raise e
  end.

Section Service.

(** [jwt.decode(token, SECRET_KEY, algorithms=[ALGORITHM])]: the claims of
    a token that verifies, [None] for [JWTError]. *)
Variable jwt_decode : string -> option dict.

(** [datetime.isoformat] *)
Variable isoformat : Z -> string.

(** [None] is Python's [None].  [int] raises nothing but [ValueError] and
    [TypeError], and the [except] clause catches both. *)
Definition verify_token (token : string) : option Z :=
  match jwt_decode token with
  | None => None
  | Some payload =>
      match payload !! "sub" with
      | None | Some JNull => None
      | Some user_id_str =>
          match py_int user_id_str with
          | Ok user_id => Some user_id
          | Raise _ => None
          end
      end
  end.

(** The frame sent for a row on connect, lines 149-157. *)
Definition notif_json (notif : Row) : dict :=
  {[ "id" := JInt (id notif);
     "type" := JStr (type_ notif);
     "title" := JStr (title notif);
     "message" := JStr (message notif);
     "task_id" := match task_id notif with Some k => JInt k | None => JNull end;
     "created_at" := JStr (isoformat (created_at notif));
     "read" := JBool (read notif) ]}.

(** Lines 136-157: the unread rows, newest first, one frame each. *)
Definition replay (websocket : WebSocket) (uid : Z) : M unit :=
  notifs <~ fetch_unread uid ;;
  for_each (fun notif => send_json websocket (notif_json notif)) notifs.

(** The [try] block with its handler, from any point of the receive loop
    on: what a suspended handler does with the frames that arrive next. *)
Definition resume (websocket : WebSocket) (uid : Z) (inbound : list frame) : M status :=
  except_disconnect (receive_loop uid inbound) (deregister uid websocket).

Definition websocket_endpoint (websocket : WebSocket) (token : option string)
    (inbound : list frame) : M status :=
  if falsy_str token then
    close websocket 1008 "Token required" ;;; ret Returned
  else
    match verify_token (default "" token) with
    | None | Some 0 =>
        close websocket 1008 "Invalid token" ;;; ret Returned
    | Some uid =>
        accept websocket ;;;
        register uid websocket ;;;
        except_disconnect
          (replay websocket uid ;;; receive_loop uid inbound)
          (deregister uid websocket)
    end.

(** [user_id = verify_token(token)] followed by
    [if not user_id: raise HTTPException(401, "Invalid token")]. *)
Definition require_user (token : string) : M Z :=
  match verify_token token with
  | None | Some 0 => raise (HTTPException 401 "Invalid token")
  | Some uid => ret uid
  end.

(** [GET /api/notifications]; [limit] defaults to 50. *)
Definition get_notifications (token : string) (limit : option Z) : M (list Row) :=
  get_db (
    uid <~ require_user token ;;
    fetch_for_user uid (default 50 limit)).

(** [POST /api/notifications/{notification_id}/read] *)
Definition mark_as_read (notification_id : Z) (token : string) : M dict :=
  get_db (
    uid <~ require_user token ;;
    execute_mark_read notification_id uid ;;;
    ret {[ "success" := JBool true ]}).

(** [GET /api/notifications/unread-count] *)
Definition get_unread_count (token : string) : M dict :=
  get_db (
    uid <~ require_user token ;;
    count <~ fetchval_unread_count uid ;;
    ret {[ "count" := JInt count ]}).

End Service.

(** ** Vocabulary of the statements *)

(** A send on the socket succeeds. *)
Definition alive (w : World) (ws : WebSocket) : Prop := link w ws = None.

#[global] Instance alive_dec w ws : Decision (alive w ws) :=
  match link w ws as o return Decision (o = None) with
  | None => left eq_refl
  | Some e =>
      right (fun H : Some e = None =>
               eq_ind (Some e) (fun o => match o with Some _ => True | None => False end)
                      I None H)
  end.

(** The frames one broadcast of [notification] adds to the outbox. *)
Definition pushed (w : World) (notification : dict) (conns : list WebSocket)
    : list (WebSocket * dict) :=
  (fun ws => (ws, notification)) <$> filter (alive w) conns.

(** The world one broadcast leaves behind. *)
Definition after_broadcast (uid : Z) (notification : dict) (w : World) : World :=
  match active_connections w !! uid with
  | None => w
  | Some conns =>
      set_active_connections (insert uid (filter (alive w) conns))
        (set_outbox (fun o => o ++ pushed w notification conns) w)
  end.

Definition required_fields : list string := ["user_id"; "type"; "title"; "message"].

(** The event holds these fields, typed as its topic promises. *)
Definition carries (ev : dict) (u : Z) (ty ti me : string) (tk : option Z) : Prop :=
  ev !! "user_id" = Some (JInt u) /\ ev !! "type" = Some (JStr ty) /\
  ev !! "title" = Some (JStr ti) /\ ev !! "message" = Some (JStr me) /\
  nullable_int (ev !! "task_id") = Some tk.

Definition well_formed (ev : dict) : Prop :=
  exists u ty ti me tk, carries ev u ty ti me tk.

Definition malformed (ev : dict) : Prop :=
  exists k, k ∈ required_fields /\ ev !! k = None.

(** No handler runs its disconnect clause while the broadcast made for the
    record waits in a send. *)
Definition uninterrupted (m : Msg) : Prop := meanwhile m = [].

(** No clause of the schedule belongs to a socket of [uid]. *)
Definition spares (uid : Z) (others : schedule) : Prop :=
  Forall (Forall (fun handler => fst handler <> uid)) others.

Definition printed (ev : dict) (w : World) : World :=
  set_stdout (fun o => o ++ [ev]) w.

Definition inserted (u : Z) (ty ti me : string) (tk : option Z) (now : Z) (w : World)
    : World :=
  set_next_id (next_id w + 1)
    (set_notifications (fun t => t ++ [mkRow (next_id w) u ty ti me tk now false]) w).

(** The registry once [uid]'s list has become [l']. *)
Definition without (uid : Z) (l' : list WebSocket) (reg : gmap Z (list WebSocket))
    : gmap Z (list WebSocket) :=
  match l' with
  | [] => delete uid reg
  | _ :: _ => <[uid := l']> reg
  end.

Definition no_empty_entry (reg : gmap Z (list WebSocket)) : Prop :=
  forall uid l, reg !! uid = Some l -> l <> [].

Definition single_owner (reg : gmap Z (list WebSocket)) : Prop :=
  (forall uid l, reg !! uid = Some l -> NoDup l) /\
  (forall u1 u2 l1 l2 ws,
      reg !! u1 = Some l1 -> reg !! u2 = Some l2 -> ws ∈ l1 -> ws ∈ l2 -> u1 = u2).

Definition registered (reg : gmap Z (list WebSocket)) (ws : WebSocket) : Prop :=
  exists uid l, reg !! uid = Some l /\ ws ∈ l.

Inductive registry_op : Type :=
| Register (uid : Z) (ws : WebSocket)
| Deregister (uid : Z) (ws : WebSocket).

Definition apply_op (op : registry_op) : M unit :=
  match op with
  | Register uid ws => register uid ws
  | Deregister uid ws => deregister uid ws
  end.

Fixpoint run_ops (ops : list registry_op) (w : World) : World :=
  match ops with
  | [] => w
  | op :: rest => run_ops rest (snd (apply_op op w))
  end.

(** Every [Register] of the trace concerns a socket that is not registered
    at that point: a handler registers the socket it was just given. *)
Fixpoint registers_fresh (ops : list registry_op) (w : World) : Prop :=
  match ops with
  | [] => True
  | op :: rest =>
      match op with
      | Register _ ws => ~ registered (active_connections w) ws
      | Deregister _ _ => True
      end /\ registers_fresh rest (snd (apply_op op w))
  end.

(** Follows the spec's words: an acknowledgement is the literal
    [read:<notification_id>], the id an integer written in decimal. *)
Definition ack_literal (data : string) : Prop :=
  exists n : Z, data = "read:" +:+ Py.str n.

(** The value of a decimal numeral read after [acc]. *)
Fixpoint uint_value (acc : Z) (d : Decimal.uint) : Z :=
  match d with
  | Decimal.Nil => acc
  | Decimal.D0 d => uint_value (10 * acc + 0) d
  | Decimal.D1 d => uint_value (10 * acc + 1) d
  | Decimal.D2 d => uint_value (10 * acc + 2) d
  | Decimal.D3 d => uint_value (10 * acc + 3) d
  | Decimal.D4 d => uint_value (10 * acc + 4) d
  | Decimal.D5 d => uint_value (10 * acc + 5) d
  | Decimal.D6 d => uint_value (10 * acc + 6) d
  | Decimal.D7 d => uint_value (10 * acc + 7) d
  | Decimal.D8 d => uint_value (10 * acc + 8) d
  | Decimal.D9 d => uint_value (10 * acc + 9) d
  end.

Fixpoint all_chars (P : ascii -> bool) (s : string) : bool :=
  match s with
  | EmptyString => true
  | String c t => P c && all_chars P t
  end.

Definition numeral_char (c : ascii) : bool := Py.isdigit c || Ascii.eqb c "-".

(** ** Sample data *)

(** A decoder that knows three tokens, for users 42, 7 and 0. *)
Definition sample_decode (token : string) : option dict :=
  if String.eqb token "token-42" then Some {[ "sub" := JStr "42" ]}
  else if String.eqb token "token-7" then Some {[ "sub" := JStr "7" ]}
  else if String.eqb token "token-0" then Some {[ "sub" := JStr "0" ]}
  else None.

Definition sample_isoformat (t : Z) : string := "T+" +:+ Py.str t.

(** The service right after start-up: empty table, nobody connected, every
    socket healthy. *)
Definition boot : World := mkWorld [] 1 ∅ (fun _ => None) [] [] [] [] false.

Definition sample_event : dict :=
  {[ "user_id" := JInt 42; "type" := JStr "task_assigned";
     "title" := JStr "New Task Assigned";
     "message" := JStr "You have been assigned to task: X";
     "task_id" := JInt 9 ]}.

(** The same event without its [title]. *)
Definition untitled_event : dict :=
  {[ "user_id" := JInt 42; "type" := JStr "task_assigned";
     "message" := JStr "You have been assigned to task: X" ]}.

Definition sample_row : Row :=
  mkRow 1 42 "task_assigned" "New Task Assigned" "You have been assigned to task: X"
        (Some 9) 11 false.

(** User 42 holds one open socket, number 0, suspended in the receive loop. *)
Definition one_listener : World :=
  snd (websocket_endpoint sample_decode sample_isoformat 0%nat (Some "token-42") [] boot).

(** Every socket has gone away since. *)
Definition cut_links (w : World) : World := set_link (fun _ => Some TransportError) w.

(** [one_listener] after the links were cut and one event was broadcast. *)
Definition pruned : World :=
  snd (broadcast_to_user [] 42 sample_event (cut_links one_listener)).

(** The table holds [sample_row] only. *)
Definition one_unread : World :=
  snd (consume_notifications [mkMsg sample_event 11] boot).

(** Three events for user 42, received at times 11 < 12 < 13. *)
Definition three_unread : World :=
  snd (consume_notifications
         [mkMsg sample_event 11; mkMsg sample_event 12; mkMsg sample_event 13] boot).

(** ** Runs of the service and what they keep *)

(** What the service does to a stored row: nothing but raise its [read]
    flag. *)
Definition evolves (r r' : Row) : Prop :=
  id r' = id r /\ user_id r' = user_id r /\ type_ r' = type_ r /\
  title r' = title r /\ message r' = message r /\ task_id r' = task_id r /\
  created_at r' = created_at r /\ (read r = true -> read r' = true).

(** Every row of [t] is still in [t'], at its place. *)
Definition table_evolves (t t' : list Row) : Prop :=
  forall i r, t !! i = Some r -> exists r', t' !! i = Some r' /\ evolves r r'.

Definition rows_evolve (w w' : World) : Prop :=
  table_evolves (notifications w) (notifications w').

(** The ids of the table grow with the insertion order and stay below the
    sequence. *)
Definition ids_increase (w : World) : Prop :=
  StronglySorted Z.lt (id <$> notifications w) /\
  Forall (fun r => id r < next_id w) (notifications w).

(** [m] takes every world to one related to it by [R], whether it returns
    or raises. *)
Definition keeps {A} (R : World -> World -> Prop) (m : M A) : Prop :=
  forall w, R w (snd (m w)).

(** One step of the service as a whole: a coroutine runs from one
    suspension to the next, or the network changes. *)
Inductive action : Type :=
| Consume (msgs : list Msg)
| Connect (websocket : WebSocket) (token : option string) (inbound : list frame)
| Frames (websocket : WebSocket) (uid : Z) (inbound : list frame)
| ListNotifications (token : string) (limit : option Z)
| MarkAsRead (notification_id : Z) (token : string)
| UnreadCount (token : string)
| LinksChange (link' : WebSocket -> option exn).

Definition perform (jwt_decode : string -> option dict) (isoformat : Z -> string)
    (a : action) (w : World) : World :=
  match a with
  | Consume msgs => snd (consume_notifications msgs w)
  | Connect websocket token inbound =>
      snd (websocket_endpoint jwt_decode isoformat websocket token inbound w)
  | Frames websocket uid inbound => snd (resume websocket uid inbound w)
  | ListNotifications token limit => snd (get_notifications jwt_decode token limit w)
  | MarkAsRead notification_id token => snd (mark_as_read jwt_decode notification_id token w)
  | UnreadCount token => snd (get_unread_count jwt_decode token w)
  | LinksChange link' => set_link link' w
  end.

Fixpoint perform_all (jwt_decode : string -> option dict) (isoformat : Z -> string)
    (trace : list action) (w : World) : World :=
  match trace with
  | [] => w
  | a :: rest => perform_all jwt_decode isoformat rest (perform jwt_decode isoformat a w)
  end.

(** Every [Connect] of the trace brings a socket that is in no list at that
    point. *)
Fixpoint connects_fresh (jwt_decode : string -> option dict) (isoformat : Z -> string)
    (trace : list action) (w : World) : Prop :=
  match trace with
  | [] => True
  | a :: rest =>
      match a with
      | Connect websocket _ _ => ~ registered (active_connections w) websocket
      | _ => True
      end /\ connects_fresh jwt_decode isoformat rest (perform jwt_decode isoformat a w)
  end.

(** Two relations on worlds: the table and its sequence are the same, the
    registry is the same. *)
Definition same_table (w w' : World) : Prop :=
  notifications w' = notifications w /\ next_id w' = next_id w.

Definition same_registry (w w' : World) : Prop :=
  active_connections w' = active_connections w.

(** The three invariants as relations: each holds after if it held
    before. *)
Definition ids_kept (w w' : World) : Prop := ids_increase w -> ids_increase w'.

Definition owner_kept (w w' : World) : Prop :=
  single_owner (active_connections w) -> single_owner (active_connections w').

Definition entries_kept (w w' : World) : Prop :=
  no_empty_entry (active_connections w) -> no_empty_entry (active_connections w').

Definition is_consume (a : action) : Prop :=
  match a with Consume _ => True | _ => False end.

(** What [SELECT COUNT( * ) ... WHERE user_id = $1 AND read = FALSE]
    counts. *)
Definition unread_count (uid : Z) (w : World) : Z :=
  Z.of_nat (length (filter (unread_of uid) (notifications w))).

#[global] Instance row_eq_dec : EqDecision Row.
Proof. solve_decision. Defined.

(** ** The task service: the events it publishes *)

(** [str.replace] and [str.title] on ASCII text, as
    [services/task-service/main.py] applies them to the enum values. *)
Module PyText.

(** [s.replace(old, new)] for one-character [old] and [new]. *)
Fixpoint replace (old new : ascii) (s : string) : string :=
  match s with
  | EmptyString => EmptyString
  | String c t => String (if Ascii.eqb c old then new else c) (replace old new t)
  end.

Definition islower (c : ascii) : bool :=
  let n := nat_of_ascii c in (97 <=? n)%nat && (n <=? 122)%nat.

Definition isupper (c : ascii) : bool :=
  let n := nat_of_ascii c in (65 <=? n)%nat && (n <=? 90)%nat.

Definition toupper (c : ascii) : ascii :=
  if islower c then ascii_of_nat (nat_of_ascii c - 32) else c.

Definition tolower (c : ascii) : ascii :=
  if isupper c then ascii_of_nat (nat_of_ascii c + 32) else c.

(** [s.title()] on ASCII text: a cased character is upper-cased when the
    character before it is not cased, and lower-cased otherwise. *)
Fixpoint title_from (previous_is_cased : bool) (s : string) : string :=
  match s with
  | EmptyString => EmptyString
  | String c t =>
      if islower c then
        String (if previous_is_cased then c else toupper c) (title_from true t)
      else if isupper c then
        String (if previous_is_cased then tolower c else c) (title_from true t)
      else String c (title_from false t)
  end.

Definition title (s : string) : string := title_from false s.

End PyText.

(** The notification tail of [services/task-service/main.py]: what
    [create_task] and [update_task] publish to the topic
    [task-notifications] once their own checks and statements are done,
    in the order of the [send_and_wait] calls, each of which is taken to
    succeed. *)
Module TaskService.

Inductive TaskStatus : Type := todo | in_progress | in_review | done.

Definition status_value (s : TaskStatus) : string :=
  match s with
  | todo => "todo"
  | in_progress => "in_progress"
  | in_review => "in_review"
  | done => "done"
  end.

Inductive TaskPriority : Type := low | medium | high | critical.

Definition priority_value (p : TaskPriority) : string :=
  match p with
  | low => "low"
  | medium => "medium"
  | high => "high"
  | critical => "critical"
  end.

(** The fields of [TaskUpdate] the notifications depend on. *)
Record TaskUpdate : Type := mkTaskUpdate {
  upd_assignee_id : option Z;
  upd_status : option TaskStatus;
  upd_priority : option TaskPriority
}.

(** The columns of the [tasks] row read back before the update. *)
Record ExistingTask : Type := mkExistingTask {
  assignee_id : option Z;
  status : string;
  priority : string
}.

(** The double-quote character of the two f-strings below. *)
Definition dquote : string := String (ascii_of_nat 34) EmptyString.

(** Lines 357-363 and 473-479: the payload of a [task_assigned] event. *)
Definition task_assigned_event (assignee : Z) (task_title : string) (task_id : Z) : dict :=
  {[ "user_id" := JInt assignee;
     "type" := JStr "task_assigned";
     "title" := JStr "New Task Assigned";
     "message" := JStr ("You have been assigned to task: " +:+ task_title);
     "task_id" := JInt task_id ]}.

(** Lines 488-494. *)
Definition task_status_event (assignee : Z) (task_title : string) (s : TaskStatus)
    (task_id : Z) : dict :=
  {[ "user_id" := JInt assignee;
     "type" := JStr "task_status_changed";
     "title" := JStr "Task Status Updated";
     "message" :=
       JStr ("Task " +:+ dquote +:+ task_title +:+ dquote +:+ " status changed to " +:+
             PyText.title (PyText.replace "_" " " (status_value s)));
     "task_id" := JInt task_id ]}.

(** Lines 503-509. *)
Definition task_priority_event (assignee : Z) (task_title : string) (p : TaskPriority)
    (task_id : Z) : dict :=
  {[ "user_id" := JInt assignee;
     "type" := JStr "task_priority_changed";
     "title" := JStr "Task Priority Updated";
     "message" :=
       JStr ("Task " +:+ dquote +:+ task_title +:+ dquote +:+ " priority changed to " +:+
             PyText.title (priority_value p));
     "task_id" := JInt task_id ]}.

(** Lines 347-366 of [create_task]: [if task.assignee_id:] the assignee's
    name is looked up, and [if assignee:] the event is sent. *)
Definition create_task_events (task_assignee_id : option Z) (assignee_found : bool)
    (task_title : string) (new_task_id : Z) : list dict :=
  match task_assignee_id with
  | Some a =>
      if decide (a = 0) then []
      else if assignee_found then [task_assigned_event a task_title new_task_id]
      else []
  | None => []
  end.

(** Lines 467-511 of [update_task], in the order of the three [if]s. *)
Definition update_task_events (task_update : TaskUpdate) (existing_task : ExistingTask)
    (current_user_id : Z) (updated_title : string) (task_id : Z) : list dict :=
  (match upd_assignee_id task_update with
   | Some a =>
       if decide (Some a <> assignee_id existing_task) then
         if decide (a = 0) then [] else [task_assigned_event a updated_title task_id]
       else []
   | None => []
   end) ++
  (match upd_status task_update with
   | Some s =>
       if decide (status_value s <> status existing_task) then
         match assignee_id existing_task with
         | Some e =>
             if decide (e <> 0 /\ e <> current_user_id)
             then [task_status_event e updated_title s task_id] else []
         | None => []
         end
       else []
   | None => []
   end) ++
  (match upd_priority task_update with
   | Some p =>
       if decide (priority_value p <> priority existing_task) then
         match assignee_id existing_task with
         | Some e =>
             if decide (e <> 0 /\ e <> current_user_id)
             then [task_priority_event e updated_title p task_id] else []
         | None => []
         end
       else []
   | None => []
   end).

(** A payload the task service can put on the topic. *)
Definition published (ev : dict) : Prop :=
  (exists a found t k, ev ∈ create_task_events a found t k) \/
  (exists upd old me t k, ev ∈ update_task_events upd old me t k).

End TaskService.

(** ** Sample runs *)

Definition sample_trace : list action :=
  [ Connect 0%nat (Some "token-42") [];
    Consume [mkMsg sample_event 11];
    LinksChange (fun _ => Some TransportError);
    Consume [mkMsg sample_event 12];
    Frames 0%nat 42 [Text "read:1"; Fails WebSocketDisconnect];
    MarkAsRead 2 "token-42";
    ListNotifications "token-42" None;
    UnreadCount "token-42" ].

Definition quiet_trace : list action :=
  [ Connect 0%nat (Some "token-42") [];
    Connect 1%nat (Some "token-7") [Text "ping"];
    Frames 0%nat 42 [Text "read:1"; Fails WebSocketDisconnect];
    UnreadCount "token-42" ].

Definition sample_update : TaskService.TaskUpdate :=
  TaskService.mkTaskUpdate (Some 7) (Some TaskService.in_progress) (Some TaskService.high).

Definition sample_task : TaskService.ExistingTask :=
  TaskService.mkExistingTask (Some 42) "todo" "low".

(** * Proofs *)

(** ** The monad *)

(** Two worlds with equal fields are equal. *)
Lemma world_eq w1 w2 :
  notifications w1 = notifications w2 -> next_id w1 = next_id w2 ->
  active_connections w1 = active_connections w2 -> link w1 = link w2 ->
  outbox w1 = outbox w2 -> accepted w1 = accepted w2 -> closed w1 = closed w2 ->
  stdout w1 = stdout w2 -> consumer_stopped w1 = consumer_stopped w2 -> w1 = w2.
Proof. destruct w1, w2; simpl; intros; subst; reflexivity. Qed.

Lemma bind_ok {A B} (m : M A) (k : A -> M B) w a w' :
  m w = (Ok a, w') -> bind m k w = k a w'.
Proof. unfold bind. intros ->. reflexivity. Qed.

Lemma bind_raise {A B} (m : M A) (k : A -> M B) w e w' :
  m w = (Raise e, w') -> bind m k w = (Raise e, w').
Proof. unfold bind. intros ->. reflexivity. Qed.

(** A loop over [l1 ++ l2] that gets through [l1] goes on with [l2]. *)
Lemma for_each_app {A} (body : A -> M unit) l1 l2 w w1 :
  for_each body l1 w = (Ok tt, w1) ->
  for_each body (l1 ++ l2) w = for_each body l2 w1.
Proof.
  revert w. induction l1 as [|x l1 IH]; intros w; simpl.
  - unfold ret. intros [= ->]. reflexivity.
  - unfold bind. destruct (body x w) as [[[]|e] w']; [apply IH | discriminate].
Qed.

(** ** Builtins: [list.remove], [str] and [int] *)

(** [remove] takes the first occurrence and nothing else. *)
Lemma list_remove_app_notin {A} `{EqDecision A} (x : A) (pre l : list A) :
  x ∉ pre -> Py.list_remove x (pre ++ x :: l) = Some (pre ++ l).
Proof.
  induction pre as [|y pre IH]; simpl; intros Hx.
  - destruct (decide (x = x)); congruence.
  - apply not_elem_of_cons in Hx as [Hxy Hx].
    destruct (decide (y = x)); [congruence|]. rewrite IH by assumption. reflexivity.
Qed.

Lemma list_remove_absent {A} `{EqDecision A} (x : A) (l : list A) :
  x ∉ l -> Py.list_remove x l = None.
Proof.
  induction l as [|y l IH]; simpl; intros Hx; [reflexivity|].
  apply not_elem_of_cons in Hx as [Hxy Hx].
  destruct (decide (y = x)); [congruence|]. rewrite IH by assumption. reflexivity.
Qed.

Lemma list_remove_sublist {A} `{EqDecision A} (x : A) l l' :
  Py.list_remove x l = Some l' -> l' `sublist_of` l.
Proof.
  revert l'. induction l as [|y l IH]; simpl; intros l' H'; [discriminate|].
  destruct (decide (y = x)).
  - injection H' as <-. apply sublist_cons, reflexivity.
  - destruct (Py.list_remove x l) as [t|]; [|discriminate].
    injection H' as <-. apply sublist_skip, IH. reflexivity.
Qed.

Lemma list_remove_present {A} `{EqDecision A} (x : A) l :
  x ∈ l -> exists l', Py.list_remove x l = Some l'.
Proof.
  induction l as [|y l IH]; simpl; intros Hx; [inversion Hx|].
  destruct (decide (y = x)); [eauto|].
  apply elem_of_cons in Hx as [->|Hx]; [congruence|].
  destruct (IH Hx) as [l' ->]. eauto.
Qed.

(** [startswith] and [split] on a frame of the form [read:...]. *)
Lemma startswith_prefix prefix : forall s,
  Py.startswith prefix s = true -> exists rest, s = prefix +:+ rest.
Proof.
  induction prefix as [|a p IH]; intros s Hs.
  - exists s. reflexivity.
  - destruct s as [|b t]; [discriminate|]. cbn [Py.startswith] in Hs.
    destruct (Ascii.eqb_spec a b) as [<-|]; [|discriminate].
    destruct (IH t Hs) as [rest ->]. exists rest. reflexivity.
Qed.

Lemma split_nonempty sep s : exists seg rest, Py.split sep s = seg :: rest.
Proof.
  induction s as [|c t (seg & rest & IH)]; cbn [Py.split]; [eauto|].
  destruct (Ascii.eqb c sep); [eauto|]. rewrite IH. eauto.
Qed.

Lemma split_prefixed rest :
  Py.split ":" ("read:" +:+ rest) = "read" :: Py.split ":" rest.
Proof.
  change ("read:" +:+ rest) with
    (String "r" (String "e" (String "a" (String "d" (String ":" rest))))).
  reflexivity.
Qed.

(** [int(str(n)) == n]: the parser reads back what the printer wrote. *)
Lemma digits_uint d : forall acc b,
  d <> Decimal.Nil \/ b = true ->
  Py.digits acc b (NilEmpty.string_of_uint d) = Some (uint_value acc d).
Proof.
  induction d; intros acc b Hb;
    try (cbn [NilEmpty.string_of_uint Py.digits uint_value];
         match goal with
         | |- context [Py.isdigit ?c] =>
             change (Py.isdigit c) with true; cbv iota
         end;
         rewrite IHd by (right; reflexivity); reflexivity).
  destruct Hb as [Hb | ->]; [congruence | reflexivity].
Qed.

Lemma uint_value_acc d : forall acc,
  Z.pos (Pos.of_uint_acc d acc) = uint_value (Z.pos acc) d.
Proof.
  induction d; intros acc; cbn [Pos.of_uint_acc uint_value];
    try reflexivity; rewrite IHd; f_equal; lia.
Qed.

Lemma uint_value_of_uint d : Z.of_N (Pos.of_uint d) = uint_value 0 d.
Proof.
  induction d; cbn [Pos.of_uint uint_value Z.of_N];
    try reflexivity; try (rewrite uint_value_acc; reflexivity).
  exact IHd.
Qed.

Lemma uint_digits d : all_chars Py.isdigit (NilEmpty.string_of_uint d) = true.
Proof. induction d; cbn [NilEmpty.string_of_uint all_chars]; try reflexivity; exact IHd. Qed.

Lemma all_chars_impl (P Q : ascii -> bool) s :
  (forall c, P c = true -> Q c = true) -> all_chars P s = true -> all_chars Q s = true.
Proof.
  intros HPQ. induction s as [|c s IH]; simpl; [reflexivity|].
  intros [Hc Hs]%andb_true_iff. rewrite (HPQ c Hc), IH by assumption. reflexivity.
Qed.

Lemma str_unsigned p : Py.str (Z.pos p) = NilEmpty.string_of_uint (Pos.to_uint p).
Proof.
  unfold Py.str. cbn [Z.to_int NilZero.string_of_int NilZero.string_of_uint].
  pose proof (Unsigned.to_uint_nonnil p) as Hn.
  destruct (Pos.to_uint p); [congruence | reflexivity ..].
Qed.

Lemma str_negative p :
  Py.str (Z.neg p) = String "-" (NilEmpty.string_of_uint (Pos.to_uint p)).
Proof.
  unfold Py.str. cbn [Z.to_int NilZero.string_of_int NilZero.string_of_uint].
  pose proof (Unsigned.to_uint_nonnil p) as Hn.
  destruct (Pos.to_uint p); [congruence | reflexivity ..].
Qed.

Lemma str_numeral n : all_chars numeral_char (Py.str n) = true.
Proof.
  destruct n as [|p|p].
  - reflexivity.
  - rewrite str_unsigned. apply (all_chars_impl Py.isdigit); [|apply uint_digits].
    intros c Hc. unfold numeral_char. rewrite Hc. reflexivity.
  - rewrite str_negative. cbn [all_chars]. change (numeral_char "-") with true.
    apply (all_chars_impl Py.isdigit); [|apply uint_digits].
    intros c Hc. unfold numeral_char. rewrite Hc. reflexivity.
Qed.

Lemma numeral_char_not_space c : numeral_char c = true -> Py.isspace c = false.
Proof.
  destruct c as [[] [] [] [] [] [] [] []]; vm_compute; congruence.
Qed.

Lemma numeral_char_not_colon c : numeral_char c = true -> Ascii.eqb c ":" = false.
Proof.
  destruct c as [[] [] [] [] [] [] [] []]; vm_compute; congruence.
Qed.

Lemma lstrip_numeral s : all_chars numeral_char s = true -> Py.lstrip s = s.
Proof.
  destruct s as [|c s]; [reflexivity|]. cbn [all_chars Py.lstrip].
  intros [Hc _]%andb_true_iff. rewrite (numeral_char_not_space c Hc). reflexivity.
Qed.

Lemma rstrip_numeral s : all_chars numeral_char s = true -> Py.rstrip s = s.
Proof.
  induction s as [|c s IH]; [reflexivity|]. cbn [all_chars Py.rstrip].
  intros [Hc Hs]%andb_true_iff. rewrite (IH Hs), (numeral_char_not_space c Hc).
  destruct s; reflexivity.
Qed.

Lemma split_numeral s : all_chars numeral_char s = true -> Py.split ":" s = [s].
Proof.
  induction s as [|c s IH]; [reflexivity|]. cbn [all_chars Py.split].
  intros [Hc Hs]%andb_true_iff. rewrite (numeral_char_not_colon c Hc), (IH Hs).
  reflexivity.
Qed.

Lemma int_of_str_str n : Py.int_of_str (Py.str n) = Some n.
Proof.
  unfold Py.int_of_str, Py.strip.
  rewrite (lstrip_numeral _ (str_numeral n)), (rstrip_numeral _ (str_numeral n)).
  destruct n as [|p|p].
  - reflexivity.
  - rewrite str_unsigned.
    pose proof (digits_uint (Pos.to_uint p) 0 false
                  (or_introl (Unsigned.to_uint_nonnil p))) as Hd.
    rewrite <- uint_value_of_uint, Unsigned.of_to in Hd. cbn [Z.of_N] in Hd.
    rewrite <- Hd.
    destruct (Pos.to_uint p); reflexivity.
  - rewrite str_negative.
    rewrite (digits_uint (Pos.to_uint p) 0 false
               (or_introl (Unsigned.to_uint_nonnil p))).
    rewrite <- uint_value_of_uint, Unsigned.of_to. reflexivity.
Qed.

Lemma ack_segment n :
  Py.startswith "read:" ("read:" +:+ Py.str n) = true /\
  Py.split ":" ("read:" +:+ Py.str n) !! 1%nat = Some (Py.str n).
Proof.
  split; [reflexivity|].
  rewrite split_prefixed, (split_numeral _ (str_numeral n)). reflexivity.
Qed.

(** ** The registry and the broadcast *)

Lemma connections_of_ok uid l w :
  active_connections w !! uid = Some l -> connections_of uid w = (Ok l, w).
Proof. unfold connections_of, bind, get, lift. intros ->. reflexivity. Qed.

Lemma connections_of_raise uid w :
  active_connections w !! uid = None ->
  connections_of uid w = (Raise (KeyError (JInt uid)), w).
Proof. unfold connections_of, bind, get, lift. intros ->. reflexivity. Qed.

Lemma remove_connection_ok uid ws l l' w :
  active_connections w !! uid = Some l -> Py.list_remove ws l = Some l' ->
  remove_connection uid ws w = (Ok tt, set_active_connections (insert uid l') w).
Proof.
  intros Hl Hr. unfold remove_connection.
  rewrite (bind_ok _ _ _ _ _ (connections_of_ok _ _ _ Hl)).
  rewrite Hr. reflexivity.
Qed.

(** Registering appends the socket to the user's list, creating it first
    when the user has none. *)
Lemma register_spec uid ws w :
  register uid ws w =
  (Ok tt,
   set_active_connections
     (insert uid (default [] (active_connections w !! uid) ++ [ws])) w).
Proof.
  unfold register, bind, get.
  destruct (active_connections w !! uid) as [l|] eqn:Hl.
  - unfold ret. rewrite (connections_of_ok _ _ _ Hl). reflexivity.
  - unfold modify. rewrite (connections_of_ok uid []) by (simpl; apply lookup_insert_eq).
    f_equal. apply world_eq; simpl; auto. apply insert_insert_eq.
Qed.

(** Deregistering a socket that is present removes its first occurrence and
    deletes the entry when the list has become empty. *)
Lemma deregister_spec uid ws l l' w :
  active_connections w !! uid = Some l -> Py.list_remove ws l = Some l' ->
  deregister uid ws w = (Ok tt, set_active_connections (without uid l') w).
Proof.
  intros Hl Hr. unfold deregister.
  rewrite (bind_ok _ _ _ _ _ (remove_connection_ok _ _ _ _ _ Hl Hr)).
  rewrite (bind_ok _ _ _ l' (set_active_connections (insert uid l') w))
    by (apply connections_of_ok; simpl; apply lookup_insert_eq).
  destruct l' as [|x l']; unfold modify, ret, without; f_equal;
    apply world_eq; simpl; try reflexivity; apply delete_insert_eq.
Qed.

(** Deregistering a socket that is absent raises before anything changes. *)
Lemma deregister_no_entry uid websocket w :
  active_connections w !! uid = None ->
  deregister uid websocket w = (Raise (KeyError (JInt uid)), w).
Proof.
  intros Hl. unfold deregister, remove_connection.
  apply bind_raise. apply bind_raise. apply connections_of_raise, Hl.
Qed.

Lemma deregister_not_member uid websocket l w :
  active_connections w !! uid = Some l -> websocket ∉ l ->
  deregister uid websocket w = (Raise ValueError, w).
Proof.
  intros Hl Habs. unfold deregister, remove_connection.
  apply bind_raise.
  rewrite (bind_ok _ _ _ _ _ (connections_of_ok _ _ _ Hl)).
  rewrite (list_remove_absent _ _ Habs). reflexivity.
Qed.

(** The push loop hands the payload to every live socket, in order, and
    collects the others. *)
Lemma push_all_spec notification uid rest : forall pre disconnected w,
  active_connections w !! uid = Some (pre ++ rest) ->
  push_all (length rest) uid notification [] (length pre) disconnected w =
  (Ok (disconnected ++ filter (fun ws => ~ alive w ws) rest),
   set_outbox (fun o => o ++ pushed w notification rest) w).
Proof.
  induction rest as [|c rest IH]; intros pre d w Hw; cbn [length push_all].
  - unfold ret, pushed. rewrite !filter_nil, app_nil_r. f_equal.
    apply world_eq; simpl; auto using app_nil_r.
  - rewrite Hw. cbn [mbind option_bind].
    rewrite lookup_app_r, Nat.sub_diag by reflexivity. cbn [lookup list_lookup].
    cbn [hd tail others_run foldl].
    assert (Hnext : forall w',
              active_connections w' = active_connections w ->
              active_connections w' !! uid = Some ((pre ++ [c]) ++ rest))
      by (intros w' ->; rewrite <- app_assoc; exact Hw).
    replace (S (length pre)) with (length (pre ++ [c]))
      by (rewrite length_app; simpl; lia).
    unfold send_json. destruct (link w c) eqn:Hc; cbn [fst snd].
    + rewrite (IH _ _ _ (Hnext w eq_refl)).
      rewrite filter_cons_True by (unfold alive; congruence).
      unfold pushed. rewrite (filter_cons_False (alive w)) by (unfold alive; congruence).
      rewrite <- app_assoc. reflexivity.
    + rewrite (IH _ _ (set_outbox (fun o => o ++ [(c, notification)]) w)
                 (Hnext _ eq_refl)). simpl.
      rewrite filter_cons_False by (unfold alive; intros H; apply H; exact Hc).
      unfold pushed, alive; simpl.
      rewrite (filter_cons_True (fun ws => link w ws = None)) by exact Hc.
      f_equal. apply world_eq; simpl; auto. rewrite <- app_assoc. reflexivity.
Qed.

(** The pruning loop finds every collected socket and leaves the live ones,
    in their order. *)
Lemma remove_loop_spec uid (P : WebSocket -> Prop) `{!forall ws, Decision (P ws)} :
  forall conns pre w,
    active_connections w !! uid = Some (pre ++ conns) ->
    Forall P pre ->
    for_each (remove_connection uid) (filter (fun ws => ~ P ws) conns) w =
    (Ok tt, set_active_connections (insert uid (pre ++ filter P conns)) w).
Proof.
  induction conns as [|c conns IH]; intros pre w Hw Hpre.
  - rewrite !filter_nil. simpl. unfold ret. f_equal.
    apply world_eq; simpl; auto. rewrite insert_id; [reflexivity|exact Hw].
  - destruct (decide (P c)) as [Hc|Hc].
    + rewrite filter_cons_False by tauto. rewrite filter_cons_True by assumption.
      replace (pre ++ c :: filter P conns) with ((pre ++ [c]) ++ filter P conns)
        by (rewrite <- app_assoc; reflexivity).
      apply IH.
      * rewrite <- app_assoc. exact Hw.
      * apply Forall_app; split; [assumption | constructor; [assumption | constructor]].
    + rewrite filter_cons_True by assumption. rewrite filter_cons_False by assumption.
      simpl.
      assert (Hrm : Py.list_remove c (pre ++ c :: conns) = Some (pre ++ conns)).
      { apply list_remove_app_notin. intros Hin. apply Hc.
        rewrite Forall_forall in Hpre. apply Hpre, Hin. }
      rewrite (bind_ok _ _ _ _ _ (remove_connection_ok _ _ _ _ _ Hw Hrm)).
      rewrite IH with (pre := pre).
      * f_equal. apply world_eq; simpl; auto. apply insert_insert_eq.
      * simpl. apply lookup_insert_eq.
      * assumption.
Qed.

(** A broadcast that no disconnect interrupts does not raise; it changes
    the outbox and the addressee's list, and nothing else. *)
Lemma broadcast_spec uid notification w :
  broadcast_to_user [] uid notification w = (Ok tt, after_broadcast uid notification w).
Proof.
  unfold broadcast_to_user, after_broadcast, bind, get.
  destruct (active_connections w !! uid) as [conns|] eqn:Hu; [|reflexivity].
  change 0%nat with (length (@nil WebSocket)).
  rewrite (push_all_spec notification uid conns [] [] w Hu).
  rewrite app_nil_l.
  apply (remove_loop_spec uid (alive w) conns []); [exact Hu | constructor].
Qed.

(** The registry invariants: no user maps to an empty list, and no socket
    occurs twice.  Registering a new socket and deregistering keep both; a
    broadcast keeps the second only (see the failing input of C3). *)
Lemma single_owner_sublist reg uid l l' :
  single_owner reg -> reg !! uid = Some l -> l' `sublist_of` l ->
  single_owner (<[uid := l']> reg).
Proof.
  intros [Hnd Hown] Hl Hsub. split.
  - intros u k Hk. destruct (decide (uid = u)) as [<-|Hne].
    + rewrite lookup_insert_eq in Hk. injection Hk as <-.
      eapply sublist_NoDup; [eapply Hnd, Hl | exact Hsub].
    + rewrite lookup_insert_ne in Hk by assumption. eapply Hnd, Hk.
  - intros u1 u2 l1 l2 ws H1 H2 Hin1 Hin2.
    assert (Hback : forall u k, <[uid := l']> reg !! u = Some k -> ws ∈ k ->
              exists k0, reg !! u = Some k0 /\ ws ∈ k0).
    { intros u k Hk Hin. destruct (decide (uid = u)) as [<-|Hne].
      - rewrite lookup_insert_eq in Hk. injection Hk as <-.
        exists l. split; [assumption|]. eapply elem_of_sublist; eassumption.
      - rewrite lookup_insert_ne in Hk by assumption. eauto. }
    destruct (Hback _ _ H1 Hin1) as (k1 & Hk1 & Hi1).
    destruct (Hback _ _ H2 Hin2) as (k2 & Hk2 & Hi2).
    eapply Hown; eassumption.
Qed.

Lemma single_owner_delete reg uid : single_owner reg -> single_owner (delete uid reg).
Proof.
  intros [Hnd Hown]. split.
  - intros u k Hk. apply lookup_delete_Some in Hk as [_ Hk]. eapply Hnd, Hk.
  - intros u1 u2 l1 l2 ws H1 H2 Hin1 Hin2.
    apply lookup_delete_Some in H1 as [_ H1]. apply lookup_delete_Some in H2 as [_ H2].
    eapply Hown; eassumption.
Qed.

Lemma register_keeps_invariant uid ws w :
  ~ registered (active_connections w) ws ->
  no_empty_entry (active_connections w) -> single_owner (active_connections w) ->
  no_empty_entry (active_connections (snd (register uid ws w))) /\
  single_owner (active_connections (snd (register uid ws w))).
Proof.
  intros Hfresh Hne [Hnd Hown]. rewrite register_spec. simpl.
  set (old := default [] (active_connections w !! uid)).
  assert (Hold : ws ∉ old).
  { subst old. destruct (active_connections w !! uid) as [l|] eqn:Hl; simpl.
    - intros Hin. apply Hfresh. exists uid, l. auto.
    - apply not_elem_of_nil. }
  assert (Hnd_old : NoDup old).
  { subst old. destruct (active_connections w !! uid) as [l|] eqn:Hl; simpl.
    - eapply Hnd, Hl.
    - constructor. }
  split.
  - intros u k Hk. destruct (decide (uid = u)) as [<-|Hneq].
    + rewrite lookup_insert_eq in Hk. injection Hk as <-.
      destruct old; discriminate.
    + rewrite lookup_insert_ne in Hk by assumption. eapply Hne, Hk.
  - split.
    + intros u k Hk. destruct (decide (uid = u)) as [<-|Hneq].
      * rewrite lookup_insert_eq in Hk. injection Hk as <-.
        apply NoDup_app. repeat split; [assumption | | apply NoDup_singleton].
        intros x Hx Hx'. apply list_elem_of_singleton in Hx'. subst x. contradiction.
      * rewrite lookup_insert_ne in Hk by assumption. eapply Hnd, Hk.
    + intros u1 u2 l1 l2 x H1 H2 Hin1 Hin2.
      assert (Hcase : forall u k, <[uid := old ++ [ws]]> (active_connections w) !! u = Some k ->
                x ∈ k -> (x = ws /\ u = uid) \/
                         (x <> ws /\ exists k0, active_connections w !! u = Some k0 /\ x ∈ k0)).
      { intros u k Hk Hin. destruct (decide (uid = u)) as [<-|Hneq].
        - rewrite lookup_insert_eq in Hk. injection Hk as <-.
          apply elem_of_app in Hin as [Hin|Hin].
          + right. split; [intros ->; contradiction|].
            subst old. destruct (active_connections w !! uid) as [l|] eqn:Hl; simpl in Hin.
            * eauto.
            * inversion Hin.
          + apply list_elem_of_singleton in Hin. left. auto.
        - rewrite lookup_insert_ne in Hk by assumption. right. split; [|eauto].
          intros ->. apply Hfresh. exists u, k. auto. }
      destruct (Hcase _ _ H1 Hin1) as [[E1 ->]|[N1 (k1 & Hk1 & Hi1)]];
        destruct (Hcase _ _ H2 Hin2) as [[E2 ->]|[N2 (k2 & Hk2 & Hi2)]];
        try reflexivity; try contradiction.
      eapply Hown; eassumption.
Qed.

Lemma deregister_keeps_invariant uid ws w :
  no_empty_entry (active_connections w) -> single_owner (active_connections w) ->
  no_empty_entry (active_connections (snd (deregister uid ws w))) /\
  single_owner (active_connections (snd (deregister uid ws w))).
Proof.
  intros Hne Hso.
  destruct (active_connections w !! uid) as [l|] eqn:Hl.
  2:{ rewrite (deregister_no_entry _ _ _ Hl). auto. }
  destruct (decide (ws ∈ l)) as [Hin|Hin].
  2:{ rewrite (deregister_not_member _ _ _ _ Hl Hin). auto. }
  destruct (list_remove_present ws l Hin) as [l' Hr].
  rewrite (deregister_spec _ _ _ _ _ Hl Hr). simpl.
  pose proof (list_remove_sublist _ _ _ Hr) as Hsub.
  destruct l' as [|x l']; simpl.
  - split; [|apply single_owner_delete, Hso].
    intros u k Hk. apply lookup_delete_Some in Hk as [_ Hk]. eapply Hne, Hk.
  - split; [|eapply single_owner_sublist; eassumption].
    intros u k Hk. destruct (decide (uid = u)) as [<-|Hneq].
    + rewrite lookup_insert_eq in Hk. injection Hk as <-. discriminate.
    + rewrite lookup_insert_ne in Hk by assumption. eapply Hne, Hk.
Qed.

Lemma broadcast_keeps_single_owner uid notification w :
  single_owner (active_connections w) ->
  single_owner (active_connections (snd (broadcast_to_user [] uid notification w))).
Proof.
  intros Hso. rewrite broadcast_spec. unfold after_broadcast. simpl.
  destruct (active_connections w !! uid) as [l|] eqn:Hl; simpl; [|assumption].
  eapply single_owner_sublist; [eassumption ..|]. apply sublist_filter.
Qed.

Lemma registry_invariant_register_deregister ops : forall w,
  no_empty_entry (active_connections w) -> single_owner (active_connections w) ->
  registers_fresh ops w ->
  no_empty_entry (active_connections (run_ops ops w)) /\
  single_owner (active_connections (run_ops ops w)).
Proof.
  induction ops as [|op ops IH]; intros w Hne Hso Hfresh; simpl; [auto|].
  destruct Hfresh as [Hop Hrest].
  destruct op as [uid ws | uid ws]; simpl in *.
  - destruct (register_keeps_invariant uid ws w Hop Hne Hso). apply IH; assumption.
  - destruct (deregister_keeps_invariant uid ws w Hne Hso). apply IH; assumption.
Qed.

(** ** The consumer *)

(** One iteration of the consumer loop, on a well-formed event and on an
    event that lacks a required field. *)
Lemma handle_message_carries msg u ty ti me tk w :
  carries (value msg) u ty ti me tk ->
  handle_message msg w =
  broadcast_to_user (meanwhile msg) u (value msg)
    (inserted u ty ti me tk (utcnow msg) (printed (value msg) w)).
Proof.
  intros (H1 & H2 & H3 & H4 & H5).
  unfold handle_message, getitem, lift, bind, modify. simpl.
  rewrite H1, H2, H3, H4. simpl. unfold execute_insert. rewrite H5. reflexivity.
Qed.

Lemma handle_message_well_formed ev u ty ti me tk now w :
  carries ev u ty ti me tk ->
  handle_message (mkMsg ev now) w =
  (Ok tt, after_broadcast u ev (inserted u ty ti me tk now (printed ev w))).
Proof.
  intros Hc. rewrite (handle_message_carries (mkMsg ev now) _ _ _ _ _ _ Hc).
  apply broadcast_spec.
Qed.

Lemma handle_message_malformed ev now others w :
  malformed ev ->
  exists k, k ∈ required_fields /\ ev !! k = None /\
    handle_message (mkMsgWith ev now others) w = (Raise (KeyError (JStr k)), printed ev w).
Proof.
  intros (k0 & Hk0 & Hnone).
  unfold handle_message, getitem, lift, bind, modify. simpl.
  destruct (ev !! "user_id") as [a1|] eqn:E1.
  2:{ exists "user_id". split; [apply list_elem_of_In; simpl; tauto | split; [assumption | reflexivity]]. }
  destruct (ev !! "type") as [a2|] eqn:E2.
  2:{ exists "type". split; [apply list_elem_of_In; simpl; tauto | split; [assumption | reflexivity]]. }
  destruct (ev !! "title") as [a3|] eqn:E3.
  2:{ exists "title". split; [apply list_elem_of_In; simpl; tauto | split; [assumption | reflexivity]]. }
  destruct (ev !! "message") as [a4|] eqn:E4.
  2:{ exists "message". split; [apply list_elem_of_In; simpl; tauto | split; [assumption | reflexivity]]. }
  exfalso. unfold required_fields in Hk0.
  repeat (apply elem_of_cons in Hk0 as [->|Hk0]; [congruence|]).
  inversion Hk0.
Qed.

Lemma for_each_well_formed msgs : forall w,
  Forall (fun m => well_formed (value m)) msgs ->
  Forall uninterrupted msgs ->
  exists w1, for_each handle_message msgs w = (Ok tt, w1).
Proof.
  induction msgs as [|[ev now others] msgs IH]; intros w Hwf Hq; simpl.
  - eexists. reflexivity.
  - inversion Hwf as [|? ? (u & ty & ti & me & tk & Hc) Hrest]; subst.
    inversion Hq as [|? ? Hev Hq']; subst. unfold uninterrupted in Hev.
    simpl in Hev, Hc. subst others.
    rewrite (bind_ok _ _ _ _ _ (handle_message_well_formed _ _ _ _ _ _ now w Hc)).
    apply IH; assumption.
Qed.

(** ** The handlers *)

Section Authenticated.

Variable jwt_decode : string -> option dict.

Lemma require_user_ok token uid w :
  verify_token jwt_decode token = Some uid -> uid <> 0 ->
  require_user jwt_decode token w = (Ok uid, w).
Proof.
  intros Hv Hz. unfold require_user. rewrite Hv.
  destruct uid; [congruence | reflexivity ..].
Qed.

Lemma require_user_zero token w :
  verify_token jwt_decode token = Some 0 ->
  require_user jwt_decode token w = (Raise (HTTPException 401 "Invalid token"), w).
Proof. intros Hv. unfold require_user. rewrite Hv. reflexivity. Qed.

(** A negative [limit] reaches the store unchecked and is refused there. *)
Lemma negative_limit_refused token uid limit w :
  verify_token jwt_decode token = Some uid -> uid <> 0 -> limit < 0 ->
  get_notifications jwt_decode token (Some limit) w = (Raise DataError, w).
Proof.
  intros Hv Hz Hl. unfold get_notifications, get_db.
  rewrite (bind_ok _ _ _ _ _ (require_user_ok _ _ w Hv Hz)).
  unfold fetch_for_user, bind, get, sql_limit. simpl.
  destruct (Z.ltb_spec limit 0); [reflexivity | lia].
Qed.

End Authenticated.

(** The [UPDATE] row by row. *)
Lemma mark_row_other notif_id uid r :
  id r <> notif_id \/ user_id r <> uid -> mark_row notif_id uid r = r.
Proof.
  intros H. unfold mark_row.
  destruct (Z.eqb_spec (id r) notif_id), (Z.eqb_spec (user_id r) uid);
    simpl; try reflexivity. tauto.
Qed.

Lemma mark_row_match notif_id uid r :
  id r = notif_id -> user_id r = uid -> mark_row notif_id uid r = set_read r.
Proof.
  intros H1 H2. unfold mark_row. rewrite <- H1, <- H2, !Z.eqb_refl. reflexivity.
Qed.

Lemma set_read_read r : read r = true -> set_read r = r.
Proof. destruct r; simpl; intros ->; reflexivity. Qed.

#[global] Instance newest_first_total : Total newest_first.
Proof. intros r1 r2. unfold newest_first. lia. Qed.

#[global] Instance newest_first_trans : Transitive newest_first.
Proof. intros r1 r2 r3. unfold newest_first. lia. Qed.

(** [LIMIT] and the head of a sorted result. *)
Lemma sql_limit_ok n rows w : 0 <= n -> sql_limit n rows w = (Ok (take (Z.to_nat n) rows), w).
Proof. intros Hn. unfold sql_limit. destruct (Z.ltb_spec n 0); [lia | reflexivity]. Qed.

Lemma newest_is_first (sorted : list Row) (r1 r2 r3 : Row) :
  sorted ≡ₚ [r1; r2; r3] -> StronglySorted newest_first sorted ->
  created_at r1 < created_at r2 < created_at r3 ->
  take 1 sorted = [r3].
Proof.
  intros Hp Hs Ht.
  assert (Hin : r3 ∈ sorted) by (rewrite Hp; apply list_elem_of_In; simpl; tauto).
  destruct sorted as [|a tl]; [inversion Hin|].
  cbn [take]. f_equal.
  assert (Ha : a ∈ [r1; r2; r3]) by (rewrite <- Hp; left).
  apply StronglySorted_inv in Hs as [_ Hall].
  apply elem_of_cons in Hin as [Heq | Hin]; [congruence|].
  rewrite Forall_forall in Hall. specialize (Hall r3 Hin). unfold newest_first in Hall.
  repeat (apply elem_of_cons in Ha as [-> | Ha]; [lia || reflexivity|]).
  inversion Ha.
Qed.


(** A frame that passes the [read:] test always has a second segment; the
    handler then runs the update or stops on [int]'s [ValueError]. *)
Lemma on_text_prefixed uid data w :
  Py.startswith "read:" data = true ->
  exists seg,
    Py.split ":" data !! 1%nat = Some seg /\
    on_text uid data w =
    match Py.int_of_str seg with
    | Some notif_id => execute_mark_read notif_id uid w
    | None => (Raise ValueError, w)
    end.
Proof.
  intros Hp. destruct (startswith_prefix _ _ Hp) as [rest ->].
  destruct (split_nonempty ":" rest) as (seg & more & Hsplit).
  exists seg. unfold on_text. rewrite Hp, split_prefixed, Hsplit.
  split; [reflexivity|]. unfold bind, lift. simpl.
  destruct (Py.int_of_str seg); reflexivity.
Qed.

(** What the [except] clause of the socket handler covers. *)

Lemma list_remove_NoDup {A} `{EqDecision A} (x : A) l l' :
  NoDup l -> Py.list_remove x l = Some l' -> x ∉ l'.
Proof.
  revert l'. induction l as [|y l IH]; simpl; intros l' Hnd Hr; [discriminate|].
  apply NoDup_cons in Hnd as [Hy Hnd].
  destruct (decide (y = x)) as [->|Hne].
  - injection Hr as <-. exact Hy.
  - destruct (Py.list_remove x l) as [t|] eqn:Ht; [|discriminate].
    injection Hr as <-. apply not_elem_of_cons. split; [congruence|].
    apply IH; [assumption | reflexivity].
Qed.

(** X9.  When the receive of a session raises [WebSocketDisconnect] and the
    socket is in its user's list, with no socket in two lists or twice in
    one, the handler returns and the socket is in no list of the registry
    any more. *)
Lemma disconnect_deregisters uid websocket l w :
  single_owner (active_connections w) ->
  active_connections w !! uid = Some l -> websocket ∈ l ->
  exists w',
    resume websocket uid [Fails WebSocketDisconnect] w = (Ok Returned, w') /\
    ~ registered (active_connections w') websocket.
Proof.
  intros [Hnd Hown] Hl Hin.
  destruct (list_remove_present websocket l Hin) as [l' Hr].
  exists (set_active_connections (without uid l') w). split.
  - unfold resume, except_disconnect. cbn [receive_loop]. unfold raise.
    rewrite (bind_ok _ _ _ _ _ (deregister_spec _ _ _ _ _ Hl Hr)). reflexivity.
  - intros (u & k & Hk & Hink). simpl in Hk.
    pose proof (list_remove_NoDup _ _ _ (Hnd _ _ Hl) Hr) as Hout.
    assert (Hold : exists k0, active_connections w !! u = Some k0 /\ websocket ∈ k0 /\
                              (u = uid -> k = l')).
    { destruct l' as [|x l']; simpl in Hk.
      - apply lookup_delete_Some in Hk as [Hne Hk]. exists k. repeat split; auto.
        intros ->. congruence.
      - destruct (decide (uid = u)) as [<-|Hne].
        + rewrite lookup_insert_eq in Hk. injection Hk as <-. contradiction.
        + rewrite lookup_insert_ne in Hk by assumption. exists k. repeat split; auto.
          intros ->. congruence. }
    destruct Hold as (k0 & Hk0 & Hin0 & Hsame).
    assert (u = uid) by (eapply Hown; eassumption).
    subst u. rewrite (Hsame eq_refl) in Hink. contradiction.
Qed.

Lemma other_exception_skips_cleanup e uid websocket w :
  e <> WebSocketDisconnect ->
  resume websocket uid [Fails e] w = (Raise e, w).
Proof.
  intros He. unfold resume, except_disconnect. cbn [receive_loop]. unfold raise.
  destruct e; congruence || reflexivity.
Qed.

(** * The claims *)

(** C1, as amended.  An event that lacks one of [user_id], [type], [title],
    [message] is printed and then the lookup of a missing field raises
    [KeyError]: nothing is stored or pushed for it, the exception
    leaves the loop through [consumer.stop()], and none of the events
    behind it is consumed.  The loop reaches the event when the events
    before it are well-formed and their broadcasts are not interrupted by
    a disconnect; the event's own schedule and those behind it are
    arbitrary. *)
Theorem malformed_event_stops_consumer (pre post : list Msg) (bad : Msg) (w : World) :
  Forall (fun m => well_formed (value m)) pre ->
  Forall uninterrupted pre ->
  malformed (value bad) ->
  exists k w1,
    k ∈ required_fields /\ value bad !! k = None /\
    for_each handle_message pre w = (Ok tt, w1) /\
    consume_notifications (pre ++ bad :: post) w =
    (Raise (KeyError (JStr k)), set_consumer_stopped true (printed (value bad) w1)).
Proof.
  intros Hpre Hquiet Hbad.
  destruct (for_each_well_formed pre w Hpre Hquiet) as [w1 Hw1].
  destruct bad as [ev now others].
  destruct (handle_message_malformed ev now others w1 Hbad) as (k & Hk & Hnone & Hh).
  exists k, w1. repeat split; try assumption.
  unfold consume_notifications. rewrite (for_each_app _ _ _ _ _ Hw1). simpl.
  rewrite (bind_raise _ _ _ _ _ Hh). reflexivity.
Qed.

Lemma sample_event_carries :
  carries sample_event 42 "task_assigned" "New Task Assigned"
          "You have been assigned to task: X" (Some 9).
Proof. repeat split; reflexivity. Defined.

Lemma sample_event_well_formed : well_formed sample_event.
Proof.
  exists 42, "task_assigned", "New Task Assigned",
    "You have been assigned to task: X", (Some 9).
  exact sample_event_carries.
Defined.

Lemma untitled_event_malformed : malformed untitled_event.
Proof. exists "title". split; [apply list_elem_of_In; simpl; tauto | reflexivity]. Defined.

Lemma malformed_event_stops_consumer_witness :
  Forall (fun m => well_formed (value m)) [mkMsg sample_event 11] /\
  Forall uninterrupted [mkMsg sample_event 11] /\
  malformed (value (mkMsg untitled_event 12)) /\
  exists k w1,
    k ∈ required_fields /\ value (mkMsg untitled_event 12) !! k = None /\
    for_each handle_message [mkMsg sample_event 11] boot = (Ok tt, w1) /\
    consume_notifications
      ([mkMsg sample_event 11] ++ mkMsg untitled_event 12 :: [mkMsg sample_event 13]) boot =
    (Raise (KeyError (JStr k)),
     set_consumer_stopped true (printed (value (mkMsg untitled_event 12)) w1)).
Proof.
  assert (H1 : Forall (fun m => well_formed (value m)) [mkMsg sample_event 11])
    by (constructor; [exact sample_event_well_formed | constructor]).
  assert (Hq : Forall uninterrupted [mkMsg sample_event 11])
    by (constructor; [reflexivity | constructor]).
  assert (H2 : malformed (value (mkMsg untitled_event 12)))
    by exact untitled_event_malformed.
  split; [exact H1|]. split; [exact Hq|]. split; [exact H2|].
  exact (malformed_event_stops_consumer
           [mkMsg sample_event 11] [mkMsg sample_event 13] (mkMsg untitled_event 12)
           boot H1 Hq H2).
Defined.

(** C1 as stated fails: the event without a title ends the consumer with
    [KeyError('title')], and the well-formed event behind it never reaches
    the table, although consumed alone it is stored. *)
Lemma malformed_event_is_fatal :
  malformed untitled_event /\
  fst (consume_notifications [mkMsg untitled_event 10; mkMsg sample_event 11] boot)
    = Raise (KeyError (JStr "title")) /\
  notifications
    (snd (consume_notifications [mkMsg untitled_event 10; mkMsg sample_event 11] boot))
    = [] /\
  consumer_stopped
    (snd (consume_notifications [mkMsg untitled_event 10; mkMsg sample_event 11] boot))
    = true /\
  notifications (snd (consume_notifications [mkMsg sample_event 11] boot)) = [sample_row].
Proof.
  split; [exact untitled_event_malformed|].
  repeat split; vm_compute; reflexivity.
Qed.

(** C2, the failing input.  User 42 is connected on socket 0 and
    [sample_event] arrives at time 11.  The event is stored first: the row
    has id 1, the consumer's clock and [read = false], and it is in the
    table even when the broadcast that follows raises (socket 0's send
    fails and its handler runs the disconnect clause during that send, so
    the pruning finds no entry).  The frame pushed to socket 0 is the event
    as received: it has no [id], no [created_at] and no [read].  The frame
    that the replay on connect sends a second socket of the same user for
    the same row has all three. *)
Theorem live_push_lacks_what_replay_sends :
  well_formed sample_event /\
  active_connections one_listener !! 42 = Some [0%nat] /\
  fst (handle_message (mkMsg sample_event 11) one_listener) = Ok tt /\
  notifications (snd (handle_message (mkMsg sample_event 11) one_listener))
    = [sample_row] /\
  outbox (snd (handle_message (mkMsg sample_event 11) one_listener))
    = [(0%nat, sample_event)] /\
  sample_event !! "id" = None /\ sample_event !! "created_at" = None /\
  sample_event !! "read" = None /\
  outbox
    (snd (websocket_endpoint sample_decode sample_isoformat 1%nat (Some "token-42") []
            (snd (handle_message (mkMsg sample_event 11) one_listener))))
    = [(0%nat, sample_event); (1%nat, notif_json sample_isoformat sample_row)] /\
  notif_json sample_isoformat sample_row !! "id" = Some (JInt 1) /\
  notif_json sample_isoformat sample_row !! "created_at" = Some (JStr "T+11") /\
  notif_json sample_isoformat sample_row !! "read" = Some (JBool false) /\
  fst (handle_message (mkMsgWith sample_event 11 [[(42, 0%nat)]]) (cut_links one_listener))
    = Raise (KeyError (JInt 42)) /\
  notifications
    (snd (handle_message (mkMsgWith sample_event 11 [[(42, 0%nat)]])
            (cut_links one_listener)))
    = [sample_row].
Proof.
  split; [exact sample_event_well_formed|].
  repeat split; vm_compute; reflexivity.
Qed.

(** C3, the failing input.  User 42 has one socket; its link dies; the next
    broadcast removes the socket from the list and leaves the entry behind
    as an empty list, where the disconnect handler would have deleted it.
    No disconnect clause runs during the broadcast (the schedule is
    empty). *)
Lemma broadcast_pruning_leaves_empty_entry :
  active_connections one_listener !! 42 = Some [0%nat] /\
  fst (broadcast_to_user [] 42 sample_event (cut_links one_listener)) = Ok tt /\
  active_connections (snd (broadcast_to_user [] 42 sample_event (cut_links one_listener))) !! 42
    = Some [] /\
  ~ no_empty_entry
      (active_connections (snd (broadcast_to_user [] 42 sample_event (cut_links one_listener)))).
Proof.
  assert (H : active_connections
                (snd (broadcast_to_user [] 42 sample_event (cut_links one_listener))) !! 42
              = Some []) by (vm_compute; reflexivity).
  repeat split; try (vm_compute; reflexivity); try exact H.
  intros Hne. exact (Hne 42 [] H eq_refl).
Qed.

(** C4, the failing input.  The frame [read:abc] makes [int] raise
    [ValueError], which [except WebSocketDisconnect] does not catch: the
    handler ends with the socket still in [active_connections]. *)
Lemma unparsable_ack_leaves_connection_registered :
  fst (websocket_endpoint sample_decode sample_isoformat 0%nat (Some "token-42")
         [Text "read:abc"] boot) = Raise ValueError /\
  active_connections
    (snd (websocket_endpoint sample_decode sample_isoformat 0%nat (Some "token-42")
            [Text "read:abc"] boot)) !! 42 = Some [0%nat].
Proof. repeat split; vm_compute; reflexivity. Qed.

(** C5, as amended.  Removing a socket that is not in the registry raises,
    [KeyError] when the user has no entry and [ValueError] when the user's
    list does not hold it, and leaves the whole state as it was. *)
Theorem deregister_absent_raises_unchanged (uid : Z) (websocket : WebSocket) (w : World) :
  (forall l, active_connections w !! uid = Some l -> websocket ∉ l) ->
  deregister uid websocket w =
  (Raise (match active_connections w !! uid with
          | None => KeyError (JInt uid)
          | Some _ => ValueError
          end), w).
Proof.
  intros Habs.
  destruct (active_connections w !! uid) as [l|] eqn:Hl.
  - apply (deregister_not_member uid websocket l w Hl), Habs. reflexivity.
  - apply deregister_no_entry, Hl.
Qed.

Lemma deregister_absent_raises_unchanged_witness :
  (forall l, active_connections pruned !! 42 = Some l -> 0%nat ∉ l) /\
  deregister 42 0%nat pruned =
  (Raise (match active_connections pruned !! 42 with
          | None => KeyError (JInt 42)
          | Some _ => ValueError
          end), pruned).
Proof.
  assert (H : forall l, active_connections pruned !! 42 = Some l -> 0%nat ∉ l).
  { intros l Hl. vm_compute in Hl. injection Hl as <-. apply not_elem_of_nil. }
  split; [exact H|].
  exact (deregister_absent_raises_unchanged 42 0%nat pruned H).
Defined.

(** C5 as stated fails: once a broadcast has pruned socket 0, the
    disconnect handler's removal of the same socket raises [ValueError],
    and so does the handler; for a user without an entry the removal raises
    [KeyError]. *)
Lemma double_cleanup_raises :
  active_connections pruned !! 42 = Some [] /\
  fst (deregister 42 0%nat pruned) = Raise ValueError /\
  fst (resume 0%nat 42 [Fails WebSocketDisconnect] pruned) = Raise ValueError /\
  fst (deregister 42 0%nat boot) = Raise (KeyError (JInt 42)).
Proof. repeat split; vm_compute; reflexivity. Qed.

(** C6.  For a caller whose token resolves to [uid], [mark_as_read] answers
    [{"success": True}] and changes nothing but the table; there, a row
    with the given id owned by the caller has [read = true] afterwards and
    its other columns as before, and every other row, a foreign owner's
    included, stays as it is; when no unread row of the caller has that id
    (foreign, already read or missing) the state is unchanged. *)
Theorem mark_as_read_scoped_to_owner
    (jwt_decode : string -> option dict) (token : string) (uid notification_id : Z)
    (w : World) :
  verify_token jwt_decode token = Some uid -> uid <> 0 ->
  exists w',
    mark_as_read jwt_decode notification_id token w
      = (Ok {[ "success" := JBool true ]}, w') /\
    w' = set_notifications (fun _ => notifications w') w /\
    length (notifications w') = length (notifications w) /\
    (forall i r, notifications w !! i = Some r ->
       id r = notification_id -> user_id r = uid ->
       notifications w' !! i =
       Some (mkRow (id r) (user_id r) (type_ r) (title r) (message r) (task_id r)
                   (created_at r) true)) /\
    (forall i r, notifications w !! i = Some r ->
       id r <> notification_id \/ user_id r <> uid ->
       notifications w' !! i = Some r) /\
    ((forall r, r ∈ notifications w -> id r = notification_id -> user_id r = uid ->
                read r = true) -> w' = w).
Proof.
  intros Hv Hz.
  exists (set_notifications (fmap (mark_row notification_id uid)) w).
  split; [|split; [|split; [|split; [|split]]]].
  - unfold mark_as_read, get_db.
    rewrite (bind_ok _ _ _ _ _ (require_user_ok jwt_decode _ _ w Hv Hz)).
    reflexivity.
  - reflexivity.
  - simpl. apply length_fmap.
  - intros i r Hi H1 H2. simpl. rewrite list_lookup_fmap, Hi. simpl.
    rewrite mark_row_match by assumption. reflexivity.
  - intros i r Hi Ho. simpl. rewrite list_lookup_fmap, Hi. simpl.
    rewrite mark_row_other by assumption. reflexivity.
  - intros Hall. apply world_eq; simpl; try reflexivity.
    induction (notifications w) as [|r t IH]; [reflexivity|].
    rewrite fmap_cons. rewrite IH.
    + f_equal.
      destruct (Z.eq_dec (id r) notification_id) as [H1|H1];
        [destruct (Z.eq_dec (user_id r) uid) as [H2|H2]|].
      * rewrite mark_row_match by assumption.
        apply set_read_read, Hall; [left | assumption ..].
      * apply mark_row_other; right; assumption.
      * apply mark_row_other; left; assumption.
    + intros r' Hr'. apply Hall. right. exact Hr'.
Qed.

Lemma mark_as_read_scoped_to_owner_witness :
  verify_token sample_decode "token-42" = Some 42 /\ 42 <> 0 /\
  exists w',
    mark_as_read sample_decode 1 "token-42" one_unread
      = (Ok {[ "success" := JBool true ]}, w') /\
    w' = set_notifications (fun _ => notifications w') one_unread /\
    length (notifications w') = length (notifications one_unread) /\
    (forall i r, notifications one_unread !! i = Some r ->
       id r = 1 -> user_id r = 42 ->
       notifications w' !! i =
       Some (mkRow (id r) (user_id r) (type_ r) (title r) (message r) (task_id r)
                   (created_at r) true)) /\
    (forall i r, notifications one_unread !! i = Some r ->
       id r <> 1 \/ user_id r <> 42 ->
       notifications w' !! i = Some r) /\
    ((forall r, r ∈ notifications one_unread -> id r = 1 -> user_id r = 42 ->
                read r = true) -> w' = one_unread).
Proof.
  assert (H1 : verify_token sample_decode "token-42" = Some 42) by reflexivity.
  assert (H2 : 42 <> 0) by lia.
  split; [exact H1|]. split; [exact H2|].
  exact (mark_as_read_scoped_to_owner sample_decode "token-42" 42 1 one_unread H1 H2).
Defined.

(** The two cases on the one row of [one_unread], owned by user 42: its
    owner's call sets the flag, user 7's call leaves the row unread and
    reports success all the same. *)
Example mark_as_read_own_and_foreign :
  notifications one_unread = [sample_row] /\ read sample_row = false /\
  mark_as_read sample_decode 1 "token-42" one_unread
    = (Ok {[ "success" := JBool true ]},
       set_notifications (fun _ => [mkRow 1 42 "task_assigned" "New Task Assigned"
                                          "You have been assigned to task: X"
                                          (Some 9) 11 true]) one_unread) /\
  mark_as_read sample_decode 1 "token-7" one_unread
    = (Ok {[ "success" := JBool true ]}, one_unread).
Proof. repeat split. Qed.

(** C7, as amended.  A frame that does not start with [read:] is ignored:
    no statement is sent to the store, nothing else changes, and the
    receive loop goes on with the next frame. *)
Theorem unprefixed_message_ignored
    (websocket : WebSocket) (uid : Z) (data : string) (rest : list frame) (w : World) :
  Py.startswith "read:" data = false ->
  on_text uid data w = (Ok tt, w) /\
  receive_loop uid (Text data :: rest) w = receive_loop uid rest w /\
  resume websocket uid (Text data :: rest) w = resume websocket uid rest w.
Proof.
  intros Hp.
  assert (H1 : on_text uid data w = (Ok tt, w)) by (unfold on_text; rewrite Hp; reflexivity).
  assert (H2 : receive_loop uid (Text data :: rest) w = receive_loop uid rest w).
  { cbn [receive_loop]. unfold bind. rewrite H1. reflexivity. }
  repeat split; try assumption.
  unfold resume, except_disconnect. rewrite H2. reflexivity.
Qed.

Lemma unprefixed_message_ignored_witness :
  Py.startswith "read:" "ping" = false /\
  on_text 42 "ping" one_listener = (Ok tt, one_listener) /\
  receive_loop 42 (Text "ping" :: [Text "read:1"]) one_listener
    = receive_loop 42 [Text "read:1"] one_listener /\
  resume 0%nat 42 (Text "ping" :: [Text "read:1"]) one_listener
    = resume 0%nat 42 [Text "read:1"] one_listener.
Proof.
  assert (H : Py.startswith "read:" "ping" = false) by reflexivity.
  split; [exact H|].
  exact (unprefixed_message_ignored 0%nat 42 "ping" [Text "read:1"] one_listener H).
Defined.

Lemma not_ack_literal (tail : string) :
  Py.int_of_str tail = None -> ~ ack_literal ("read:" +:+ tail).
Proof.
  intros Hnone [n Hn].
  change ("read:" +:+ tail) with
    (String "r" (String "e" (String "a" (String "d" (String ":" tail))))) in Hn.
  change ("read:" +:+ Py.str n) with
    (String "r" (String "e" (String "a" (String "d" (String ":" (Py.str n)))))) in Hn.
  injection Hn as Hn. rewrite Hn, int_of_str_str in Hnone. discriminate.
Qed.

(** C7 as stated fails: [read:abc] is not an acknowledgement of the form
    [read:<integer>], yet it ends the handler with [ValueError]; and
    [read:1:junk] is not of that form either, yet it marks row 1 as read. *)
Lemma non_integer_ack_ends_session :
  ~ ack_literal "read:abc" /\
  fst (resume 0%nat 42 [Text "read:abc"] one_listener) = Raise ValueError /\
  ~ ack_literal "read:1:junk" /\
  notifications one_unread = [sample_row] /\
  notifications (snd (resume 0%nat 42 [Text "read:1:junk"] one_unread))
    = [set_read sample_row].
Proof.
  split; [apply (not_ack_literal "abc"); reflexivity|].
  split; [vm_compute; reflexivity|].
  split; [apply (not_ack_literal "1:junk"); reflexivity|].
  split; vm_compute; reflexivity.
Qed.

(** C8, as amended.  For a caller whose token resolves to [uid] and a limit
    that is not negative, [get_notifications] returns the first [limit] rows
    (50 when no limit is given) of the caller's rows sorted by [created_at],
    newest first, and leaves the state untouched; with rows created at
    t1 < t2 < t3 and limit 1 the answer is the t3 row alone. *)
Theorem get_notifications_newest_first
    (jwt_decode : string -> option dict) (token : string) (uid : Z)
    (limit : option Z) (w : World) :
  verify_token jwt_decode token = Some uid -> uid <> 0 ->
  0 <= default 50 limit ->
  exists sorted,
    sorted ≡ₚ filter (owned_by uid) (notifications w) /\
    StronglySorted newest_first sorted /\
    get_notifications jwt_decode token limit w
      = (Ok (take (Z.to_nat (default 50 limit)) sorted), w) /\
    get_notifications jwt_decode token None w = (Ok (take 50 sorted), w) /\
    (forall r1 r2 r3,
        filter (owned_by uid) (notifications w) ≡ₚ [r1; r2; r3] ->
        created_at r1 < created_at r2 < created_at r3 ->
        get_notifications jwt_decode token (Some 1) w = (Ok [r3], w)).
Proof.
  intros Hv Hz Hl.
  set (sorted := order_by_created_at_desc (filter (owned_by uid) (notifications w))).
  assert (Hperm : sorted ≡ₚ filter (owned_by uid) (notifications w))
    by apply merge_sort_Permutation.
  assert (Hsorted : StronglySorted newest_first sorted)
    by (apply StronglySorted_merge_sort; typeclasses eauto).
  assert (Hget : forall l, 0 <= default 50 l ->
            get_notifications jwt_decode token l w
            = (Ok (take (Z.to_nat (default 50 l)) sorted), w)).
  { intros l Hl'. unfold get_notifications, get_db.
    rewrite (bind_ok _ _ _ _ _ (require_user_ok jwt_decode _ _ w Hv Hz)).
    unfold fetch_for_user, bind, get. apply sql_limit_ok, Hl'. }
  exists sorted. repeat split; try assumption.
  - apply Hget, Hl.
  - apply (Hget None). simpl. lia.
  - intros r1 r2 r3 Hp Ht. rewrite (Hget (Some 1)) by (simpl; lia).
    change (Z.to_nat (default 50 (Some 1))) with 1%nat.
    rewrite (newest_is_first sorted r1 r2 r3); [reflexivity | | assumption ..].
    rewrite Hperm. exact Hp.
Qed.

Lemma get_notifications_newest_first_witness :
  verify_token sample_decode "token-42" = Some 42 /\ 42 <> 0 /\
  0 <= default 50 (Some 2) /\
  exists sorted,
    sorted ≡ₚ filter (owned_by 42) (notifications three_unread) /\
    StronglySorted newest_first sorted /\
    get_notifications sample_decode "token-42" (Some 2) three_unread
      = (Ok (take (Z.to_nat (default 50 (Some 2))) sorted), three_unread) /\
    get_notifications sample_decode "token-42" None three_unread
      = (Ok (take 50 sorted), three_unread) /\
    (forall r1 r2 r3,
        filter (owned_by 42) (notifications three_unread) ≡ₚ [r1; r2; r3] ->
        created_at r1 < created_at r2 < created_at r3 ->
        get_notifications sample_decode "token-42" (Some 1) three_unread
          = (Ok [r3], three_unread)).
Proof.
  assert (H1 : verify_token sample_decode "token-42" = Some 42) by reflexivity.
  assert (H2 : 42 <> 0) by lia.
  assert (H3 : 0 <= default 50 (Some 2)) by (simpl; lia).
  split; [exact H1|]. split; [exact H2|]. split; [exact H3|].
  exact (get_notifications_newest_first sample_decode "token-42" 42 (Some 2)
           three_unread H1 H2 H3).
Defined.

(** C8 as stated fails: the handler takes any integer as [limit] and hands
    it to the store unchecked; for -1 the store refuses the query, so no
    list, truncated or not, is returned. *)
Lemma negative_limit_returns_no_list :
  verify_token sample_decode "token-42" = Some 42 /\
  length (filter (owned_by 42) (notifications three_unread)) = 3%nat /\
  get_notifications sample_decode "token-42" (Some (-1)) three_unread
    = (Raise DataError, three_unread).
Proof. repeat split; vm_compute; reflexivity. Qed.

(** C9.  A token that verifies and whose [sub] converts to the integer 0
    makes [verify_token] return 0, which every caller treats as no user: the
    socket is closed with code 1008 and reason "Invalid token" before it is
    accepted or registered, and each of the three HTTP handlers raises 401
    without touching the state. *)
Theorem user_zero_never_authenticates
    (jwt_decode : string -> option dict) (isoformat : Z -> string)
    (token : string) (payload : dict) (sub : json)
    (websocket : WebSocket) (inbound : list frame) (limit : option Z)
    (notification_id : Z) (w : World) :
  token <> "" -> jwt_decode token = Some payload -> payload !! "sub" = Some sub ->
  py_int sub = Ok 0 ->
  verify_token jwt_decode token = Some 0 /\
  websocket_endpoint jwt_decode isoformat websocket (Some token) inbound w
    = (Ok Returned, set_closed (fun c => c ++ [(websocket, 1008, "Invalid token")]) w) /\
  get_notifications jwt_decode token limit w
    = (Raise (HTTPException 401 "Invalid token"), w) /\
  mark_as_read jwt_decode notification_id token w
    = (Raise (HTTPException 401 "Invalid token"), w) /\
  get_unread_count jwt_decode token w
    = (Raise (HTTPException 401 "Invalid token"), w).
Proof.
  intros Hne Hd Hs Hi.
  assert (Hv : verify_token jwt_decode token = Some 0).
  { unfold verify_token. rewrite Hd, Hs, Hi. destruct sub; try reflexivity. discriminate. }
  split; [exact Hv|].
  split; [|split; [|split]].
  - unfold websocket_endpoint. destruct token as [|c t]; [congruence|].
    change (default "" (Some (String c t))) with (String c t).
    cbn [falsy_str]. rewrite Hv. reflexivity.
  - unfold get_notifications, get_db. apply bind_raise, require_user_zero, Hv.
  - unfold mark_as_read, get_db. apply bind_raise, require_user_zero, Hv.
  - unfold get_unread_count, get_db. apply bind_raise, require_user_zero, Hv.
Qed.

Lemma user_zero_never_authenticates_witness :
  "token-0" <> "" /\
  sample_decode "token-0" = Some {[ "sub" := JStr "0" ]} /\
  ({[ "sub" := JStr "0" ]} : dict) !! "sub" = Some (JStr "0") /\
  py_int (JStr "0") = Ok 0 /\
  verify_token sample_decode "token-0" = Some 0 /\
  websocket_endpoint sample_decode sample_isoformat 0%nat (Some "token-0")
      [Text "read:1"] one_unread
    = (Ok Returned,
       set_closed (fun c => c ++ [(0%nat, 1008, "Invalid token")]) one_unread) /\
  get_notifications sample_decode "token-0" None one_unread
    = (Raise (HTTPException 401 "Invalid token"), one_unread) /\
  mark_as_read sample_decode 1 "token-0" one_unread
    = (Raise (HTTPException 401 "Invalid token"), one_unread) /\
  get_unread_count sample_decode "token-0" one_unread
    = (Raise (HTTPException 401 "Invalid token"), one_unread).
Proof.
  assert (H1 : "token-0" <> "") by discriminate.
  assert (H2 : sample_decode "token-0" = Some {[ "sub" := JStr "0" ]}) by reflexivity.
  assert (H3 : ({[ "sub" := JStr "0" ]} : dict) !! "sub" = Some (JStr "0")) by reflexivity.
  assert (H4 : py_int (JStr "0") = Ok 0) by reflexivity.
  split; [exact H1|]. split; [exact H2|]. split; [exact H3|]. split; [exact H4|].
  exact (user_zero_never_authenticates sample_decode sample_isoformat "token-0"
           {[ "sub" := JStr "0" ]} (JStr "0") 0%nat [Text "read:1"] None 1 one_unread
           H1 H2 H3 H4).
Defined.

(** C10.  For a caller whose token resolves to [uid] and any notification
    id, the frame [read:<id>] on that caller's socket and the call of
    [mark_as_read] with that id send the same [UPDATE] with the same
    arguments: both succeed and leave exactly the same state. *)
Theorem ack_paths_agree
    (jwt_decode : string -> option dict) (token : string) (uid : Z)
    (websocket : WebSocket) (notification_id : Z) (w : World) :
  verify_token jwt_decode token = Some uid -> uid <> 0 ->
  resume websocket uid [Text ("read:" +:+ Py.str notification_id)] w
    = (Ok Receiving, snd (execute_mark_read notification_id uid w)) /\
  mark_as_read jwt_decode notification_id token w
    = (Ok {[ "success" := JBool true ]}, snd (execute_mark_read notification_id uid w)) /\
  snd (resume websocket uid [Text ("read:" +:+ Py.str notification_id)] w)
    = snd (mark_as_read jwt_decode notification_id token w).
Proof.
  intros Hv Hz.
  assert (H1 : resume websocket uid [Text ("read:" +:+ Py.str notification_id)] w
    = (Ok Receiving, snd (execute_mark_read notification_id uid w))).
  { destruct (ack_segment notification_id) as [Hp Hseg].
    destruct (on_text_prefixed uid _ w Hp) as (seg & Hseg' & Hon).
    rewrite Hseg in Hseg'. injection Hseg' as <-.
    rewrite int_of_str_str in Hon.
    unfold resume, except_disconnect. cbn [receive_loop].
    unfold bind. rewrite Hon. reflexivity. }
  assert (H2 : mark_as_read jwt_decode notification_id token w
    = (Ok {[ "success" := JBool true ]}, snd (execute_mark_read notification_id uid w))).
  { unfold mark_as_read, get_db.
    rewrite (bind_ok _ _ _ _ _ (require_user_ok jwt_decode _ _ w Hv Hz)).
    reflexivity. }
  rewrite H1, H2. repeat split.
Qed.

Lemma ack_paths_agree_witness :
  verify_token sample_decode "token-42" = Some 42 /\ 42 <> 0 /\
  resume 0%nat 42 [Text ("read:" +:+ Py.str 1)] one_unread
    = (Ok Receiving, snd (execute_mark_read 1 42 one_unread)) /\
  mark_as_read sample_decode 1 "token-42" one_unread
    = (Ok {[ "success" := JBool true ]}, snd (execute_mark_read 1 42 one_unread)) /\
  snd (resume 0%nat 42 [Text ("read:" +:+ Py.str 1)] one_unread)
    = snd (mark_as_read sample_decode 1 "token-42" one_unread).
Proof.
  assert (H1 : verify_token sample_decode "token-42" = Some 42) by reflexivity.
  assert (H2 : 42 <> 0) by lia.
  split; [exact H1|]. split; [exact H2|].
  exact (ack_paths_agree sample_decode "token-42" 42 0%nat 1 one_unread H1 H2).
Defined.

(** * Further properties *)

(** ** Facts about the sample data *)

Lemma empty_registry_single_owner : single_owner (∅ : gmap Z (list WebSocket)).
Proof. split; intros *; rewrite lookup_empty; discriminate. Defined.

Lemma empty_registry_unregistered ws : ~ registered (∅ : gmap Z (list WebSocket)) ws.
Proof. intros (u & l & H & _). rewrite lookup_empty in H. discriminate. Defined.

Lemma empty_registry_no_empty_entry : no_empty_entry (∅ : gmap Z (list WebSocket)).
Proof. intros u l H. rewrite lookup_empty in H. discriminate. Defined.

Lemma sample_update_publishes_status :
  TaskService.task_status_event 42 "X" TaskService.in_progress 9
    ∈ TaskService.update_task_events sample_update sample_task 1 "X" 9.
Proof.
  unfold TaskService.update_task_events, sample_update, sample_task.
  cbn [TaskService.upd_assignee_id TaskService.upd_status TaskService.upd_priority
       TaskService.assignee_id TaskService.status TaskService.priority
       TaskService.status_value TaskService.priority_value].
  rewrite !decide_True by (discriminate || (split; discriminate)).
  apply elem_of_app. right. apply elem_of_app. left. left.
Defined.

Lemma sample_events_published :
  Forall (fun m => TaskService.published (value m))
    [mkMsg (TaskService.task_assigned_event 42 "X" 9) 11;
     mkMsg (TaskService.task_status_event 42 "X" TaskService.in_progress 9) 12].
Proof.
  constructor; [|constructor; [|constructor]].
  - left. exists (Some 42), true, "X", 9.
    unfold TaskService.create_task_events.
    rewrite decide_False by discriminate. left.
  - right. exists sample_update, sample_task, 1, "X", 9.
    exact sample_update_publishes_status.
Defined.

(** ** Relations kept by every coroutine *)

Section Keeps.
Context (R : World -> World -> Prop) `{!Reflexive R} `{!Transitive R}.

Lemma keeps_ret {A} (a : A) : keeps R (ret a).
Proof. intros w. reflexivity. Qed.

Lemma keeps_raise {A} e : keeps R (@raise A e).
Proof. intros w. reflexivity. Qed.

Lemma keeps_get : keeps R get.
Proof. intros w. reflexivity. Qed.

Lemma keeps_lift {A} e (o : option A) : keeps R (lift e o).
Proof. destruct o; [apply keeps_ret | apply keeps_raise]. Qed.

Lemma keeps_modify f : (forall w, R w (f w)) -> keeps R (modify f).
Proof. intros Hf w. apply Hf. Qed.

Lemma keeps_bind {A B} (m : M A) (k : A -> M B) :
  keeps R m -> (forall a, keeps R (k a)) -> keeps R (bind m k).
Proof.
  intros Hm Hk w. unfold bind. specialize (Hm w).
  destruct (m w) as [[a|e] w']; simpl in *; [|assumption].
  etransitivity; [exact Hm | apply Hk].
Qed.

Lemma keeps_for_each {A} (body : A -> M unit) l :
  (forall x, keeps R (body x)) -> keeps R (for_each body l).
Proof.
  intros Hb. induction l as [|x l IH]; simpl; [apply keeps_ret|].
  apply keeps_bind; [apply Hb | intros _; exact IH].
Qed.

Lemma keeps_except_disconnect body handler :
  keeps R body -> keeps R handler -> keeps R (except_disconnect body handler).
Proof.
  intros Hb Hh w. unfold except_disconnect. specialize (Hb w).
  destruct (body w) as [[a|e] w']; simpl in *; [assumption|].
  destruct e; try assumption.
  etransitivity; [exact Hb|].
  apply (keeps_bind handler (fun _ => ret Returned)); [assumption|].
  intros _. apply keeps_ret.
Qed.

End Keeps.

#[global] Instance same_table_refl : Reflexive same_table.
Proof. intros w. split; reflexivity. Qed.
#[global] Instance same_table_trans : Transitive same_table.
Proof. intros w1 w2 w3 [H1 H2] [H3 H4]. split; congruence. Qed.
#[global] Instance same_registry_refl : Reflexive same_registry.
Proof. intros w. reflexivity. Qed.
#[global] Instance same_registry_trans : Transitive same_registry.
Proof. intros w1 w2 w3 H1 H2. unfold same_registry in *. congruence. Qed.

Lemma keeps_weaken {A} (R R' : World -> World -> Prop) (m : M A) :
  (forall w w', R w w' -> R' w w') -> keeps R m -> keeps R' m.
Proof. intros Hsub Hm w. apply Hsub, Hm. Qed.

Ltac keeps_tac :=
  repeat match goal with
    | |- keeps _ (bind _ _) => apply keeps_bind
    | |- keeps _ (ret _) => apply keeps_ret
    | |- keeps _ (raise _) => apply keeps_raise
    | |- keeps _ get => apply keeps_get
    | |- keeps _ (lift _ _) => apply keeps_lift
    | |- keeps _ (for_each _ _) => apply keeps_for_each
    | |- keeps _ (modify _) => apply keeps_modify
    | |- Reflexive _ => assumption
    | |- Transitive _ => assumption
    | |- forall _, _ => intro
    end.

Section SocketSide.
Context (R : World -> World -> Prop) `{!Reflexive R} `{!Transitive R}.
Hypothesis R_outbox : forall f w, R w (set_outbox f w).
Hypothesis R_registry : forall f w, R w (set_active_connections f w).
Hypothesis R_accepted : forall f w, R w (set_accepted f w).
Hypothesis R_closed : forall f w, R w (set_closed f w).

Lemma keeps_send_json websocket payload : keeps R (send_json websocket payload).
Proof.
  intros w. unfold send_json. destruct (link w websocket); simpl;
    [reflexivity | apply R_outbox].
Qed.

Lemma keeps_connections_of uid : keeps R (connections_of uid).
Proof. unfold connections_of. keeps_tac. Qed.

Lemma keeps_remove_connection uid ws : keeps R (remove_connection uid ws).
Proof.
  unfold remove_connection. keeps_tac; [apply keeps_connections_of | apply R_registry].
Qed.

Lemma keeps_register uid ws : keeps R (register uid ws).
Proof.
  unfold register. keeps_tac.
  - destruct (active_connections _ !! uid); keeps_tac. apply R_registry.
  - apply keeps_connections_of.
  - apply R_registry.
Qed.

Lemma keeps_deregister uid ws : keeps R (deregister uid ws).
Proof.
  unfold deregister. keeps_tac;
    [apply keeps_remove_connection | apply keeps_connections_of |].
  match goal with |- keeps _ (match ?l with _ => _ end) => destruct l end; keeps_tac.
  apply R_registry.
Qed.

Lemma keeps_others_run handlers : forall w, R w (others_run handlers w).
Proof.
  induction handlers as [|[uid ws] handlers IH]; intros w; simpl; [reflexivity|].
  etransitivity; [|apply IH]. apply (keeps_deregister uid ws w).
Qed.

Lemma keeps_push_all rounds uid notification : forall meanwhile i disconnected,
  keeps R (push_all rounds uid notification meanwhile i disconnected).
Proof.
  induction rounds as [|rounds IH]; intros others i d w; cbn [push_all]; [reflexivity|].
  destruct (active_connections w !! uid ≫= (fun conns => conns !! i)) as [c|];
    [|reflexivity].
  etransitivity; [apply (keeps_send_json c notification w)|].
  etransitivity; [apply keeps_others_run|]. apply IH.
Qed.

Lemma keeps_broadcast meanwhile uid notification :
  keeps R (broadcast_to_user meanwhile uid notification).
Proof.
  unfold broadcast_to_user. keeps_tac.
  destruct (active_connections _ !! uid); keeps_tac;
    [apply keeps_push_all | apply keeps_remove_connection].
Qed.

Lemma keeps_close ws code reason : keeps R (close ws code reason).
Proof. apply keeps_modify, R_closed. Qed.

Lemma keeps_accept ws : keeps R (accept ws).
Proof. apply keeps_modify, R_accepted. Qed.

End SocketSide.

Section StoreReads.
Context (R : World -> World -> Prop) `{!Reflexive R} `{!Transitive R}.

Lemma keeps_sql_limit n rows : keeps R (sql_limit n rows).
Proof. unfold sql_limit. destruct (n <? 0)%Z; keeps_tac. Qed.

Lemma keeps_fetch_unread uid : keeps R (fetch_unread uid).
Proof. unfold fetch_unread. keeps_tac. apply keeps_sql_limit. Qed.

Lemma keeps_fetch_for_user uid limit : keeps R (fetch_for_user uid limit).
Proof. unfold fetch_for_user. keeps_tac. apply keeps_sql_limit. Qed.

Lemma keeps_fetchval_unread_count uid : keeps R (fetchval_unread_count uid).
Proof. unfold fetchval_unread_count. keeps_tac. Qed.

Lemma keeps_require_user jwt_decode token : keeps R (require_user jwt_decode token).
Proof.
  unfold require_user. destruct (verify_token jwt_decode token) as [[| |]|]; keeps_tac.
Qed.

Lemma keeps_getitem d key : keeps R (getitem d key).
Proof. unfold getitem. keeps_tac. Qed.

End StoreReads.

Section TableRelation.
Context (R : World -> World -> Prop) `{!Reflexive R} `{!Transitive R}.
Hypothesis R_same : forall w w', same_table w w' -> R w w'.
Hypothesis R_insert : forall u ty ti me tk now w, R w (inserted u ty ti me tk now w).
Hypothesis R_mark : forall notif_id uid w,
  R w (set_notifications (fmap (mark_row notif_id uid)) w).

Lemma table_outbox f w : R w (set_outbox f w).
Proof. apply R_same. split; reflexivity. Qed.
Lemma table_registry f w : R w (set_active_connections f w).
Proof. apply R_same. split; reflexivity. Qed.
Lemma table_accepted f w : R w (set_accepted f w).
Proof. apply R_same. split; reflexivity. Qed.
Lemma table_closed f w : R w (set_closed f w).
Proof. apply R_same. split; reflexivity. Qed.

Lemma keeps_execute_insert a1 a2 a3 a4 a5 now :
  keeps R (execute_insert a1 a2 a3 a4 a5 now).
Proof.
  unfold execute_insert.
  destruct a1; try (keeps_tac; fail).
  destruct a2; try (keeps_tac; fail).
  destruct a3; try (keeps_tac; fail).
  destruct a4; try (keeps_tac; fail).
  destruct (nullable_int a5); keeps_tac.
  intros w. apply R_insert.
Qed.

Lemma keeps_execute_mark_read notif_id uid : keeps R (execute_mark_read notif_id uid).
Proof. unfold execute_mark_read. keeps_tac. apply R_mark. Qed.

Lemma keeps_handle_message msg : keeps R (handle_message msg).
Proof.
  unfold handle_message. keeps_tac.
  - apply R_same. split; reflexivity.
  - apply keeps_getitem; assumption.
  - apply keeps_getitem; assumption.
  - apply keeps_getitem; assumption.
  - apply keeps_getitem; assumption.
  - apply keeps_execute_insert.
  - apply keeps_getitem; assumption.
  - match goal with |- keeps _ (match ?u with _ => _ end) => destruct u end; keeps_tac.
    apply keeps_broadcast; auto using table_outbox, table_registry.
Qed.

Lemma keeps_consume msgs : keeps R (consume_notifications msgs).
Proof.
  intros w. unfold consume_notifications.
  pose proof (keeps_for_each R handle_message msgs keeps_handle_message w) as H.
  destruct (for_each handle_message msgs w) as [[[]|e] w']; simpl in *; [assumption|].
  etransitivity; [exact H|]. apply R_same. split; reflexivity.
Qed.

Lemma keeps_on_text uid data : keeps R (on_text uid data).
Proof.
  unfold on_text. destruct (Py.startswith "read:" data); keeps_tac.
  apply keeps_execute_mark_read.
Qed.

Lemma keeps_receive_loop uid inbound : keeps R (receive_loop uid inbound).
Proof.
  induction inbound as [|[data|e] rest IH]; cbn [receive_loop]; keeps_tac;
    [apply keeps_on_text | exact IH].
Qed.

Lemma keeps_replay isoformat websocket uid : keeps R (replay isoformat websocket uid).
Proof.
  unfold replay. keeps_tac; [apply keeps_fetch_unread; assumption|].
  apply keeps_send_json; auto using table_outbox.
Qed.

Lemma keeps_resume websocket uid inbound : keeps R (resume websocket uid inbound).
Proof.
  unfold resume. apply keeps_except_disconnect; try assumption.
  - apply keeps_receive_loop.
  - apply keeps_deregister; auto using table_registry.
Qed.

Lemma keeps_websocket_endpoint jwt_decode isoformat websocket token inbound :
  keeps R (websocket_endpoint jwt_decode isoformat websocket token inbound).
Proof.
  assert (Hclose : forall reason, keeps R (close websocket 1008 reason))
    by (intros; apply keeps_close; auto using table_closed).
  assert (Htry : forall uid,
            keeps R (except_disconnect
                       (replay isoformat websocket uid;;; receive_loop uid inbound)
                       (deregister uid websocket))).
  { intros uid. apply keeps_except_disconnect; try assumption.
    - keeps_tac; [apply keeps_replay | apply keeps_receive_loop].
    - apply keeps_deregister; auto using table_registry. }
  assert (Hopen : forall uid,
            keeps R (accept websocket;;; register uid websocket;;;
                     except_disconnect
                       (replay isoformat websocket uid;;; receive_loop uid inbound)
                       (deregister uid websocket))).
  { intros uid. keeps_tac.
    - apply keeps_accept; auto using table_accepted.
    - apply keeps_register; auto using table_registry.
    - apply Htry. }
  unfold websocket_endpoint. destruct (falsy_str token).
  { keeps_tac. apply Hclose. }
  destruct (verify_token jwt_decode (default "" token)) as [[| |]|];
    try apply Hopen; keeps_tac; apply Hclose.
Qed.

Lemma keeps_get_notifications jwt_decode token limit :
  keeps R (get_notifications jwt_decode token limit).
Proof.
  unfold get_notifications, get_db. keeps_tac;
    [apply keeps_require_user | apply keeps_fetch_for_user]; assumption.
Qed.

Lemma keeps_mark_as_read jwt_decode notification_id token :
  keeps R (mark_as_read jwt_decode notification_id token).
Proof.
  unfold mark_as_read, get_db. keeps_tac;
    [apply keeps_require_user; assumption | apply keeps_execute_mark_read].
Qed.

Lemma keeps_get_unread_count jwt_decode token :
  keeps R (get_unread_count jwt_decode token).
Proof.
  unfold get_unread_count, get_db. keeps_tac;
    [apply keeps_require_user | apply keeps_fetchval_unread_count]; assumption.
Qed.

Lemma perform_related jwt_decode isoformat a w : R w (perform jwt_decode isoformat a w).
Proof.
  destruct a; simpl.
  - apply keeps_consume.
  - apply keeps_websocket_endpoint.
  - apply keeps_resume.
  - apply keeps_get_notifications.
  - apply keeps_mark_as_read.
  - apply keeps_get_unread_count.
  - apply R_same. split; reflexivity.
Qed.

Lemma perform_all_related jwt_decode isoformat trace : forall w,
  R w (perform_all jwt_decode isoformat trace w).
Proof.
  induction trace as [|a rest IH]; intros w; simpl; [reflexivity|].
  etransitivity; [apply perform_related | apply IH].
Qed.

End TableRelation.

(** ** The table only grows, and rows only gain the read flag *)

Lemma evolves_refl r : evolves r r.
Proof. repeat split; auto. Qed.

Lemma evolves_trans r1 r2 r3 : evolves r1 r2 -> evolves r2 r3 -> evolves r1 r3.
Proof.
  intros (A1 & A2 & A3 & A4 & A5 & A6 & A7 & A8) (B1 & B2 & B3 & B4 & B5 & B6 & B7 & B8).
  repeat split; try congruence. auto.
Qed.

Lemma evolves_mark_row notif_id uid r : evolves r (mark_row notif_id uid r).
Proof.
  unfold mark_row. destruct ((id r =? notif_id)%Z && (user_id r =? uid)%Z);
    [|apply evolves_refl].
  repeat split; auto.
Qed.

#[global] Instance rows_evolve_refl : Reflexive rows_evolve.
Proof. intros w i r Hi. exists r. split; [assumption | apply evolves_refl]. Qed.

#[global] Instance rows_evolve_trans : Transitive rows_evolve.
Proof.
  intros w1 w2 w3 H12 H23 i r Hi.
  destruct (H12 i r Hi) as (r2 & Hi2 & E12).
  destruct (H23 i r2 Hi2) as (r3 & Hi3 & E23).
  exists r3. split; [assumption | eapply evolves_trans; eassumption].
Qed.

Lemma rows_evolve_same w w' : same_table w w' -> rows_evolve w w'.
Proof.
  intros [Ht _] i r Hi. exists r. unfold rows_evolve. rewrite Ht.
  split; [assumption | apply evolves_refl].
Qed.

Lemma rows_evolve_insert u ty ti me tk now w :
  rows_evolve w (inserted u ty ti me tk now w).
Proof.
  intros i r Hi. exists r. simpl. split; [|apply evolves_refl].
  apply lookup_app_l_Some, Hi.
Qed.

Lemma rows_evolve_mark notif_id uid w :
  rows_evolve w (set_notifications (fmap (mark_row notif_id uid)) w).
Proof.
  intros i r Hi. exists (mark_row notif_id uid r). simpl.
  rewrite list_lookup_fmap, Hi. split; [reflexivity | apply evolves_mark_row].
Qed.

(** X1.  Whatever the service does (consuming events, socket sessions,
    the three HTTP handlers, links failing), a stored notification stays
    at its place in the table with the same id, owner, type, title,
    message, task id and creation time; a row that was read stays read.
    No code path deletes a row or marks it unread. *)
Theorem rows_only_gain_read_flag
    (jwt_decode : string -> option dict) (isoformat : Z -> string)
    (trace : list action) (w : World) (i : nat) (r : Row) :
  notifications w !! i = Some r ->
  exists r',
    notifications (perform_all jwt_decode isoformat trace w) !! i = Some r' /\
    id r' = id r /\ user_id r' = user_id r /\ type_ r' = type_ r /\
    title r' = title r /\ message r' = message r /\ task_id r' = task_id r /\
    created_at r' = created_at r /\ (read r = true -> read r' = true).
Proof.
  intros Hi.
  exact (perform_all_related rows_evolve rows_evolve_same rows_evolve_insert
           rows_evolve_mark jwt_decode isoformat trace w i r Hi).
Qed.

Lemma rows_only_gain_read_flag_witness :
  notifications one_unread !! 0%nat = Some sample_row /\
  exists r',
    notifications (perform_all sample_decode sample_isoformat sample_trace one_unread)
      !! 0%nat = Some r' /\
    id r' = id sample_row /\ user_id r' = user_id sample_row /\
    type_ r' = type_ sample_row /\ title r' = title sample_row /\
    message r' = message sample_row /\ task_id r' = task_id sample_row /\
    created_at r' = created_at sample_row /\ (read sample_row = true -> read r' = true).
Proof.
  assert (H : notifications one_unread !! 0%nat = Some sample_row) by reflexivity.
  split; [exact H|].
  exact (rows_only_gain_read_flag sample_decode sample_isoformat sample_trace
           one_unread 0%nat sample_row H).
Defined.

#[global] Instance ids_kept_refl : Reflexive ids_kept.
Proof. intros w H. exact H. Qed.
#[global] Instance ids_kept_trans : Transitive ids_kept.
Proof. intros w1 w2 w3 H12 H23 H. auto. Qed.

Lemma ids_kept_same w w' : same_table w w' -> ids_kept w w'.
Proof. intros [Ht Hn] [H1 H2]. unfold ids_increase. rewrite Ht, Hn. auto. Qed.

Lemma ids_kept_insert u ty ti me tk now w : ids_kept w (inserted u ty ti me tk now w).
Proof.
  intros [Hs Hb]. split; simpl.
  - rewrite fmap_app. simpl.
    apply StronglySorted_app_2; [|assumption | repeat constructor].
    intros x y Hx Hy. apply list_elem_of_singleton in Hy. subst y.
    apply list_elem_of_fmap in Hx as (r & -> & Hr).
    rewrite Forall_forall in Hb. apply Hb, Hr.
  - apply Forall_app. split.
    + eapply Forall_impl; [exact Hb|]. intros r Hr. simpl in *. lia.
    + constructor; [simpl; lia | constructor].
Qed.

Lemma id_mark_row notif_id uid r : id (mark_row notif_id uid r) = id r.
Proof. apply (evolves_mark_row notif_id uid r). Qed.

Lemma ids_kept_mark notif_id uid w :
  ids_kept w (set_notifications (fmap (mark_row notif_id uid)) w).
Proof.
  intros [Hs Hb]. split; simpl.
  - rewrite <- list_fmap_compose.
    erewrite list_fmap_ext; [exact Hs|]. intros j r _. simpl. apply id_mark_row.
  - apply Forall_fmap. eapply Forall_impl; [exact Hb|].
    intros r Hr. simpl. rewrite id_mark_row. exact Hr.
Qed.

(** The sequence hands out increasing ids, so the ids of the table are
    pairwise different in every state the service reaches. *)
Lemma ids_stay_increasing
    (jwt_decode : string -> option dict) (isoformat : Z -> string)
    (trace : list action) (w : World) :
  ids_increase w ->
  ids_increase (perform_all jwt_decode isoformat trace w) /\
  NoDup (id <$> notifications (perform_all jwt_decode isoformat trace w)).
Proof.
  intros Hw.
  pose proof (perform_all_related ids_kept ids_kept_same ids_kept_insert ids_kept_mark
                jwt_decode isoformat trace w Hw) as H.
  split; [exact H|].
  destruct H as [Hs _]. revert Hs.
  generalize (id <$> notifications (perform_all jwt_decode isoformat trace w)).
  intros l Hs. induction Hs as [|x l Hs IH Hall]; constructor; [|assumption].
  intros Hin. rewrite Forall_forall in Hall. specialize (Hall x Hin). lia.
Qed.

(** ** The registry *)

#[global] Instance owner_kept_refl : Reflexive owner_kept.
Proof. intros w H. exact H. Qed.
#[global] Instance owner_kept_trans : Transitive owner_kept.
Proof. intros w1 w2 w3 H12 H23 H. auto. Qed.

Lemma owner_kept_same w w' : same_registry w w' -> owner_kept w w'.
Proof. intros Hr H. unfold same_registry in Hr. rewrite Hr. exact H. Qed.

Lemma owner_kept_deregister uid ws : keeps owner_kept (deregister uid ws).
Proof.
  intros w Hso.
  destruct (active_connections w !! uid) as [l|] eqn:Hl.
  2:{ rewrite (deregister_no_entry _ _ _ Hl). exact Hso. }
  destruct (decide (ws ∈ l)) as [Hin|Hin].
  2:{ rewrite (deregister_not_member _ _ _ _ Hl Hin). exact Hso. }
  destruct (list_remove_present ws l Hin) as [l' Hr].
  rewrite (deregister_spec _ _ _ _ _ Hl Hr). simpl.
  destruct l' as [|x l']; simpl.
  - apply single_owner_delete, Hso.
  - eapply single_owner_sublist; [eassumption .. |].
    eapply list_remove_sublist, Hr.
Qed.

Lemma owner_kept_remove uid ws : keeps owner_kept (remove_connection uid ws).
Proof.
  intros w Hso. unfold remove_connection.
  destruct (active_connections w !! uid) as [l|] eqn:Hl.
  2:{ rewrite (bind_raise _ _ _ _ _ (connections_of_raise _ _ Hl)). exact Hso. }
  rewrite (bind_ok _ _ _ _ _ (connections_of_ok _ _ _ Hl)).
  destruct (Py.list_remove ws l) as [l'|] eqn:Hr; [|exact Hso].
  simpl. eapply single_owner_sublist; [eassumption .. |].
  eapply list_remove_sublist, Hr.
Qed.

Lemma register_keeps_single_owner uid ws w :
  ~ registered (active_connections w) ws ->
  single_owner (active_connections w) ->
  single_owner (active_connections (snd (register uid ws w))).
Proof.
  intros Hfresh [Hnd Hown]. rewrite register_spec. simpl.
  set (old := default [] (active_connections w !! uid)).
  assert (Hold : ws ∉ old).
  { subst old. destruct (active_connections w !! uid) as [l|] eqn:Hl; simpl.
    - intros Hin. apply Hfresh. exists uid, l. auto.
    - apply not_elem_of_nil. }
  assert (Hnd_old : NoDup old).
  { subst old. destruct (active_connections w !! uid) as [l|] eqn:Hl; simpl.
    - eapply Hnd, Hl.
    - constructor. }
  split.
  - intros u k Hk. destruct (decide (uid = u)) as [<-|Hneq].
    + rewrite lookup_insert_eq in Hk. injection Hk as <-.
      apply NoDup_app. repeat split; [assumption | | apply NoDup_singleton].
      intros x Hx Hx'. apply list_elem_of_singleton in Hx'. subst x. contradiction.
    + rewrite lookup_insert_ne in Hk by assumption. eapply Hnd, Hk.
  - intros u1 u2 l1 l2 x H1 H2 Hin1 Hin2.
    assert (Hcase : forall u k,
              <[uid := old ++ [ws]]> (active_connections w) !! u = Some k -> x ∈ k ->
              (x = ws /\ u = uid) \/
              (x <> ws /\ exists k0, active_connections w !! u = Some k0 /\ x ∈ k0)).
    { intros u k Hk Hin. destruct (decide (uid = u)) as [<-|Hneq].
      - rewrite lookup_insert_eq in Hk. injection Hk as <-.
        apply elem_of_app in Hin as [Hin|Hin].
        + right. split; [intros ->; contradiction|].
          subst old. destruct (active_connections w !! uid) as [l|] eqn:Hl; simpl in Hin.
          * eauto.
          * inversion Hin.
        + apply list_elem_of_singleton in Hin. left. auto.
      - rewrite lookup_insert_ne in Hk by assumption. right. split; [|eauto].
        intros ->. apply Hfresh. exists u, k. auto. }
    destruct (Hcase _ _ H1 Hin1) as [[E1 ->]|[N1 (k1 & Hk1 & Hi1)]];
      destruct (Hcase _ _ H2 Hin2) as [[E2 ->]|[N2 (k2 & Hk2 & Hi2)]];
      try reflexivity; try contradiction.
    eapply Hown; eassumption.
Qed.

Section RegistryRelation.
Context (R : World -> World -> Prop) `{!Reflexive R} `{!Transitive R}.
Hypothesis R_same : forall w w', same_registry w w' -> R w w'.
Hypothesis R_deregister : forall uid ws, keeps R (deregister uid ws).
Hypothesis R_remove : forall uid ws, keeps R (remove_connection uid ws).

Lemma registry_outbox f w : R w (set_outbox f w).
Proof. apply R_same. reflexivity. Qed.

Lemma registry_others_run handlers : forall w, R w (others_run handlers w).
Proof.
  induction handlers as [|[uid ws] handlers IH]; intros w; simpl; [reflexivity|].
  etransitivity; [|apply IH]. apply (R_deregister uid ws w).
Qed.

Lemma registry_push_all rounds uid notification : forall meanwhile i disconnected,
  keeps R (push_all rounds uid notification meanwhile i disconnected).
Proof.
  induction rounds as [|rounds IH]; intros others i d w; cbn [push_all]; [reflexivity|].
  destruct (active_connections w !! uid ≫= (fun conns => conns !! i)) as [c|];
    [|reflexivity].
  etransitivity; [|etransitivity; [apply registry_others_run | apply IH]].
  unfold send_json. destruct (link w c); [reflexivity | apply registry_outbox].
Qed.

Lemma registry_broadcast meanwhile uid notification :
  keeps R (broadcast_to_user meanwhile uid notification).
Proof.
  unfold broadcast_to_user. keeps_tac.
  destruct (active_connections _ !! uid); keeps_tac;
    [apply registry_push_all | apply R_remove].
Qed.

Lemma registry_handle_message msg : keeps R (handle_message msg).
Proof.
  unfold handle_message. keeps_tac.
  - apply R_same. reflexivity.
  - apply keeps_getitem; assumption.
  - apply keeps_getitem; assumption.
  - apply keeps_getitem; assumption.
  - apply keeps_getitem; assumption.
  - unfold execute_insert.
    repeat match goal with
           | |- keeps _ (match ?x with _ => _ end) => destruct x
           end; keeps_tac.
    intros w. apply R_same. reflexivity.
  - apply keeps_getitem; assumption.
  - match goal with |- keeps _ (match ?u with _ => _ end) => destruct u end; keeps_tac.
    apply registry_broadcast.
Qed.

Lemma registry_consume msgs : keeps R (consume_notifications msgs).
Proof.
  intros w. unfold consume_notifications.
  pose proof (keeps_for_each R handle_message msgs registry_handle_message w) as H.
  destruct (for_each handle_message msgs w) as [[[]|e] w']; simpl in *; [assumption|].
  etransitivity; [exact H|]. apply R_same. reflexivity.
Qed.

Lemma registry_mark notif_id uid : keeps R (execute_mark_read notif_id uid).
Proof. unfold execute_mark_read. keeps_tac. apply R_same. reflexivity. Qed.

Lemma registry_on_text uid data : keeps R (on_text uid data).
Proof.
  unfold on_text. destruct (Py.startswith "read:" data); keeps_tac.
  apply registry_mark.
Qed.

Lemma registry_receive_loop uid inbound : keeps R (receive_loop uid inbound).
Proof.
  induction inbound as [|[data|e] rest IH]; cbn [receive_loop]; keeps_tac;
    [apply registry_on_text | exact IH].
Qed.

Lemma registry_replay isoformat websocket uid : keeps R (replay isoformat websocket uid).
Proof.
  unfold replay. keeps_tac; [apply keeps_fetch_unread; assumption|].
  apply keeps_send_json; auto using registry_outbox.
Qed.

Lemma registry_resume websocket uid inbound : keeps R (resume websocket uid inbound).
Proof.
  unfold resume. apply keeps_except_disconnect; try assumption.
  - apply registry_receive_loop.
  - apply R_deregister.
Qed.

Lemma registry_session isoformat websocket uid inbound :
  keeps R (except_disconnect
             (replay isoformat websocket uid;;; receive_loop uid inbound)
             (deregister uid websocket)).
Proof.
  apply keeps_except_disconnect; try assumption.
  - keeps_tac; [apply registry_replay | apply registry_receive_loop].
  - apply R_deregister.
Qed.

Lemma registry_get_notifications jwt_decode token limit :
  keeps R (get_notifications jwt_decode token limit).
Proof.
  unfold get_notifications, get_db. keeps_tac;
    [apply keeps_require_user | apply keeps_fetch_for_user]; assumption.
Qed.

Lemma registry_mark_as_read jwt_decode notification_id token :
  keeps R (mark_as_read jwt_decode notification_id token).
Proof.
  unfold mark_as_read, get_db. keeps_tac;
    [apply keeps_require_user; assumption | apply registry_mark].
Qed.

Lemma registry_get_unread_count jwt_decode token :
  keeps R (get_unread_count jwt_decode token).
Proof.
  unfold get_unread_count, get_db. keeps_tac;
    [apply keeps_require_user | apply keeps_fetchval_unread_count]; assumption.
Qed.

End RegistryRelation.

Lemma connect_keeps_single_owner jwt_decode isoformat websocket token inbound w :
  ~ registered (active_connections w) websocket ->
  single_owner (active_connections w) ->
  single_owner
    (active_connections
       (snd (websocket_endpoint jwt_decode isoformat websocket token inbound w))).
Proof.
  intros Hfresh Hso. unfold websocket_endpoint.
  destruct (falsy_str token); [exact Hso|].
  assert (Hopen : forall uid,
    single_owner
      (active_connections
         (snd ((accept websocket;;; register uid websocket;;;
                except_disconnect
                  (replay isoformat websocket uid;;; receive_loop uid inbound)
                  (deregister uid websocket)) w)))).
  { intros uid. unfold bind at 1. unfold accept, modify at 1.
    set (w1 := set_accepted (fun a => a ++ [websocket]) w).
    unfold bind at 1. rewrite register_spec.
    apply (registry_session owner_kept owner_kept_same owner_kept_deregister).
    pose proof (register_keeps_single_owner uid websocket w1 Hfresh Hso) as H.
    rewrite register_spec in H. exact H. }
  destruct (verify_token jwt_decode (default "" token)) as [[| |]|];
    try apply Hopen; exact Hso.
Qed.

(** X2.  If no socket is in two lists of [active_connections], or twice in
    one, and every connection that arrives brings a socket object that is
    not in the registry at that point, then this still holds after any run
    of the service: broadcasts, sessions and disconnects do not duplicate a
    socket. *)
Theorem socket_never_in_two_lists
    (jwt_decode : string -> option dict) (isoformat : Z -> string)
    (trace : list action) (w : World) :
  single_owner (active_connections w) ->
  connects_fresh jwt_decode isoformat trace w ->
  single_owner (active_connections (perform_all jwt_decode isoformat trace w)).
Proof.
  revert w. induction trace as [|a rest IH]; intros w Hso Hfresh; simpl; [exact Hso|].
  destruct Hfresh as [Ha Hrest]. apply IH; [|exact Hrest].
  destruct a; simpl.
  - apply (registry_consume owner_kept owner_kept_same owner_kept_deregister
             owner_kept_remove), Hso.
  - apply connect_keeps_single_owner; assumption.
  - apply (registry_resume owner_kept owner_kept_same owner_kept_deregister), Hso.
  - exact (registry_get_notifications owner_kept jwt_decode token limit w Hso).
  - exact (registry_mark_as_read owner_kept owner_kept_same jwt_decode
             notification_id token w Hso).
  - exact (registry_get_unread_count owner_kept jwt_decode token w Hso).
  - exact Hso.
Qed.

Lemma socket_never_in_two_lists_witness :
  single_owner (active_connections boot) /\
  connects_fresh sample_decode sample_isoformat sample_trace boot /\
  single_owner
    (active_connections (perform_all sample_decode sample_isoformat sample_trace boot)).
Proof.
  assert (H1 : single_owner (active_connections boot)) by exact empty_registry_single_owner.
  assert (H2 : connects_fresh sample_decode sample_isoformat sample_trace boot).
  { split; [exact (empty_registry_unregistered 0%nat)|]. cbn [connects_fresh sample_trace].
    repeat split. }
  split; [exact H1|]. split; [exact H2|].
  exact (socket_never_in_two_lists sample_decode sample_isoformat sample_trace boot H1 H2).
Defined.

Lemma one_listener_single_owner : single_owner (active_connections one_listener).
Proof.
  exact (connect_keeps_single_owner sample_decode sample_isoformat 0%nat
           (Some "token-42") [] boot (empty_registry_unregistered 0%nat)
           empty_registry_single_owner).
Defined.

Lemma disconnect_deregisters_witness :
  single_owner (active_connections one_listener) /\
  active_connections one_listener !! 42 = Some [0%nat] /\ (0%nat ∈ [0%nat]) /\
  exists w',
    resume 0%nat 42 [Fails WebSocketDisconnect] one_listener = (Ok Returned, w') /\
    ~ registered (active_connections w') 0%nat.
Proof.
  assert (H2 : active_connections one_listener !! 42 = Some [0%nat]) by reflexivity.
  assert (H3 : 0%nat ∈ [0%nat]) by (apply list_elem_of_singleton; reflexivity).
  split; [exact one_listener_single_owner|]. split; [exact H2|]. split; [exact H3|].
  exact (disconnect_deregisters 42 0%nat [0%nat] one_listener
           one_listener_single_owner H2 H3).
Defined.

#[global] Instance entries_kept_refl : Reflexive entries_kept.
Proof. intros w H. exact H. Qed.
#[global] Instance entries_kept_trans : Transitive entries_kept.
Proof. intros w1 w2 w3 H12 H23 H. auto. Qed.

Lemma entries_kept_same w w' : same_registry w w' -> entries_kept w w'.
Proof. intros Hr H. unfold same_registry in Hr. rewrite Hr. exact H. Qed.

Lemma entries_kept_deregister uid ws : keeps entries_kept (deregister uid ws).
Proof.
  intros w Hne.
  destruct (active_connections w !! uid) as [l|] eqn:Hl.
  2:{ rewrite (deregister_no_entry _ _ _ Hl). exact Hne. }
  destruct (decide (ws ∈ l)) as [Hin|Hin].
  2:{ rewrite (deregister_not_member _ _ _ _ Hl Hin). exact Hne. }
  destruct (list_remove_present ws l Hin) as [l' Hr].
  rewrite (deregister_spec _ _ _ _ _ Hl Hr). simpl.
  intros u k Hk. destruct l' as [|x l']; simpl in Hk.
  - apply lookup_delete_Some in Hk as [_ Hk]. eapply Hne, Hk.
  - destruct (decide (uid = u)) as [<-|Hneq].
    + rewrite lookup_insert_eq in Hk. injection Hk as <-. discriminate.
    + rewrite lookup_insert_ne in Hk by assumption. eapply Hne, Hk.
Qed.

Lemma entries_kept_register uid ws : keeps entries_kept (register uid ws).
Proof.
  intros w Hne. rewrite register_spec. simpl.
  intros u k Hk. destruct (decide (uid = u)) as [<-|Hneq].
  - rewrite lookup_insert_eq in Hk. injection Hk as <-.
    destruct (default [] (active_connections w !! uid)); discriminate.
  - rewrite lookup_insert_ne in Hk by assumption. eapply Hne, Hk.
Qed.

Lemma entries_kept_connect jwt_decode isoformat websocket token inbound :
  keeps entries_kept (websocket_endpoint jwt_decode isoformat websocket token inbound).
Proof.
  assert (Hopen : forall uid,
            keeps entries_kept
              (accept websocket;;; register uid websocket;;;
               except_disconnect
                 (replay isoformat websocket uid;;; receive_loop uid inbound)
                 (deregister uid websocket))).
  { intros uid. keeps_tac; try typeclasses eauto.
    - unfold accept. keeps_tac. apply entries_kept_same. reflexivity.
    - apply entries_kept_register.
    - apply (registry_session entries_kept entries_kept_same entries_kept_deregister). }
  assert (Hclose : forall reason, keeps entries_kept (close websocket 1008 reason)).
  { intros reason. unfold close. keeps_tac. apply entries_kept_same. reflexivity. }
  unfold websocket_endpoint. destruct (falsy_str token).
  { keeps_tac; try typeclasses eauto. apply Hclose. }
  destruct (verify_token jwt_decode (default "" token)) as [[| |]|];
    try apply Hopen; keeps_tac; try typeclasses eauto; apply Hclose.
Qed.

(** X3.  A run without the consumer (so without [broadcast_to_user]) never
    leaves a user with an empty list in [active_connections]: the socket
    handler creates an entry with its socket in it and deletes the entry
    with the last socket.  The pruning of the broadcast is the only place
    that can leave [user_id: []]. *)
Theorem only_a_broadcast_leaves_an_empty_list
    (jwt_decode : string -> option dict) (isoformat : Z -> string)
    (trace : list action) (w : World) :
  Forall (fun a => ~ is_consume a) trace ->
  no_empty_entry (active_connections w) ->
  no_empty_entry (active_connections (perform_all jwt_decode isoformat trace w)).
Proof.
  revert w. induction trace as [|a rest IH]; intros w Hnc Hne; simpl; [exact Hne|].
  inversion Hnc as [|? ? Ha Hrest]; subst. apply IH; [exact Hrest|].
  destruct a; simpl.
  - exfalso. apply Ha. exact I.
  - apply entries_kept_connect, Hne.
  - apply (registry_resume entries_kept entries_kept_same entries_kept_deregister), Hne.
  - exact (registry_get_notifications entries_kept jwt_decode token limit w Hne).
  - exact (registry_mark_as_read entries_kept entries_kept_same jwt_decode
             notification_id token w Hne).
  - exact (registry_get_unread_count entries_kept jwt_decode token w Hne).
  - exact Hne.
Qed.

Lemma only_a_broadcast_leaves_an_empty_list_witness :
  Forall (fun a => ~ is_consume a) quiet_trace /\
  no_empty_entry (active_connections boot) /\
  no_empty_entry
    (active_connections (perform_all sample_decode sample_isoformat quiet_trace boot)).
Proof.
  assert (H1 : Forall (fun a => ~ is_consume a) quiet_trace)
    by (repeat constructor; intros []).
  assert (H2 : no_empty_entry (active_connections boot))
    by exact empty_registry_no_empty_entry.
  split; [exact H1|]. split; [exact H2|].
  exact (only_a_broadcast_leaves_an_empty_list sample_decode sample_isoformat
           quiet_trace boot H1 H2).
Defined.

(** ** The broadcast and the socket handler *)

Lemma deregister_outbox f u ws w :
  snd (deregister u ws (set_outbox f w)) = set_outbox f (snd (deregister u ws w)).
Proof.
  destruct (active_connections w !! u) as [l|] eqn:Hl.
  2:{ rewrite !deregister_no_entry by exact Hl. reflexivity. }
  destruct (decide (ws ∈ l)) as [Hin|Hin].
  2:{ rewrite (deregister_not_member u ws l w Hl Hin),
              (deregister_not_member u ws l (set_outbox f w) Hl Hin). reflexivity. }
  destruct (list_remove_present ws l Hin) as [l' Hr].
  rewrite (deregister_spec u ws l l' w Hl Hr),
          (deregister_spec u ws l l' (set_outbox f w) Hl Hr). reflexivity.
Qed.

Lemma others_run_outbox f handlers : forall w,
  others_run handlers (set_outbox f w) = set_outbox f (others_run handlers w).
Proof.
  induction handlers as [|[u ws] handlers IH]; intros w; simpl; [reflexivity|].
  unfold disconnect_clause. cbn [fst snd].
  rewrite deregister_outbox. apply IH.
Qed.

Lemma others_run_app handlers1 handlers2 w :
  others_run (handlers1 ++ handlers2) w = others_run handlers2 (others_run handlers1 w).
Proof. unfold others_run. apply foldl_app. Qed.

Lemma others_run_link handlers : forall w, link (others_run handlers w) = link w.
Proof.
  induction handlers as [|[u ws] handlers IH]; intros w; simpl; [reflexivity|].
  rewrite IH. unfold disconnect_clause. cbn [fst snd].
  destruct (active_connections w !! u) as [l|] eqn:Hl.
  2:{ rewrite deregister_no_entry by exact Hl. reflexivity. }
  destruct (decide (ws ∈ l)) as [Hin|Hin].
  2:{ rewrite (deregister_not_member u ws l w Hl Hin). reflexivity. }
  destruct (list_remove_present ws l Hin) as [l' Hr].
  rewrite (deregister_spec u ws l l' w Hl Hr). reflexivity.
Qed.

(** The disconnect clause of another user's socket leaves this user's list
    alone. *)
Lemma others_run_spared uid handlers : forall w,
  Forall (fun handler => fst handler <> uid) handlers ->
  active_connections (others_run handlers w) !! uid = active_connections w !! uid.
Proof.
  induction handlers as [|[u ws] handlers IH]; intros w Hsp; simpl; [reflexivity|].
  inversion Hsp as [|? ? Hu Hsp']; subst. simpl in Hu.
  rewrite IH by assumption. unfold disconnect_clause. cbn [fst snd].
  destruct (active_connections w !! u) as [l|] eqn:Hl.
  2:{ rewrite deregister_no_entry by exact Hl. reflexivity. }
  destruct (decide (ws ∈ l)) as [Hin|Hin].
  2:{ rewrite (deregister_not_member u ws l w Hl Hin). reflexivity. }
  destruct (list_remove_present ws l Hin) as [l' Hr].
  rewrite (deregister_spec u ws l l' w Hl Hr). simpl.
  destruct l' as [|x l']; simpl;
    [apply lookup_delete_ne | apply lookup_insert_ne]; assumption.
Qed.

Lemma push_all_spared notification uid rest : forall pre others disconnected w,
  spares uid others ->
  active_connections w !! uid = Some (pre ++ rest) ->
  push_all (length rest) uid notification others (length pre) disconnected w =
  (Ok (disconnected ++ filter (fun ws => ~ alive w ws) rest),
   set_outbox (fun o => o ++ pushed w notification rest)
     (others_run (concat (take (length rest) others)) w)).
Proof.
  induction rest as [|c rest IH]; intros pre others d w Hsp Hw; cbn [length push_all].
  - unfold ret, pushed. rewrite !filter_nil, app_nil_r. f_equal.
    apply world_eq; simpl; auto using app_nil_r.
  - rewrite Hw. cbn [mbind option_bind].
    rewrite lookup_app_r, Nat.sub_diag by reflexivity. cbn [lookup list_lookup].
    assert (Hhd : Forall (fun handler => fst handler <> uid) (hd [] others))
      by (destruct Hsp; [constructor | assumption]).
    assert (Htl : spares uid (tail others))
      by (destruct Hsp; [constructor | assumption]).
    assert (Htake : concat (take (S (length rest)) others)
                    = hd [] others ++ concat (take (length rest) (tail others)))
      by (destruct others; [destruct (length rest) | ]; reflexivity).
    set (sent := send_json c notification w).
    assert (Hsent : snd sent = set_outbox (fun o => o ++ pushed w notification [c]) w).
    { subst sent. unfold send_json, pushed.
      destruct (link w c) eqn:Hc; cbn [snd].
      - rewrite filter_cons_False by (unfold alive; congruence).
        apply world_eq; simpl; auto using app_nil_r.
      - rewrite filter_cons_True by exact Hc. reflexivity. }
    set (w2 := others_run (hd [] others) (snd sent)).
    assert (Hlink : link w2 = link w)
      by (subst w2; rewrite others_run_link, Hsent; reflexivity).
    assert (Hw2 : active_connections w2 !! uid = Some ((pre ++ [c]) ++ rest)).
    { subst w2. rewrite others_run_spared by assumption.
      rewrite Hsent, <- app_assoc. exact Hw. }
    replace (S (length pre)) with (length (pre ++ [c]))
      by (rewrite length_app; simpl; lia).
    rewrite (IH (pre ++ [c]) (tail others) _ w2 Htl Hw2).
    assert (Halive : forall ws, alive w2 ws <-> alive w ws)
      by (intros ws; unfold alive; rewrite Hlink; reflexivity).
    assert (Hdead : filter (fun ws => ~ alive w2 ws) rest
                    = filter (fun ws => ~ alive w ws) rest)
      by (apply list_filter_iff; intros ws; rewrite Halive; reflexivity).
    assert (Hpushed : pushed w2 notification rest = pushed w notification rest)
      by (unfold pushed; f_equal; apply list_filter_iff, Halive).
    rewrite Hdead, Hpushed. f_equal.
    + f_equal. subst sent. unfold send_json.
      destruct (link w c) eqn:Hc; cbn [fst].
      * rewrite filter_cons_True by (unfold alive; congruence).
        rewrite <- app_assoc. reflexivity.
      * rewrite filter_cons_False by (unfold alive; intros H; apply H; exact Hc).
        reflexivity.
    + subst w2. rewrite Hsent, Htake, others_run_app, !others_run_outbox.
      apply world_eq; simpl; try reflexivity.
      rewrite <- app_assoc. f_equal. unfold pushed.
      destruct (decide (alive w c)) as [Hc|Hc].
      * rewrite !filter_cons_True by exact Hc. reflexivity.
      * rewrite !filter_cons_False by exact Hc. reflexivity.
Qed.

Lemma deregister_registry_only u ws w :
  snd (deregister u ws w) =
  set_active_connections (fun _ => active_connections (snd (deregister u ws w))) w.
Proof.
  destruct (active_connections w !! u) as [l|] eqn:Hl.
  2:{ rewrite deregister_no_entry by exact Hl. destruct w; reflexivity. }
  destruct (decide (ws ∈ l)) as [Hin|Hin].
  2:{ rewrite (deregister_not_member u ws l w Hl Hin). destruct w; reflexivity. }
  destruct (list_remove_present ws l Hin) as [l' Hr].
  rewrite (deregister_spec u ws l l' w Hl Hr). reflexivity.
Qed.

Lemma others_run_registry_only handlers : forall w,
  others_run handlers w =
  set_active_connections (fun _ => active_connections (others_run handlers w)) w.
Proof.
  induction handlers as [|[u ws] handlers IH]; intros w; simpl.
  - destruct w; reflexivity.
  - rewrite IH at 1. unfold disconnect_clause at 2. cbn [fst snd].
    rewrite deregister_registry_only. reflexivity.
Qed.

(** X4.  A broadcast does not raise when no disconnect clause that runs
    during its sends belongs to a socket of the addressee.  It then sends
    the notification, in list order, to exactly the sockets of the user
    whose [send_json] succeeds; it replaces the user's list by those
    sockets, in their order, in the registry as the clauses of the other
    users left it; a user without an entry gets nothing and no entry; the
    table, the accepted and closed sockets and the links are untouched. *)
Theorem broadcast_reaches_live_sockets_only
    (others : schedule) (uid : Z) (notification : dict) (w : World) :
  spares uid others ->
  exists w',
    broadcast_to_user others uid notification w = (Ok tt, w') /\
    outbox w' =
      outbox w ++ ((fun ws => (ws, notification)) <$>
                   filter (alive w) (default [] (active_connections w !! uid))) /\
    active_connections w' =
      match active_connections w !! uid with
      | Some conns =>
          <[uid := filter (alive w) conns]>
            (active_connections (others_run (concat (take (length conns) others)) w))
      | None => active_connections w
      end /\
    notifications w' = notifications w /\ next_id w' = next_id w /\
    accepted w' = accepted w /\ closed w' = closed w /\ link w' = link w.
Proof.
  intros Hsp. unfold broadcast_to_user, bind, get.
  destruct (active_connections w !! uid) as [conns|] eqn:Hu.
  2:{ exists w. simpl. rewrite app_nil_r. repeat split. }
  change 0%nat with (length (@nil WebSocket)).
  rewrite (push_all_spared notification uid conns [] others [] w Hsp Hu).
  rewrite app_nil_l.
  set (others_ran := others_run (concat (take (length conns) others)) w).
  set (w1 := set_outbox (fun o => o ++ pushed w notification conns) others_ran).
  assert (Hw1 : active_connections w1 !! uid = Some ([] ++ conns)).
  { subst w1 others_ran. simpl. rewrite others_run_spared; [exact Hu|].
    apply Forall_concat, Forall_take, Hsp. }
  rewrite (remove_loop_spec uid (alive w) conns [] w1 Hw1) by constructor.
  eexists. split; [reflexivity|].
  subst w1 others_ran. rewrite others_run_registry_only. simpl. repeat split.
Qed.

Lemma broadcast_reaches_live_sockets_only_witness :
  spares 42 [[(7, 5%nat)]] /\
  exists w',
    broadcast_to_user [[(7, 5%nat)]] 42 sample_event one_listener = (Ok tt, w') /\
    outbox w' =
      outbox one_listener ++
      ((fun ws => (ws, sample_event)) <$>
       filter (alive one_listener)
              (default [] (active_connections one_listener !! 42))) /\
    active_connections w' =
      match active_connections one_listener !! 42 with
      | Some conns =>
          <[42 := filter (alive one_listener) conns]>
            (active_connections
               (others_run (concat (take (length conns) [[(7, 5%nat)]])) one_listener))
      | None => active_connections one_listener
      end /\
    notifications w' = notifications one_listener /\
    next_id w' = next_id one_listener /\
    accepted w' = accepted one_listener /\ closed w' = closed one_listener /\
    link w' = link one_listener.
Proof.
  assert (H : spares 42 [[(7, 5%nat)]]) by (repeat constructor; simpl; lia).
  split; [exact H|].
  exact (broadcast_reaches_live_sockets_only [[(7, 5%nat)]] 42 sample_event
           one_listener H).
Defined.

Lemma filter_twice {A} (P : A -> Prop) `{!forall x, Decision (P x)} (l : list A) :
  filter P (filter P l) = filter P l.
Proof.
  induction l as [|x l IH]; [reflexivity|].
  rewrite (filter_cons P x l). destruct (decide (P x)) as [Hx|Hx]; [|exact IH].
  rewrite filter_cons_True by exact Hx. f_equal. exact IH.
Qed.

(** X5.  Pruning is complete after one broadcast: a second broadcast to the
    same user right after the first leaves the registry as the first left
    it (neither broadcast is interrupted by a disconnect). *)
Theorem second_broadcast_prunes_nothing
    (uid : Z) (first second : dict) (w : World) :
  active_connections
    (snd (broadcast_to_user [] uid second (snd (broadcast_to_user [] uid first w)))) =
  active_connections (snd (broadcast_to_user [] uid first w)).
Proof.
  rewrite !broadcast_spec. cbn [snd].
  destruct (active_connections w !! uid) as [conns|] eqn:Hu.
  - assert (H1 : after_broadcast uid first w =
                 set_active_connections (insert uid (filter (alive w) conns))
                   (set_outbox (fun o => o ++ pushed w first conns) w))
      by (unfold after_broadcast; rewrite Hu; reflexivity).
    rewrite H1. unfold after_broadcast. simpl. rewrite lookup_insert_eq. simpl.
    rewrite insert_insert_eq. f_equal.
    apply (filter_twice (alive w)).
  - assert (H1 : after_broadcast uid first w = w)
      by (unfold after_broadcast; rewrite Hu; reflexivity).
    rewrite H1. unfold after_broadcast. rewrite Hu. reflexivity.
Qed.

(** The disconnect clauses only take sockets out: no list gets longer. *)
Lemma deregister_shortens u ws uid w :
  (length (default [] (active_connections (snd (deregister u ws w)) !! uid))
   <= length (default [] (active_connections w !! uid)))%nat.
Proof.
  destruct (active_connections w !! u) as [l|] eqn:Hl.
  2:{ rewrite (deregister_no_entry _ _ _ Hl). reflexivity. }
  destruct (decide (ws ∈ l)) as [Hin|Hin].
  2:{ rewrite (deregister_not_member _ _ _ _ Hl Hin). reflexivity. }
  destruct (list_remove_present ws l Hin) as [l' Hr].
  rewrite (deregister_spec _ _ _ _ _ Hl Hr). cbn [snd].
  pose proof (sublist_length _ _ (list_remove_sublist _ _ _ Hr)) as Hlen.
  destruct (decide (u = uid)) as [->|Hne].
  - rewrite Hl. destruct l' as [|x l']; simpl.
    + rewrite lookup_delete_eq. simpl. lia.
    + rewrite lookup_insert_eq. simpl in *. lia.
  - destruct l' as [|x l']; simpl.
    + rewrite lookup_delete_ne by assumption. reflexivity.
    + rewrite lookup_insert_ne by assumption. reflexivity.
Qed.

Lemma others_run_shortens handlers uid : forall w,
  (length (default [] (active_connections (others_run handlers w) !! uid))
   <= length (default [] (active_connections w !! uid)))%nat.
Proof.
  induction handlers as [|[u ws] handlers IH]; intros w; simpl; [reflexivity|].
  etransitivity; [apply IH|]. apply deregister_shortens.
Qed.

(** The bound on the rounds never cuts the walk short: once it covers what
    is left of the list, more rounds change nothing. *)
Lemma push_all_rounds extra uid notification rounds : forall meanwhile i disconnected w,
  (length (default [] (active_connections w !! uid)) <= i + rounds)%nat ->
  push_all (rounds + extra) uid notification meanwhile i disconnected w =
  push_all rounds uid notification meanwhile i disconnected w.
Proof.
  induction rounds as [|rounds IH]; intros others i d w Hlen.
  - destruct extra as [|extra]; [reflexivity|]. cbn [Nat.add push_all].
    destruct (active_connections w !! uid) as [l|]; [|reflexivity].
    cbn [mbind option_bind]. simpl in Hlen.
    rewrite lookup_ge_None_2 by lia. reflexivity.
  - cbn [Nat.add push_all].
    destruct (active_connections w !! uid ≫= (fun conns => conns !! i)) as [c|];
      [|reflexivity].
    apply IH.
    etransitivity; [apply others_run_shortens|].
    unfold send_json. destruct (link w c); simpl; lia.
Qed.

(** What a disconnect during the first send does to the broadcast, when that
    send fails: the walk goes on at position 1 of the shortened list, so
    the socket that moved to position 0 is passed over, and the pruning
    looks for the socket that is no longer there. *)
Lemma broadcast_interrupted uid ws rest notification e w :
  active_connections w !! uid = Some (ws :: rest) -> NoDup (ws :: rest) ->
  link w ws = Some e ->
  broadcast_to_user [[(uid, ws)]] uid notification w =
  (Raise (match rest with [] => KeyError (JInt uid) | _ :: _ => ValueError end),
   set_outbox (fun o => o ++ pushed w notification (drop 1 rest))
     (set_active_connections (without uid rest) w)).
Proof.
  intros Hl Hnd He.
  apply NoDup_cons in Hnd as [Hws _].
  assert (Hrm : Py.list_remove ws (ws :: rest) = Some rest)
    by (simpl; destruct (decide (ws = ws)); congruence).
  unfold broadcast_to_user, bind, get. rewrite Hl.
  cbn [length push_all]. rewrite Hl. cbn [mbind option_bind lookup list_lookup].
  unfold send_json at 1 2. rewrite He. cbn [fst snd hd tail others_run foldl].
  unfold disconnect_clause. cbn [fst snd].
  rewrite (deregister_spec _ _ _ _ _ Hl Hrm). cbn [snd app].
  set (w1 := set_active_connections (without uid rest) w).
  destruct rest as [|a rest].
  - cbn [length push_all]. unfold ret. cbn [for_each].
    assert (Hnone : active_connections w1 !! uid = None)
      by (subst w1; simpl; apply lookup_delete_eq).
    unfold remove_connection.
    rewrite (bind_raise _ _ _ _ _
               (bind_raise _ _ _ _ _ (connections_of_raise _ _ Hnone))).
    f_equal. apply world_eq; simpl; try reflexivity.
    unfold pushed. simpl. rewrite app_nil_r. reflexivity.
  - assert (Hl1 : active_connections w1 !! uid = Some ([a] ++ rest))
      by (subst w1; simpl; apply lookup_insert_eq).
    change (length (a :: rest)) with (S (length rest)).
    replace (S (length rest)) with (length rest + 1)%nat by lia.
    rewrite push_all_rounds by (rewrite Hl1; simpl; lia).
    change 1%nat with (length [a]) at 1.
    rewrite (push_all_spec notification uid rest [a] [ws] w1 Hl1).
    cbn [app for_each].
    assert (Hrm1 : remove_connection uid ws
                     (set_outbox (fun o => o ++ pushed w1 notification rest) w1)
                   = (Raise ValueError,
                      set_outbox (fun o => o ++ pushed w1 notification rest) w1)).
    { unfold remove_connection.
      rewrite (bind_ok _ _ _ (a :: rest)
                 (set_outbox (fun o => o ++ pushed w1 notification rest) w1))
        by (apply connections_of_ok; exact Hl1).
      rewrite (list_remove_absent ws (a :: rest) Hws). reflexivity. }
    rewrite (bind_raise _ _ _ _ _ Hrm1). reflexivity.
Qed.

(** X23.  A disconnect handled while the broadcast waits in a failing send
    stops the consumer.  The event is well-formed and its user's list
    starts with a socket whose send fails; during that send the socket's
    handler runs its disconnect clause.  Then the row is stored, the
    socket that moved to the front of the list is passed over, the pruning
    raises ([KeyError] when the list became empty and the entry was
    deleted, [ValueError] otherwise) and the exception ends the consumer
    through [consumer.stop()]. *)
Theorem disconnect_during_send_stops_consumer
    (ev : dict) (u : Z) (ty ti me : string) (tk : option Z) (now : Z)
    (ws : WebSocket) (rest : list WebSocket) (e : exn) (w : World) :
  carries ev u ty ti me tk ->
  active_connections w !! u = Some (ws :: rest) -> NoDup (ws :: rest) ->
  link w ws = Some e ->
  exists w',
    consume_notifications [mkMsgWith ev now [[(u, ws)]]] w =
    (Raise (match rest with [] => KeyError (JInt u) | _ :: _ => ValueError end), w') /\
    consumer_stopped w' = true /\
    notifications w' = notifications w ++ [mkRow (next_id w) u ty ti me tk now false] /\
    active_connections w' = without u rest (active_connections w) /\
    outbox w' = outbox w ++ ((fun s => (s, ev)) <$> filter (alive w) (drop 1 rest)).
Proof.
  intros Hc Hl Hnd He.
  set (w1 := inserted u ty ti me tk now (printed ev w)).
  assert (Hh : handle_message (mkMsgWith ev now [[(u, ws)]]) w =
               (Raise (match rest with [] => KeyError (JInt u) | _ :: _ => ValueError end),
                set_outbox (fun o => o ++ pushed w1 ev (drop 1 rest))
                  (set_active_connections (without u rest) w1))).
  { rewrite (handle_message_carries (mkMsgWith ev now [[(u, ws)]]) u ty ti me tk w Hc).
    apply (broadcast_interrupted u ws rest ev e w1); assumption. }
  eexists. split.
  - unfold consume_notifications. cbn [for_each].
    rewrite (bind_raise _ _ _ _ _ Hh). reflexivity.
  - repeat split.
Qed.

Lemma disconnect_during_send_stops_consumer_witness :
  carries sample_event 42 "task_assigned" "New Task Assigned"
          "You have been assigned to task: X" (Some 9) /\
  active_connections (cut_links one_listener) !! 42 = Some [0%nat] /\
  NoDup [0%nat] /\
  link (cut_links one_listener) 0%nat = Some TransportError /\
  exists w',
    consume_notifications [mkMsgWith sample_event 11 [[(42, 0%nat)]]]
      (cut_links one_listener) =
    (Raise (KeyError (JInt 42)), w') /\
    consumer_stopped w' = true /\
    notifications w' =
      notifications (cut_links one_listener) ++
      [mkRow (next_id (cut_links one_listener)) 42 "task_assigned" "New Task Assigned"
             "You have been assigned to task: X" (Some 9) 11 false] /\
    active_connections w' = without 42 [] (active_connections (cut_links one_listener)) /\
    outbox w' =
      outbox (cut_links one_listener) ++
      ((fun s => (s, sample_event)) <$> filter (alive (cut_links one_listener)) (drop 1 [])).
Proof.
  assert (H1 : active_connections (cut_links one_listener) !! 42 = Some [0%nat])
    by reflexivity.
  assert (H2 : NoDup [0%nat]) by apply NoDup_singleton.
  assert (H3 : link (cut_links one_listener) 0%nat = Some TransportError) by reflexivity.
  split; [exact sample_event_carries|]. split; [exact H1|]. split; [exact H2|].
  split; [exact H3|].
  exact (disconnect_during_send_stops_consumer sample_event 42 "task_assigned"
           "New Task Assigned" "You have been assigned to task: X" (Some 9) 11
           0%nat [] TransportError (cut_links one_listener)
           sample_event_carries H1 H2 H3).
Defined.

(** X6.  A handshake without a token, with an empty token, or with a token
    that [verify_token] refuses is closed with code 1008 and the reason
    [Token required] (missing or empty) or [Invalid token]; the handler
    returns without accepting the socket, registering it, reading the store
    or a frame, or sending anything. *)
Theorem handshake_rejected
    (jwt_decode : string -> option dict) (isoformat : Z -> string)
    (websocket : WebSocket) (token : option string) (inbound : list frame) (w : World) :
  falsy_str token = true \/ verify_token jwt_decode (default "" token) = None ->
  websocket_endpoint jwt_decode isoformat websocket token inbound w =
  (Ok Returned,
   set_closed
     (fun c => c ++ [(websocket, 1008,
                      if falsy_str token then "Token required" else "Invalid token")])
     w).
Proof.
  intros H. unfold websocket_endpoint.
  destruct (falsy_str token); [reflexivity|].
  destruct H as [H|H]; [discriminate|]. rewrite H. reflexivity.
Qed.

Lemma handshake_rejected_witness :
  (falsy_str (Some "forged") = true \/
   verify_token sample_decode (default "" (Some "forged")) = None) /\
  websocket_endpoint sample_decode sample_isoformat 0%nat (Some "forged")
    [Text "read:1"] one_unread =
  (Ok Returned,
   set_closed
     (fun c => c ++ [(0%nat, 1008,
                      if falsy_str (Some "forged") then "Token required"
                      else "Invalid token")])
     one_unread).
Proof.
  assert (H : falsy_str (Some "forged") = true \/
              verify_token sample_decode (default "" (Some "forged")) = None)
    by (right; reflexivity).
  split; [exact H|].
  exact (handshake_rejected sample_decode sample_isoformat 0%nat (Some "forged")
           [Text "read:1"] one_unread H).
Defined.

Lemma replay_frames (f : Row -> dict) websocket rows : forall w,
  link w websocket = None ->
  for_each (fun notif => send_json websocket (f notif)) rows w =
  (Ok tt, set_outbox (fun o => o ++ ((fun r => (websocket, f r)) <$> rows)) w).
Proof.
  induction rows as [|r rows IH]; intros w Hl; simpl.
  - unfold ret. f_equal. apply world_eq; simpl; try reflexivity.
    rewrite app_nil_r. reflexivity.
  - unfold bind, send_json. rewrite Hl. rewrite IH by exact Hl.
    f_equal. apply world_eq; simpl; auto. rewrite <- app_assoc. reflexivity.
Qed.

Lemma fetch_unread_ok uid w :
  fetch_unread uid w =
  (Ok (take 20 (order_by_created_at_desc (filter (unread_of uid) (notifications w)))), w).
Proof. reflexivity. Qed.

Lemma replay_ok isoformat websocket uid w :
  link w websocket = None ->
  replay isoformat websocket uid w =
  (Ok tt,
   set_outbox
     (fun o => o ++ ((fun r => (websocket, notif_json isoformat r)) <$>
                     take 20 (order_by_created_at_desc
                                (filter (unread_of uid) (notifications w))))) w).
Proof.
  intros Hl. unfold replay. rewrite (bind_ok _ _ _ _ _ (fetch_unread_ok uid w)).
  apply (replay_frames (notif_json isoformat)), Hl.
Qed.

Lemma accepted_session jwt_decode isoformat websocket token uid inbound w :
  falsy_str token = false ->
  verify_token jwt_decode (default "" token) = Some uid -> uid <> 0 ->
  websocket_endpoint jwt_decode isoformat websocket token inbound w =
  except_disconnect
    (replay isoformat websocket uid;;; receive_loop uid inbound)
    (deregister uid websocket)
    (set_active_connections
       (insert uid (default [] (active_connections w !! uid) ++ [websocket]))
       (set_accepted (fun a => a ++ [websocket]) w)).
Proof.
  intros Hf Hv Hz. unfold websocket_endpoint. rewrite Hf, Hv.
  destruct uid as [|p|p]; [congruence | |];
    (rewrite (bind_ok (accept websocket) _ w tt
                (set_accepted (fun a => a ++ [websocket]) w)) by reflexivity;
     rewrite (bind_ok _ _ _ _ _ (register_spec _ _ _)); reflexivity).
Qed.

(** X7.  A handshake with a valid token on a live socket accepts the socket,
    appends it to the user's list (creating the list if there is none) and
    sends the user's unread notifications, newest first and at most twenty,
    as stored records; nothing is closed, the table is not changed, and the
    handler then waits for a frame. *)
Theorem connect_replays_unread_newest_first
    (jwt_decode : string -> option dict) (isoformat : Z -> string)
    (websocket : WebSocket) (token : option string) (uid : Z) (w : World) :
  falsy_str token = false ->
  verify_token jwt_decode (default "" token) = Some uid -> uid <> 0 ->
  link w websocket = None ->
  exists sorted w',
    sorted ≡ₚ filter (unread_of uid) (notifications w) /\
    StronglySorted newest_first sorted /\
    websocket_endpoint jwt_decode isoformat websocket token [] w = (Ok Receiving, w') /\
    outbox w' =
      outbox w ++ ((fun r => (websocket, notif_json isoformat r)) <$> take 20 sorted) /\
    active_connections w' =
      <[uid := default [] (active_connections w !! uid) ++ [websocket]]>
        (active_connections w) /\
    accepted w' = accepted w ++ [websocket] /\
    closed w' = closed w /\ notifications w' = notifications w.
Proof.
  intros Hf Hv Hz Hl.
  set (sorted := order_by_created_at_desc (filter (unread_of uid) (notifications w))).
  exists sorted. eexists. split; [apply merge_sort_Permutation|].
  split; [apply StronglySorted_merge_sort; typeclasses eauto|].
  split.
  - rewrite (accepted_session _ _ _ _ _ _ _ Hf Hv Hz).
    unfold except_disconnect.
    match goal with
    | |- context [bind _ _ ?w1] =>
        rewrite (bind_ok _ _ _ _ _ (replay_ok isoformat websocket uid w1 Hl))
    end.
    reflexivity.
  - simpl. repeat split.
Qed.

Lemma connect_replays_unread_newest_first_witness :
  falsy_str (Some "token-42") = false /\
  verify_token sample_decode (default "" (Some "token-42")) = Some 42 /\ 42 <> 0 /\
  link three_unread 0%nat = None /\
  exists sorted w',
    sorted ≡ₚ filter (unread_of 42) (notifications three_unread) /\
    StronglySorted newest_first sorted /\
    websocket_endpoint sample_decode sample_isoformat 0%nat (Some "token-42") []
      three_unread = (Ok Receiving, w') /\
    outbox w' =
      outbox three_unread ++
      ((fun r => (0%nat, notif_json sample_isoformat r)) <$> take 20 sorted) /\
    active_connections w' =
      <[42 := default [] (active_connections three_unread !! 42) ++ [0%nat]]>
        (active_connections three_unread) /\
    accepted w' = accepted three_unread ++ [0%nat] /\
    closed w' = closed three_unread /\ notifications w' = notifications three_unread.
Proof.
  assert (H1 : falsy_str (Some "token-42") = false) by reflexivity.
  assert (H2 : verify_token sample_decode (default "" (Some "token-42")) = Some 42)
    by reflexivity.
  assert (H3 : 42 <> 0) by lia.
  assert (H4 : link three_unread 0%nat = None) by reflexivity.
  split; [exact H1|]. split; [exact H2|]. split; [exact H3|]. split; [exact H4|].
  exact (connect_replays_unread_newest_first sample_decode sample_isoformat 0%nat
           (Some "token-42") 42 three_unread H1 H2 H3 H4).
Defined.

Lemma receive_loop_status uid inbound : forall w s w',
  receive_loop uid inbound w = (Ok s, w') -> s = Receiving.
Proof.
  induction inbound as [|[data|e] rest IH]; intros w s w'; cbn [receive_loop].
  - unfold ret. congruence.
  - unfold bind. destruct (on_text uid data w) as [[[]|e] w1]; [apply IH | discriminate].
  - unfold raise. discriminate.
Qed.

Lemma session_body_keeps_registry isoformat websocket uid inbound :
  keeps same_registry (replay isoformat websocket uid;;; receive_loop uid inbound).
Proof.
  keeps_tac; try typeclasses eauto.
  - apply (registry_replay same_registry); [typeclasses eauto .. | auto].
  - apply (registry_receive_loop same_registry); [typeclasses eauto .. | auto].
Qed.

(** X8.  When the socket handler returns for an authenticated user (its
    receive raised [WebSocketDisconnect]), the registry is what it was
    before the connection: the socket is gone from the user's list and a
    list that the connection created is deleted again.  This needs the
    socket not to have been in the user's list and the user not to have
    had an empty list before. *)
Theorem returned_session_restores_registry
    (jwt_decode : string -> option dict) (isoformat : Z -> string)
    (websocket : WebSocket) (token : option string) (uid : Z)
    (inbound : list frame) (w : World) :
  falsy_str token = false ->
  verify_token jwt_decode (default "" token) = Some uid -> uid <> 0 ->
  websocket ∉ default [] (active_connections w !! uid) ->
  active_connections w !! uid <> Some [] ->
  fst (websocket_endpoint jwt_decode isoformat websocket token inbound w) = Ok Returned ->
  active_connections
    (snd (websocket_endpoint jwt_decode isoformat websocket token inbound w))
  = active_connections w.
Proof.
  intros Hf Hv Hz Hfresh Hne.
  rewrite (accepted_session _ _ _ _ _ _ _ Hf Hv Hz).
  set (old := default [] (active_connections w !! uid)) in *.
  set (w1 := set_active_connections (insert uid (old ++ [websocket]))
               (set_accepted (fun a => a ++ [websocket]) w)).
  pose proof (session_body_keeps_registry isoformat websocket uid inbound w1) as Hreg.
  unfold except_disconnect.
  destruct ((replay isoformat websocket uid;;; receive_loop uid inbound) w1)
    as [[s|e] w2] eqn:Hbody; simpl in Hreg.
  - simpl. intros [= ->]. exfalso.
    unfold bind in Hbody.
    destruct (replay isoformat websocket uid w1) as [[[]|e] w1']; [|discriminate].
    apply receive_loop_status in Hbody. discriminate.
  - destruct e; simpl; try discriminate.
    intros Hret.
    assert (Hl2 : active_connections w2 !! uid = Some (old ++ [websocket])).
    { unfold same_registry in Hreg. rewrite Hreg. simpl. apply lookup_insert_eq. }
    assert (Hrm : Py.list_remove websocket (old ++ [websocket]) = Some old).
    { rewrite (list_remove_app_notin websocket old []) by exact Hfresh.
      rewrite app_nil_r. reflexivity. }
    rewrite (bind_ok _ _ _ _ _ (deregister_spec _ _ _ _ _ Hl2 Hrm)). simpl.
    unfold same_registry in Hreg. rewrite Hreg. simpl.
    subst old. destruct (active_connections w !! uid) as [l|] eqn:Hl; simpl.
    + destruct l as [|x l]; [congruence|]. simpl.
      rewrite insert_insert_eq. apply insert_id, Hl.
    + rewrite delete_insert_eq. apply delete_id, Hl.
Qed.

Lemma returned_session_restores_registry_witness :
  falsy_str (Some "token-42") = false /\
  verify_token sample_decode (default "" (Some "token-42")) = Some 42 /\ 42 <> 0 /\
  (1%nat ∉ default [] (active_connections one_listener !! 42)) /\
  active_connections one_listener !! 42 <> Some [] /\
  fst (websocket_endpoint sample_decode sample_isoformat 1%nat (Some "token-42")
         [Text "ping"; Fails WebSocketDisconnect] one_listener) = Ok Returned /\
  active_connections
    (snd (websocket_endpoint sample_decode sample_isoformat 1%nat (Some "token-42")
            [Text "ping"; Fails WebSocketDisconnect] one_listener))
  = active_connections one_listener.
Proof.
  assert (H1 : falsy_str (Some "token-42") = false) by reflexivity.
  assert (H2 : verify_token sample_decode (default "" (Some "token-42")) = Some 42)
    by reflexivity.
  assert (H3 : 42 <> 0) by lia.
  assert (H4 : 1%nat ∉ default [] (active_connections one_listener !! 42)).
  { change (default [] (active_connections one_listener !! 42)) with [0%nat].
    intros H. apply list_elem_of_singleton in H. discriminate. }
  assert (H5 : active_connections one_listener !! 42 <> Some [])
    by (vm_compute; discriminate).
  assert (H6 : fst (websocket_endpoint sample_decode sample_isoformat 1%nat
                      (Some "token-42") [Text "ping"; Fails WebSocketDisconnect]
                      one_listener) = Ok Returned) by (vm_compute; reflexivity).
  split; [exact H1|]. split; [exact H2|]. split; [exact H3|]. split; [exact H4|].
  split; [exact H5|]. split; [exact H6|].
  exact (returned_session_restores_registry sample_decode sample_isoformat 1%nat
           (Some "token-42") 42 [Text "ping"; Fails WebSocketDisconnect] one_listener
           H1 H2 H3 H4 H5 H6).
Defined.

(** X10.  The three outcomes of a text frame.  A frame that does not start
    with [read:] changes nothing.  Otherwise the text between the first
    colon and the next one (or the end) is given to [int]: if it parses,
    the frame does what the UPDATE for that id and this user does, whatever
    follows a second colon; if it does not, [ValueError] is raised and
    nothing has changed. *)
Theorem text_frame_outcomes (uid : Z) (data : string) (w : World) :
  (Py.startswith "read:" data = false /\ on_text uid data w = (Ok tt, w)) \/
  (exists seg,
      Py.startswith "read:" data = true /\
      Py.split ":" data !! 1%nat = Some seg /\
      ((exists notif_id,
           Py.int_of_str seg = Some notif_id /\
           on_text uid data w = execute_mark_read notif_id uid w) \/
       (Py.int_of_str seg = None /\ on_text uid data w = (Raise ValueError, w)))).
Proof.
  destruct (Py.startswith "read:" data) eqn:Hp.
  - right. destruct (on_text_prefixed uid data w Hp) as (seg & Hseg & Hon).
    exists seg. split; [reflexivity|]. split; [exact Hseg|].
    destruct (Py.int_of_str seg) as [n|]; [left; eauto | right; auto].
  - left. split; [reflexivity|]. unfold on_text. rewrite Hp. reflexivity.
Qed.

Lemma split_numeral_then s rest :
  all_chars numeral_char s = true ->
  Py.split ":" (s +:+ ":" +:+ rest) = s :: Py.split ":" rest.
Proof.
  induction s as [|c s IH]; [reflexivity|]. cbn [all_chars].
  intros [Hc Hs]%andb_true_iff.
  change (String c s +:+ ":" +:+ rest) with (String c (s +:+ ":" +:+ rest)).
  cbn [Py.split]. rewrite (numeral_char_not_colon c Hc), (IH Hs). reflexivity.
Qed.

(** X22.  Only the text between the first and the second colon of an
    acknowledgement counts: the frame [read:<id>:<anything>] runs the same
    UPDATE as [read:<id>], for every integer id written in decimal. *)
Theorem ack_ignores_trailing_segments (uid n : Z) (junk : string) (w : World) :
  on_text uid ("read:" +:+ Py.str n +:+ ":" +:+ junk) w = execute_mark_read n uid w /\
  on_text uid ("read:" +:+ Py.str n) w = execute_mark_read n uid w.
Proof.
  split.
  - assert (Hp : Py.startswith "read:" ("read:" +:+ Py.str n +:+ ":" +:+ junk) = true)
      by reflexivity.
    destruct (on_text_prefixed uid _ w Hp) as (seg & Hseg & ->).
    rewrite split_prefixed, (split_numeral_then _ junk (str_numeral n)) in Hseg.
    injection Hseg as <-. rewrite int_of_str_str. reflexivity.
  - destruct (ack_segment n) as [Hp Hs].
    destruct (on_text_prefixed uid _ w Hp) as (seg & Hseg & ->).
    rewrite Hs in Hseg. injection Hseg as <-. rewrite int_of_str_str. reflexivity.
Qed.

(** ** Counting, listing and acknowledging *)

Lemma get_unread_count_ok jwt_decode token uid w :
  verify_token jwt_decode token = Some uid -> uid <> 0 ->
  get_unread_count jwt_decode token w = (Ok {[ "count" := JInt (unread_count uid w) ]}, w).
Proof.
  intros Hv Hz. unfold get_unread_count, get_db.
  rewrite (bind_ok _ _ _ _ _ (require_user_ok jwt_decode _ _ w Hv Hz)). reflexivity.
Qed.

Lemma mark_as_read_ok jwt_decode notification_id token uid w :
  verify_token jwt_decode token = Some uid -> uid <> 0 ->
  mark_as_read jwt_decode notification_id token w =
  (Ok {[ "success" := JBool true ]},
   set_notifications (fmap (mark_row notification_id uid)) w).
Proof.
  intros Hv Hz. unfold mark_as_read, get_db.
  rewrite (bind_ok _ _ _ _ _ (require_user_ok jwt_decode _ _ w Hv Hz)). reflexivity.
Qed.

Lemma mark_rows_no_match notif_id uid (l : list Row) :
  (forall x, x ∈ l -> id x <> notif_id) -> mark_row notif_id uid <$> l = l.
Proof.
  induction l as [|x l IH]; intros H; [reflexivity|].
  rewrite fmap_cons, IH by (intros y Hy; apply H; right; exact Hy).
  rewrite mark_row_other by (left; apply H; left). reflexivity.
Qed.

Lemma unread_after_mark notif_id uid (l : list Row) : forall i r,
  NoDup (id <$> l) -> l !! i = Some r ->
  id r = notif_id -> user_id r = uid -> read r = false ->
  length (filter (unread_of uid) l) =
  S (length (filter (unread_of uid) (mark_row notif_id uid <$> l))).
Proof.
  induction l as [|x l IH]; intros i r Hnd Hi H1 H2 H3; [discriminate|].
  rewrite fmap_cons in Hnd. apply NoDup_cons in Hnd as [Hx Hnd].
  destruct i as [|i]; simpl in Hi.
  - injection Hi as ->.
    rewrite fmap_cons, mark_row_match by assumption.
    rewrite mark_rows_no_match.
    2:{ intros y Hy Hid. apply Hx. rewrite H1, <- Hid.
        apply list_elem_of_fmap. eauto. }
    rewrite filter_cons_True by (split; assumption).
    rewrite filter_cons_False by (intros [_ Hr]; discriminate).
    reflexivity.
  - assert (Hxid : id x <> notif_id).
    { intros Hid. apply Hx. rewrite Hid, <- H1. apply list_elem_of_fmap.
      exists r. split; [reflexivity|]. eapply list_elem_of_lookup_2, Hi. }
    rewrite fmap_cons, mark_row_other by (left; exact Hxid).
    rewrite !filter_cons. destruct (decide (unread_of uid x)); simpl;
      rewrite (IH i r Hnd Hi H1 H2 H3); reflexivity.
Qed.

(** X12.  With pairwise different ids in the table, acknowledging an unread
    notification of one's own over HTTP lowers one's unread count by
    exactly one. *)
Theorem ack_lowers_unread_count_by_one
    (jwt_decode : string -> option dict) (token : string) (uid notification_id : Z)
    (w : World) (i : nat) (r : Row) :
  verify_token jwt_decode token = Some uid -> uid <> 0 ->
  NoDup (id <$> notifications w) ->
  notifications w !! i = Some r ->
  id r = notification_id -> user_id r = uid -> read r = false ->
  exists c,
    get_unread_count jwt_decode token w = (Ok {[ "count" := JInt (c + 1) ]}, w) /\
    get_unread_count jwt_decode token
      (snd (mark_as_read jwt_decode notification_id token w))
    = (Ok {[ "count" := JInt c ]},
       snd (mark_as_read jwt_decode notification_id token w)).
Proof.
  intros Hv Hz Hnd Hi H1 H2 H3.
  exists (unread_count uid (snd (mark_as_read jwt_decode notification_id token w))).
  rewrite !(get_unread_count_ok _ _ _ _ Hv Hz).
  rewrite (mark_as_read_ok _ _ _ _ _ Hv Hz). simpl. split; [|reflexivity].
  unfold unread_count. simpl.
  rewrite (unread_after_mark notification_id uid _ i r Hnd Hi H1 H2 H3).
  rewrite Nat2Z.inj_succ. unfold Z.succ. reflexivity.
Qed.

Lemma ack_lowers_unread_count_by_one_witness :
  verify_token sample_decode "token-42" = Some 42 /\ 42 <> 0 /\
  NoDup (id <$> notifications one_unread) /\
  notifications one_unread !! 0%nat = Some sample_row /\
  id sample_row = 1 /\ user_id sample_row = 42 /\ read sample_row = false /\
  exists c,
    get_unread_count sample_decode "token-42" one_unread
      = (Ok {[ "count" := JInt (c + 1) ]}, one_unread) /\
    get_unread_count sample_decode "token-42"
      (snd (mark_as_read sample_decode 1 "token-42" one_unread))
    = (Ok {[ "count" := JInt c ]},
       snd (mark_as_read sample_decode 1 "token-42" one_unread)).
Proof.
  assert (H1 : verify_token sample_decode "token-42" = Some 42) by reflexivity.
  assert (H2 : 42 <> 0) by lia.
  assert (H3 : NoDup (id <$> notifications one_unread))
    by (change (id <$> notifications one_unread) with [1]; apply NoDup_singleton).
  assert (H4 : notifications one_unread !! 0%nat = Some sample_row) by reflexivity.
  assert (H5 : id sample_row = 1) by reflexivity.
  assert (H6 : user_id sample_row = 42) by reflexivity.
  assert (H7 : read sample_row = false) by reflexivity.
  split; [exact H1|]. split; [exact H2|]. split; [exact H3|]. split; [exact H4|].
  split; [exact H5|]. split; [exact H6|]. split; [exact H7|].
  exact (ack_lowers_unread_count_by_one sample_decode "token-42" 42 1 one_unread
           0%nat sample_row H1 H2 H3 H4 H5 H6 H7).
Defined.

(** The row of a well-formed event is in the table once the event is
    handled, whatever the schedule of its broadcast and whether or not the
    broadcast raised. *)
Lemma handle_message_stores ev u ty ti me tk now others w :
  carries ev u ty ti me tk ->
  notifications (snd (handle_message (mkMsgWith ev now others) w))
  = notifications w ++ [mkRow (next_id w) u ty ti me tk now false].
Proof.
  intros Hc.
  rewrite (handle_message_carries (mkMsgWith ev now others) u ty ti me tk w Hc).
  cbn [value utcnow meanwhile].
  assert (Hkept : same_table (inserted u ty ti me tk now (printed ev w))
                    (snd (broadcast_to_user others u ev
                            (inserted u ty ti me tk now (printed ev w))))).
  { apply (keeps_broadcast same_table); intros; split; reflexivity. }
  destruct Hkept as [-> _]. reflexivity.
Qed.

(** X13.  After the consumer has handled a well-formed event, the unread
    count of the event's user is one higher and every other user's count is
    the same, whatever disconnects were handled during the broadcast and
    whether or not it raised. *)
Theorem stored_event_raises_unread_count
    (jwt_decode : string -> option dict) (token : string) (v : Z)
    (ev : dict) (u : Z) (ty ti me : string) (tk : option Z) (now : Z)
    (others : schedule) (w : World) :
  carries ev u ty ti me tk ->
  verify_token jwt_decode token = Some v -> v <> 0 ->
  exists c,
    get_unread_count jwt_decode token w = (Ok {[ "count" := JInt c ]}, w) /\
    get_unread_count jwt_decode token (snd (handle_message (mkMsgWith ev now others) w))
    = (Ok {[ "count" := JInt (if decide (v = u) then c + 1 else c) ]},
       snd (handle_message (mkMsgWith ev now others) w)).
Proof.
  intros Hc Hv Hz. exists (unread_count v w).
  rewrite !(get_unread_count_ok _ _ _ _ Hv Hz). split; [reflexivity|].
  pose proof (handle_message_stores ev u ty ti me tk now others w Hc) as Hrows.
  set (w' := snd (handle_message (mkMsgWith ev now others) w)) in *.
  assert (Hcount : unread_count v w'
           = if decide (v = u) then unread_count v w + 1 else unread_count v w);
    [|rewrite Hcount; reflexivity].
  unfold unread_count. rewrite Hrows, filter_app, length_app.
  destruct (decide (v = u)) as [->|Hne].
  - rewrite filter_cons_True by (split; reflexivity). simpl. lia.
  - rewrite filter_cons_False by (intros [H _]; simpl in H; congruence). simpl. lia.
Qed.

Lemma stored_event_raises_unread_count_witness :
  carries sample_event 42 "task_assigned" "New Task Assigned"
          "You have been assigned to task: X" (Some 9) /\
  verify_token sample_decode "token-42" = Some 42 /\ 42 <> 0 /\
  exists c,
    get_unread_count sample_decode "token-42" one_unread
      = (Ok {[ "count" := JInt c ]}, one_unread) /\
    get_unread_count sample_decode "token-42"
      (snd (handle_message (mkMsg sample_event 12) one_unread))
    = (Ok {[ "count" := JInt (if decide (42 = 42) then c + 1 else c) ]},
       snd (handle_message (mkMsg sample_event 12) one_unread)).
Proof.
  assert (H1 : verify_token sample_decode "token-42" = Some 42) by reflexivity.
  assert (H2 : 42 <> 0) by lia.
  split; [exact sample_event_carries|]. split; [exact H1|]. split; [exact H2|].
  exact (stored_event_raises_unread_count sample_decode "token-42" 42 sample_event 42
           "task_assigned" "New Task Assigned" "You have been assigned to task: X"
           (Some 9) 12 [] one_unread sample_event_carries H1 H2).
Defined.

Lemma newest_heads (sorted l : list Row) (r : Row) :
  sorted ≡ₚ l -> StronglySorted newest_first sorted -> r ∈ l ->
  (forall x, x ∈ l -> x <> r -> created_at x < created_at r) ->
  exists rest, sorted = r :: rest.
Proof.
  intros Hp Hs Hin Hmax.
  rewrite <- Hp in Hin. destruct sorted as [|a tl]; [inversion Hin|].
  exists tl. f_equal.
  destruct (decide (a = r)) as [|Hne]; [assumption|exfalso].
  apply elem_of_cons in Hin as [Heq|Hin]; [congruence|].
  apply StronglySorted_inv in Hs as [_ Hall].
  rewrite Forall_forall in Hall. specialize (Hall r Hin). unfold newest_first in Hall.
  assert (Ha : a ∈ l) by (rewrite <- Hp; left).
  specialize (Hmax a Ha Hne). lia.
Qed.

(** X14.  After the consumer has stored an event whose timestamp is later
    than all of the user's notifications, [get_notifications] with a limit
    of at least one returns the new record first, whatever disconnects
    were handled during the event's broadcast. *)
Theorem newest_event_heads_the_list
    (jwt_decode : string -> option dict) (token : string)
    (ev : dict) (u : Z) (ty ti me : string) (tk : option Z) (now : Z)
    (others : schedule) (limit : option Z) (w : World) :
  carries ev u ty ti me tk ->
  verify_token jwt_decode token = Some u -> u <> 0 ->
  (forall r, r ∈ notifications w -> user_id r = u -> created_at r < now) ->
  1 <= default 50 limit ->
  exists rest,
    get_notifications jwt_decode token limit
      (snd (handle_message (mkMsgWith ev now others) w))
    = (Ok (mkRow (next_id w) u ty ti me tk now false :: rest),
       snd (handle_message (mkMsgWith ev now others) w)).
Proof.
  intros Hc Hv Hz Hold Hl.
  pose proof (handle_message_stores ev u ty ti me tk now others w Hc) as Hrows.
  set (w' := snd (handle_message (mkMsgWith ev now others) w)) in *.
  set (new := mkRow (next_id w) u ty ti me tk now false) in *.
  set (mine := filter (owned_by u) (notifications w')).
  destruct (newest_heads (order_by_created_at_desc mine) mine new) as [rest Hrest].
  - apply merge_sort_Permutation.
  - apply StronglySorted_merge_sort; typeclasses eauto.
  - subst mine. rewrite Hrows. apply list_elem_of_filter. split; [reflexivity|].
    apply elem_of_app. right. left.
  - intros x Hx Hne. subst mine. rewrite Hrows in Hx.
    apply list_elem_of_filter in Hx as [Hu Hx].
    apply elem_of_app in Hx as [Hx|Hx].
    + apply (Hold x Hx Hu).
    + apply list_elem_of_singleton in Hx. contradiction.
  - exists (take (Z.to_nat (default 50 limit) - 1) rest).
    unfold get_notifications, get_db.
    rewrite (bind_ok _ _ _ _ _ (require_user_ok jwt_decode _ _ w' Hv Hz)).
    unfold fetch_for_user, bind, get.
    rewrite sql_limit_ok by lia. fold mine. rewrite Hrest.
    destruct (Z.to_nat (default 50 limit)) as [|n] eqn:Hn; [lia|].
    simpl. rewrite Nat.sub_0_r. reflexivity.
Qed.

Lemma newest_event_heads_the_list_witness :
  carries sample_event 42 "task_assigned" "New Task Assigned"
          "You have been assigned to task: X" (Some 9) /\
  verify_token sample_decode "token-42" = Some 42 /\ 42 <> 0 /\
  (forall r, r ∈ notifications three_unread -> user_id r = 42 -> created_at r < 20) /\
  1 <= default 50 (Some 2) /\
  exists rest,
    get_notifications sample_decode "token-42" (Some 2)
      (snd (handle_message (mkMsg sample_event 20) three_unread))
    = (Ok (mkRow (next_id three_unread) 42 "task_assigned" "New Task Assigned"
                 "You have been assigned to task: X" (Some 9) 20 false :: rest),
       snd (handle_message (mkMsg sample_event 20) three_unread)).
Proof.
  assert (H1 : verify_token sample_decode "token-42" = Some 42) by reflexivity.
  assert (H2 : 42 <> 0) by lia.
  assert (H3 : forall r, r ∈ notifications three_unread -> user_id r = 42 ->
                         created_at r < 20).
  { intros r Hr _.
    change (notifications three_unread) with
      [mkRow 1 42 "task_assigned" "New Task Assigned"
             "You have been assigned to task: X" (Some 9) 11 false;
       mkRow 2 42 "task_assigned" "New Task Assigned"
             "You have been assigned to task: X" (Some 9) 12 false;
       mkRow 3 42 "task_assigned" "New Task Assigned"
             "You have been assigned to task: X" (Some 9) 13 false] in Hr.
    repeat (apply elem_of_cons in Hr as [->|Hr]; [simpl; lia|]). inversion Hr. }
  assert (H4 : 1 <= default 50 (Some 2)) by (simpl; lia).
  split; [exact sample_event_carries|]. split; [exact H1|]. split; [exact H2|].
  split; [exact H3|]. split; [exact H4|].
  exact (newest_event_heads_the_list sample_decode "token-42" sample_event 42
           "task_assigned" "New Task Assigned" "You have been assigned to task: X"
           (Some 9) 20 [] (Some 2) three_unread sample_event_carries H1 H2 H3 H4).
Defined.

Lemma stream_stored (msgs : list Msg) : forall w,
  Forall (fun m => well_formed (value m)) msgs ->
  Forall uninterrupted msgs ->
  exists w' new,
    for_each handle_message msgs w = (Ok tt, w') /\
    consumer_stopped w' = consumer_stopped w /\
    notifications w' = notifications w ++ new /\
    next_id w' = next_id w + Z.of_nat (length msgs) /\
    Forall2 (fun m r =>
               carries (value m) (user_id r) (type_ r) (title r) (message r) (task_id r) /\
               created_at r = utcnow m /\ read r = false) msgs new /\
    id <$> new = (fun k => next_id w + Z.of_nat k) <$> seq 0 (length msgs).
Proof.
  induction msgs as [|[ev now others] msgs IH]; intros w Hwf Hq.
  - exists w, []. simpl. rewrite app_nil_r.
    repeat split; try constructor. lia.
  - inversion Hwf as [|? ? (u & ty & ti & me & tk & Hc) Hrest]; subst.
    inversion Hq as [|? ? Hev Hq']; subst. unfold uninterrupted in Hev.
    simpl in Hc, Hev. subst others.
    pose proof (handle_message_well_formed ev u ty ti me tk now w Hc) as Hh.
    set (w1 := after_broadcast u ev (inserted u ty ti me tk now (printed ev w))) in Hh.
    assert (Hrows : notifications w1
                    = notifications w ++ [mkRow (next_id w) u ty ti me tk now false]
                    /\ next_id w1 = next_id w + 1
                    /\ consumer_stopped w1 = consumer_stopped w).
    { subst w1. unfold after_broadcast. simpl.
      destruct (active_connections w !! u); repeat split. }
    destruct Hrows as (Hr1 & Hr2 & Hr3).
    destruct (IH w1 Hrest Hq') as (w' & new & Hcons & Hstop & Hnew & Hnext & Hall & Hids).
    exists w', (mkRow (next_id w) u ty ti me tk now false :: new).
    cbn [for_each]. rewrite (bind_ok _ _ _ _ _ Hh).
    split; [exact Hcons|]. split; [congruence|].
    split; [rewrite Hnew, Hr1, <- app_assoc; reflexivity|].
    split; [rewrite Hnext, Hr2; simpl length; lia|].
    split; [constructor; [repeat split; apply Hc | exact Hall]|].
    rewrite fmap_cons. cbn [length seq]. rewrite fmap_cons. f_equal.
    + simpl. lia.
    + rewrite Hids, Hr2. rewrite <- seq_shift, <- list_fmap_compose.
      apply list_fmap_ext. intros j k _. simpl. lia.
Qed.

(** X15.  A batch of well-formed events whose broadcasts no disconnect
    interrupts is consumed without an exception and the consumer keeps
    running: the table grows by one row per event, in the order of the
    events, each row with the fields of its event, the consumer's clock and
    [read = false], and with consecutive ids starting at the sequence's
    next value. *)
Theorem well_formed_stream_is_stored_in_order (msgs : list Msg) (w : World) :
  Forall (fun m => well_formed (value m)) msgs ->
  Forall uninterrupted msgs ->
  exists w' new,
    consume_notifications msgs w = (Ok tt, w') /\
    consumer_stopped w' = consumer_stopped w /\
    notifications w' = notifications w ++ new /\
    next_id w' = next_id w + Z.of_nat (length msgs) /\
    Forall2 (fun m r =>
               carries (value m) (user_id r) (type_ r) (title r) (message r) (task_id r) /\
               created_at r = utcnow m /\ read r = false) msgs new /\
    id <$> new = (fun k => next_id w + Z.of_nat k) <$> seq 0 (length msgs).
Proof.
  intros Hwf Hq.
  destruct (stream_stored msgs w Hwf Hq) as (w' & new & Hrun & Hrest).
  exists w', new. split; [|exact Hrest].
  unfold consume_notifications. rewrite Hrun. reflexivity.
Qed.

Lemma well_formed_stream_is_stored_in_order_witness :
  Forall (fun m => well_formed (value m)) [mkMsg sample_event 11; mkMsg sample_event 12] /\
  Forall uninterrupted [mkMsg sample_event 11; mkMsg sample_event 12] /\
  exists w' new,
    consume_notifications [mkMsg sample_event 11; mkMsg sample_event 12] boot
      = (Ok tt, w') /\
    consumer_stopped w' = consumer_stopped boot /\
    notifications w' = notifications boot ++ new /\
    next_id w' =
      next_id boot + Z.of_nat (length [mkMsg sample_event 11; mkMsg sample_event 12]) /\
    Forall2 (fun m r =>
               carries (value m) (user_id r) (type_ r) (title r) (message r) (task_id r) /\
               created_at r = utcnow m /\ read r = false)
            [mkMsg sample_event 11; mkMsg sample_event 12] new /\
    id <$> new =
      (fun k => next_id boot + Z.of_nat k) <$>
      seq 0 (length [mkMsg sample_event 11; mkMsg sample_event 12]).
Proof.
  assert (H : Forall (fun m => well_formed (value m))
                     [mkMsg sample_event 11; mkMsg sample_event 12])
    by (repeat constructor; exact sample_event_well_formed).
  assert (Hq : Forall uninterrupted [mkMsg sample_event 11; mkMsg sample_event 12])
    by (repeat constructor).
  split; [exact H|]. split; [exact Hq|].
  exact (well_formed_stream_is_stored_in_order
           [mkMsg sample_event 11; mkMsg sample_event 12] boot H Hq).
Defined.

(** X16.  With a token that [verify_token] refuses, each of the three HTTP
    handlers raises 401 [Invalid token] and leaves the table, the registry
    and the sockets as they were. *)
Theorem invalid_token_raises_401
    (jwt_decode : string -> option dict) (token : string) (limit : option Z)
    (notification_id : Z) (w : World) :
  verify_token jwt_decode token = None ->
  get_notifications jwt_decode token limit w
    = (Raise (HTTPException 401 "Invalid token"), w) /\
  mark_as_read jwt_decode notification_id token w
    = (Raise (HTTPException 401 "Invalid token"), w) /\
  get_unread_count jwt_decode token w
    = (Raise (HTTPException 401 "Invalid token"), w).
Proof.
  intros Hv.
  assert (Hr : require_user jwt_decode token w
               = (Raise (HTTPException 401 "Invalid token"), w))
    by (unfold require_user; rewrite Hv; reflexivity).
  repeat split;
    [unfold get_notifications | unfold mark_as_read | unfold get_unread_count];
    apply bind_raise, Hr.
Qed.

Lemma invalid_token_raises_401_witness :
  verify_token sample_decode "forged" = None /\
  get_notifications sample_decode "forged" (Some 5) one_unread
    = (Raise (HTTPException 401 "Invalid token"), one_unread) /\
  mark_as_read sample_decode 1 "forged" one_unread
    = (Raise (HTTPException 401 "Invalid token"), one_unread) /\
  get_unread_count sample_decode "forged" one_unread
    = (Raise (HTTPException 401 "Invalid token"), one_unread).
Proof.
  assert (H : verify_token sample_decode "forged" = None) by reflexivity.
  split; [exact H|].
  exact (invalid_token_raises_401 sample_decode "forged" (Some 5) 1
           one_unread H).
Defined.

(** X17.  [get_notifications] and [get_unread_count] change nothing, with any
    token and any limit, whether they return or raise. *)
Theorem reads_never_write
    (jwt_decode : string -> option dict) (token : string) (limit : option Z) (w : World) :
  snd (get_notifications jwt_decode token limit w) = w /\
  snd (get_unread_count jwt_decode token w) = w.
Proof.
  split; symmetry.
  - apply (registry_get_notifications eq).
  - apply (registry_get_unread_count eq).
Qed.

Lemma mark_row_commute a u b v r :
  mark_row a u (mark_row b v r) = mark_row b v (mark_row a u r).
Proof.
  unfold mark_row.
  destruct ((id r =? b) && (user_id r =? v))%Z eqn:E1;
    destruct ((id r =? a) && (user_id r =? u))%Z eqn:E2; simpl;
    rewrite ?E1, ?E2; reflexivity.
Qed.

Lemma mark_row_twice a u r : mark_row a u (mark_row a u r) = mark_row a u r.
Proof.
  unfold mark_row.
  destruct ((id r =? a) && (user_id r =? u))%Z eqn:E; simpl; rewrite ?E; reflexivity.
Qed.

(** X18.  Acknowledging the same notification twice leaves the state of the
    first acknowledgement, and two acknowledgements, by the same or by
    different users, lead to the same state in either order. *)
Theorem acknowledgements_idempotent_and_commute
    (jwt_decode : string -> option dict) (token1 token2 : string) (u1 u2 n1 n2 : Z)
    (w : World) :
  verify_token jwt_decode token1 = Some u1 -> u1 <> 0 ->
  verify_token jwt_decode token2 = Some u2 -> u2 <> 0 ->
  snd (mark_as_read jwt_decode n1 token1 (snd (mark_as_read jwt_decode n1 token1 w)))
    = snd (mark_as_read jwt_decode n1 token1 w) /\
  snd (mark_as_read jwt_decode n2 token2 (snd (mark_as_read jwt_decode n1 token1 w)))
    = snd (mark_as_read jwt_decode n1 token1 (snd (mark_as_read jwt_decode n2 token2 w))).
Proof.
  intros Hv1 Hz1 Hv2 Hz2.
  repeat (first [ rewrite (mark_as_read_ok _ _ _ _ _ Hv1 Hz1)
                | rewrite (mark_as_read_ok _ _ _ _ _ Hv2 Hz2) ]; cbn [snd]).
  split; apply world_eq; simpl; try reflexivity; rewrite <- !list_fmap_compose;
    apply list_fmap_ext; intros i r _; simpl;
    [apply mark_row_twice | apply mark_row_commute].
Qed.

Lemma acknowledgements_idempotent_and_commute_witness :
  verify_token sample_decode "token-42" = Some 42 /\ 42 <> 0 /\
  verify_token sample_decode "token-7" = Some 7 /\ 7 <> 0 /\
  snd (mark_as_read sample_decode 1 "token-42"
         (snd (mark_as_read sample_decode 1 "token-42" three_unread)))
    = snd (mark_as_read sample_decode 1 "token-42" three_unread) /\
  snd (mark_as_read sample_decode 2 "token-7"
         (snd (mark_as_read sample_decode 1 "token-42" three_unread)))
    = snd (mark_as_read sample_decode 1 "token-42"
             (snd (mark_as_read sample_decode 2 "token-7" three_unread))).
Proof.
  assert (H1 : verify_token sample_decode "token-42" = Some 42) by reflexivity.
  assert (H2 : 42 <> 0) by lia.
  assert (H3 : verify_token sample_decode "token-7" = Some 7) by reflexivity.
  assert (H4 : 7 <> 0) by lia.
  split; [exact H1|]. split; [exact H2|]. split; [exact H3|]. split; [exact H4|].
  exact (acknowledgements_idempotent_and_commute sample_decode "token-42" "token-7"
           42 7 1 2 three_unread H1 H2 H3 H4).
Defined.

(** X19.  A token whose payload carries [sub = str(uid)], which is how the
    login of the user service writes it, resolves to [uid]: [int] reads
    back what [str] wrote, for every integer. *)
Theorem verify_token_reads_back_numeral
    (jwt_decode : string -> option dict) (token : string) (payload : dict) (uid : Z) :
  jwt_decode token = Some payload ->
  payload !! "sub" = Some (JStr (Py.str uid)) ->
  verify_token jwt_decode token = Some uid.
Proof.
  intros Hd Hs. unfold verify_token. rewrite Hd, Hs. simpl.
  rewrite int_of_str_str. reflexivity.
Qed.

Lemma verify_token_reads_back_numeral_witness :
  sample_decode "token-42" = Some {[ "sub" := JStr "42" ]} /\
  ({[ "sub" := JStr "42" ]} : dict) !! "sub" = Some (JStr (Py.str 42)) /\
  verify_token sample_decode "token-42" = Some 42.
Proof.
  assert (H1 : sample_decode "token-42" = Some {[ "sub" := JStr "42" ]}) by reflexivity.
  assert (H2 : ({[ "sub" := JStr "42" ]} : dict) !! "sub" = Some (JStr (Py.str 42)))
    by reflexivity.
  split; [exact H1|]. split; [exact H2|].
  exact (verify_token_reads_back_numeral sample_decode "token-42"
           {[ "sub" := JStr "42" ]} 42 H1 H2).
Defined.

Lemma connect_result jwt_decode isoformat websocket token uid w :
  falsy_str token = false ->
  verify_token jwt_decode (default "" token) = Some uid -> uid <> 0 ->
  link w websocket = None ->
  websocket_endpoint jwt_decode isoformat websocket token [] w =
  (Ok Receiving,
   set_outbox
     (fun o => o ++ ((fun r => (websocket, notif_json isoformat r)) <$>
                     take 20 (order_by_created_at_desc
                                (filter (unread_of uid) (notifications w)))))
     (set_active_connections
        (insert uid (default [] (active_connections w !! uid) ++ [websocket]))
        (set_accepted (fun a => a ++ [websocket]) w))).
Proof.
  intros Hf Hv Hz Hl.
  rewrite (accepted_session _ _ _ _ _ _ _ Hf Hv Hz).
  unfold except_disconnect.
  match goal with
  | |- context [bind _ _ ?w1] =>
      rewrite (bind_ok _ _ _ _ _ (replay_ok isoformat websocket uid w1 Hl))
  end.
  reflexivity.
Qed.

(** X11.  After [mark_as_read] for a notification, a new connection of the
    same user is sent at most twenty records, all of them unread records of
    that user, and none of them with the acknowledged id. *)
Theorem acknowledged_notification_is_not_replayed
    (jwt_decode : string -> option dict) (isoformat : Z -> string)
    (websocket : WebSocket) (token : string) (uid notification_id : Z) (w : World) :
  token <> "" ->
  verify_token jwt_decode token = Some uid -> uid <> 0 ->
  link w websocket = None ->
  exists rows w',
    websocket_endpoint jwt_decode isoformat websocket (Some token) []
      (snd (mark_as_read jwt_decode notification_id token w)) = (Ok Receiving, w') /\
    outbox w' = outbox w ++ ((fun r => (websocket, notif_json isoformat r)) <$> rows) /\
    (length rows <= 20)%nat /\
    Forall (fun r => id r <> notification_id /\ user_id r = uid /\ read r = false) rows.
Proof.
  intros Hne Hv Hz Hl.
  rewrite (mark_as_read_ok _ _ _ _ _ Hv Hz). cbn [snd].
  set (w1 := set_notifications (fmap (mark_row notification_id uid)) w).
  assert (Hf : falsy_str (Some token) = false) by (destruct token; [congruence | reflexivity]).
  set (rows := take 20 (order_by_created_at_desc
                          (filter (unread_of uid) (notifications w1)))).
  exists rows. eexists.
  split; [apply (connect_result jwt_decode isoformat websocket (Some token) uid w1 Hf Hv Hz Hl)|].
  split; [reflexivity|].
  split; [subst rows; rewrite length_take; lia|].
  apply Forall_forall. intros r Hr.
  assert (Hin : r ∈ filter (unread_of uid) (notifications w1)).
  { subst rows. apply elem_of_take in Hr as (i & Hi & _).
    apply list_elem_of_lookup_2 in Hi.
    unfold order_by_created_at_desc in Hi.
    rewrite merge_sort_Permutation in Hi. exact Hi. }
  apply list_elem_of_filter in Hin as [[Hu Hread] Hin].
  split; [|split; assumption].
  subst w1. simpl in Hin. apply list_elem_of_fmap in Hin as (r0 & -> & _).
  intros Hid. unfold mark_row in *.
  destruct ((id r0 =? notification_id)%Z && (user_id r0 =? uid)%Z) eqn:E.
  - simpl in Hread. discriminate.
  - apply andb_false_iff in E as [E|E]; [apply Z.eqb_neq in E | apply Z.eqb_neq in E];
      contradiction.
Qed.

Lemma acknowledged_notification_is_not_replayed_witness :
  "token-42" <> "" /\
  verify_token sample_decode "token-42" = Some 42 /\ 42 <> 0 /\
  link three_unread 0%nat = None /\
  exists rows w',
    websocket_endpoint sample_decode sample_isoformat 0%nat (Some "token-42") []
      (snd (mark_as_read sample_decode 2 "token-42" three_unread)) = (Ok Receiving, w') /\
    outbox w' =
      outbox three_unread ++
      ((fun r => (0%nat, notif_json sample_isoformat r)) <$> rows) /\
    (length rows <= 20)%nat /\
    Forall (fun r => id r <> 2 /\ user_id r = 42 /\ read r = false) rows.
Proof.
  assert (H1 : "token-42" <> "") by discriminate.
  assert (H2 : verify_token sample_decode "token-42" = Some 42) by reflexivity.
  assert (H3 : 42 <> 0) by lia.
  assert (H4 : link three_unread 0%nat = None) by reflexivity.
  split; [exact H1|]. split; [exact H2|]. split; [exact H3|]. split; [exact H4|].
  exact (acknowledged_notification_is_not_replayed sample_decode sample_isoformat 0%nat
           "token-42" 42 2 three_unread H1 H2 H3 H4).
Defined.

(** ** The events of the task service *)

Example title_examples :
  PyText.title (PyText.replace "_" " " "in_progress") = "In Progress" /\
  PyText.title "critical" = "Critical" /\ PyText.title "aB cD_e9f" = "Ab Cd_E9F".
Proof. repeat split. Qed.

Lemma task_assigned_carries a t k :
  carries (TaskService.task_assigned_event a t k) a "task_assigned" "New Task Assigned"
          ("You have been assigned to task: " +:+ t) (Some k).
Proof. repeat split; reflexivity. Qed.

Lemma task_status_carries a t s k :
  exists me, carries (TaskService.task_status_event a t s k) a "task_status_changed"
                     "Task Status Updated" me (Some k).
Proof. eexists. repeat split; reflexivity. Qed.

Lemma task_priority_carries a t p k :
  exists me, carries (TaskService.task_priority_event a t p k) a "task_priority_changed"
                     "Task Priority Updated" me (Some k).
Proof. eexists. repeat split; reflexivity. Qed.

Lemma create_task_events_inv a found t k ev :
  ev ∈ TaskService.create_task_events a found t k ->
  exists u, a = Some u /\ u <> 0 /\ ev = TaskService.task_assigned_event u t k.
Proof.
  unfold TaskService.create_task_events. destruct a as [u|]; [|intros H; inversion H].
  destruct (decide (u = 0)); [intros H; inversion H|].
  destruct found; [|intros H; inversion H].
  intros H. apply list_elem_of_singleton in H. eauto.
Qed.

Lemma update_task_events_inv upd old me t k ev :
  ev ∈ TaskService.update_task_events upd old me t k ->
  (exists a, TaskService.upd_assignee_id upd = Some a /\ a <> 0 /\
             Some a <> TaskService.assignee_id old /\
             ev = TaskService.task_assigned_event a t k) \/
  (exists e s, TaskService.assignee_id old = Some e /\ e <> 0 /\ e <> me /\
               TaskService.upd_status upd = Some s /\
               TaskService.status_value s <> TaskService.status old /\
               ev = TaskService.task_status_event e t s k) \/
  (exists e p, TaskService.assignee_id old = Some e /\ e <> 0 /\ e <> me /\
               TaskService.upd_priority upd = Some p /\
               TaskService.priority_value p <> TaskService.priority old /\
               ev = TaskService.task_priority_event e t p k).
Proof.
  unfold TaskService.update_task_events. intros H.
  apply elem_of_app in H as [H|H]; [|apply elem_of_app in H as [H|H]].
  - left. destruct (TaskService.upd_assignee_id upd) as [a|]; [|inversion H].
    destruct (decide (Some a <> TaskService.assignee_id old)); [|inversion H].
    destruct (decide (a = 0)); [inversion H|].
    apply list_elem_of_singleton in H. eauto 10.
  - right. left. destruct (TaskService.upd_status upd) as [s|]; [|inversion H].
    destruct (decide (TaskService.status_value s <> TaskService.status old));
      [|inversion H].
    destruct (TaskService.assignee_id old) as [e|]; [|inversion H].
    destruct (decide (e <> 0 /\ e <> me)) as [[H0 Hme]|]; [|inversion H].
    apply list_elem_of_singleton in H. eauto 10.
  - right. right. destruct (TaskService.upd_priority upd) as [p|]; [|inversion H].
    destruct (decide (TaskService.priority_value p <> TaskService.priority old));
      [|inversion H].
    destruct (TaskService.assignee_id old) as [e|]; [|inversion H].
    destruct (decide (e <> 0 /\ e <> me)) as [[H0 Hme]|]; [|inversion H].
    apply list_elem_of_singleton in H. eauto 10.
Qed.

Lemma published_carries ev :
  TaskService.published ev ->
  exists u ty ti me k, u <> 0 /\ carries ev u ty ti me (Some k).
Proof.
  intros [(a & found & t & k & H)|(upd & old & me & t & k & H)].
  - apply create_task_events_inv in H as (u & _ & Hu & ->).
    exists u. do 3 eexists. exists k. split; [exact Hu | apply task_assigned_carries].
  - apply update_task_events_inv in H
      as [(a & _ & Ha & _ & ->)|[(e & s & _ & He & _ & _ & _ & ->)|(e & p & _ & He & _ & _ & _ & ->)]].
    + exists a. do 3 eexists. exists k. split; [exact Ha | apply task_assigned_carries].
    + destruct (task_status_carries e t s k) as [m Hm].
      exists e. do 2 eexists. exists m, k. split; [exact He | exact Hm].
    + destruct (task_priority_carries e t p k) as [m Hm].
      exists e. do 2 eexists. exists m, k. split; [exact He | exact Hm].
Qed.

(** X20.  Every event that [create_task] and [update_task] of the task
    service publish has the four fields the consumer reads, with the types
    the INSERT takes.  So a batch of them, with no broadcast interrupted by
    a disconnect, does not stop the consumer: one unread row is stored per
    event, for a user id other than 0 and with a task id. *)
Theorem published_events_are_stored (msgs : list Msg) (w : World) :
  Forall (fun m => TaskService.published (value m)) msgs ->
  Forall uninterrupted msgs ->
  exists w' new,
    consume_notifications msgs w = (Ok tt, w') /\
    consumer_stopped w' = consumer_stopped w /\
    notifications w' = notifications w ++ new /\
    length new = length msgs /\
    Forall (fun r => read r = false /\ user_id r <> 0 /\ is_Some (task_id r)) new.
Proof.
  intros Hpub Hq.
  assert (Hwf : Forall (fun m => well_formed (value m)) msgs).
  { eapply Forall_impl; [exact Hpub|]. intros m Hm.
    destruct (published_carries _ Hm) as (u & ty & ti & me & k & _ & Hc).
    exists u, ty, ti, me, (Some k). exact Hc. }
  destruct (stream_stored msgs w Hwf Hq)
    as (w' & new & Hrun & Hstop & Hrows & _ & Hall & _).
  exists w', new.
  split; [unfold consume_notifications; rewrite Hrun; reflexivity|].
  split; [exact Hstop|]. split; [exact Hrows|].
  split; [symmetry; eapply Forall2_length, Hall|].
  clear Hrun Hrows Hwf Hq. induction Hall as [|m r msgs new (Hc & _ & Hread) Hall IH];
    [constructor|].
  inversion Hpub as [|? ? Hm Hpub']; subst.
  constructor; [|apply IH, Hpub'].
  destruct (published_carries _ Hm) as (u & ty & ti & me & k & Hu & Hc').
  destruct Hc as (C1 & _ & _ & _ & C5). destruct Hc' as (D1 & _ & _ & _ & D5).
  rewrite C1 in D1. injection D1 as ->. rewrite C5 in D5. injection D5 as D5.
  repeat split; [exact Hread | exact Hu | rewrite D5; eauto].
Qed.

Lemma published_events_are_stored_witness :
  Forall (fun m => TaskService.published (value m))
    [mkMsg (TaskService.task_assigned_event 42 "X" 9) 11;
     mkMsg (TaskService.task_status_event 42 "X" TaskService.in_progress 9) 12] /\
  Forall uninterrupted
    [mkMsg (TaskService.task_assigned_event 42 "X" 9) 11;
     mkMsg (TaskService.task_status_event 42 "X" TaskService.in_progress 9) 12] /\
  exists w' new,
    consume_notifications
      [mkMsg (TaskService.task_assigned_event 42 "X" 9) 11;
       mkMsg (TaskService.task_status_event 42 "X" TaskService.in_progress 9) 12] boot
      = (Ok tt, w') /\
    consumer_stopped w' = consumer_stopped boot /\
    notifications w' = notifications boot ++ new /\
    length new =
      length [mkMsg (TaskService.task_assigned_event 42 "X" 9) 11;
              mkMsg (TaskService.task_status_event 42 "X" TaskService.in_progress 9) 12] /\
    Forall (fun r => read r = false /\ user_id r <> 0 /\ is_Some (task_id r)) new.
Proof.
  assert (Hq : Forall uninterrupted
                 [mkMsg (TaskService.task_assigned_event 42 "X" 9) 11;
                  mkMsg (TaskService.task_status_event 42 "X" TaskService.in_progress 9)
                        12])
    by (repeat constructor).
  split; [exact sample_events_published|]. split; [exact Hq|].
  exact (published_events_are_stored _ boot sample_events_published Hq).
Defined.

(** X21.  What [update_task] publishes.  Every event carries the id of the
    updated task and a user id other than 0.  A [task_assigned] event goes
    to the new assignee, who differs from the stored one; a status or
    priority event goes to the stored assignee and never to the user who
    made the change. *)
Theorem update_notifies_others_only
    (task_update : TaskService.TaskUpdate) (existing_task : TaskService.ExistingTask)
    (current_user_id : Z) (updated_title : string) (task_id : Z) (ev : dict) :
  ev ∈ TaskService.update_task_events task_update existing_task current_user_id
         updated_title task_id ->
  ev !! "user_id" <> Some (JInt 0) /\
  ev !! "task_id" = Some (JInt task_id) /\
  (ev !! "type" = Some (JStr "task_assigned") /\
   ev !! "user_id" = JInt <$> TaskService.upd_assignee_id task_update /\
   TaskService.upd_assignee_id task_update <> TaskService.assignee_id existing_task
   \/
   (ev !! "type" = Some (JStr "task_status_changed") \/
    ev !! "type" = Some (JStr "task_priority_changed")) /\
   ev !! "user_id" = JInt <$> TaskService.assignee_id existing_task /\
   ev !! "user_id" <> Some (JInt current_user_id)).
Proof.
  intros H. apply update_task_events_inv in H
    as [(a & Ha & Ha0 & Hne & ->)
       |[(e & s & He & He0 & Hme & _ & _ & ->)|(e & p & He & He0 & Hme & _ & _ & ->)]].
  - split; [intros [= ?]; contradiction|]. split; [reflexivity|].
    left. repeat split; rewrite Ha; [reflexivity | exact Hne].
  - split; [intros [= ?]; contradiction|]. split; [reflexivity|].
    right. rewrite He. repeat split; [left; reflexivity | intros [= ?]; contradiction].
  - split; [intros [= ?]; contradiction|]. split; [reflexivity|].
    right. rewrite He. repeat split; [right; reflexivity | intros [= ?]; contradiction].
Qed.

Lemma update_notifies_others_only_witness :
  (TaskService.task_status_event 42 "X" TaskService.in_progress 9
     ∈ TaskService.update_task_events sample_update sample_task 1 "X" 9) /\
  TaskService.task_status_event 42 "X" TaskService.in_progress 9 !! "user_id"
    <> Some (JInt 0) /\
  TaskService.task_status_event 42 "X" TaskService.in_progress 9 !! "task_id"
    = Some (JInt 9) /\
  (TaskService.task_status_event 42 "X" TaskService.in_progress 9 !! "type"
     = Some (JStr "task_assigned") /\
   TaskService.task_status_event 42 "X" TaskService.in_progress 9 !! "user_id"
     = JInt <$> TaskService.upd_assignee_id sample_update /\
   TaskService.upd_assignee_id sample_update <> TaskService.assignee_id sample_task
   \/
   (TaskService.task_status_event 42 "X" TaskService.in_progress 9 !! "type"
      = Some (JStr "task_status_changed") \/
    TaskService.task_status_event 42 "X" TaskService.in_progress 9 !! "type"
      = Some (JStr "task_priority_changed")) /\
   TaskService.task_status_event 42 "X" TaskService.in_progress 9 !! "user_id"
     = JInt <$> TaskService.assignee_id sample_task /\
   TaskService.task_status_event 42 "X" TaskService.in_progress 9 !! "user_id"
     <> Some (JInt 1)).
Proof.
  split; [exact sample_update_publishes_status|].
  exact (update_notifies_others_only sample_update sample_task 1 "X" 9 _
           sample_update_publishes_status).
Defined.
